(** * Secure password manager: the cryptographic core and its persistence boundary

    A shallow embedding of [crypto_manager.py] (class [CryptoManager]) and of
    [Database.update_credential] from [database.py], together with the library
    behaviour those two files rely on:

    - Python's [str] and [bytes], the UTF-8 codec behind [str.encode] and
      [bytes.decode], and the character predicates [str.isupper], [str.islower],
      [str.isdigit] (CPython 3.11, Unicode 14.0.0);
    - [base64.urlsafe_b64encode] / [base64.urlsafe_b64decode];
    - the Fernet token format of the [cryptography] package (PKCS7 padding,
      AES-128 in CBC mode, HMAC-SHA256) and PBKDF2-HMAC-SHA256;
    - [bcrypt.checkpw].

    The constructions are written out; only the primitives underneath them
    (the SHA-256 hash, the AES-128 block cipher and bcrypt's hash function)
    are left open, as the fields of the class [Primitives].  Exceptions are
    values of the type [exn]; a Python call is a function into [result], and
    one that reads the clock, the random source or the salt file is a function
    of the [World]. *)

From Stdlib Require Import NArith ZArith Arith List Bool Lia Ascii.
From Stdlib Require String.
Import String.StringSyntax.
Delimit Scope string_scope with string.
From Stdlib Require Import Strings.Byte.
Import ListNotations.

(* ================================================================== *)
(** * Python values: [str], [bytes], exceptions                        *)
(* ================================================================== *)

(** A Python [str] is a sequence of code points, [0 <= c <= 0x10FFFF].  Lone
    surrogates ([0xD800 .. 0xDFFF]) are legal elements of a [str]. *)
Definition str := list N.

(** A Python [bytes] object. *)
Definition bytes := list byte.

(** A string literal with ASCII characters only. *)
Definition pystr (s : String.string) : str :=
  map N_of_ascii (String.list_ascii_of_string s).
Arguments pystr s%_string.

(** The integer value of a byte, and the byte of an integer below 256. *)
Definition byte_val (b : byte) : N := Byte.to_N b.

Definition byte_of (n : N) : byte :=
  match Byte.of_N n with
  | Some b => b
  | None => x00
  end.

(** [data[i:]] and [data[:i]] for a non-negative [i]; [data[-k:]] and
    [data[:-k]] for a positive [k] (a [k] above the length selects everything,
    respectively nothing, as Python's slices do). *)
Definition slice_from {A} (i : nat) (data : list A) : list A := skipn i data.
Definition slice_to {A} (i : nat) (data : list A) : list A := firstn i data.
Definition slice_last {A} (k : nat) (data : list A) : list A := skipn (length data - k) data.
Definition slice_but_last {A} (k : nat) (data : list A) : list A := firstn (length data - k) data.

(** ** Exceptions

    The exception classes this program can meet; every one of them is a
    subclass of [Exception], so an [except Exception] clause catches them all.
    The codec errors keep the attributes Python gives them ([object], [start],
    [end], [reason]; the encoding is always ['utf-8']). *)
Inductive exn : Type :=
| UnicodeEncodeError (object : str) (start stop : nat) (reason : str)
| UnicodeDecodeError (object : bytes) (start stop : nat) (reason : str)
| BinasciiError (msg : str)
| InvalidSignature
| InvalidToken
| ValueError (msg : str)
| OverflowError (msg : str)
| OSError (msg : str).

(** The outcome of a call: it returns a value or raises. *)
Inductive result (A : Type) : Type :=
| Returns (a : A)
| Raises (e : exn).
Arguments Returns {A} a.
Arguments Raises {A} e.

Definition bind {A B} (r : result A) (k : A -> result B) : result B :=
  match r with
  | Returns a => k a
  | Raises e => Raises e
  end.

Notation "x <- r ;; k" := (bind r (fun x => k))
  (at level 61, r at next level, right associativity).

(** [try: body  except Exception as e: handler e]. *)
Definition try_except {A} (body : result A) (handler : exn -> result A) : result A :=
  match body with
  | Returns a => Returns a
  | Raises e => handler e
  end.

(** [try: body  except (...): raise e']: every exception of the body is replaced. *)
Definition reraise_as {A} (e' : exn) (body : result A) : result A :=
  try_except body (fun _ => Raises e').

(** ** Formatting, as [str(e)] needs it *)

Definition digit_char (d : N) : N := (if d <? 10 then 48 + d else 87 + d)%N.

Fixpoint uint_str (u : Decimal.uint) : str :=
  match u with
  | Decimal.Nil => []
  | Decimal.D0 u => 48 :: uint_str u
  | Decimal.D1 u => 49 :: uint_str u
  | Decimal.D2 u => 50 :: uint_str u
  | Decimal.D3 u => 51 :: uint_str u
  | Decimal.D4 u => 52 :: uint_str u
  | Decimal.D5 u => 53 :: uint_str u
  | Decimal.D6 u => 54 :: uint_str u
  | Decimal.D7 u => 55 :: uint_str u
  | Decimal.D8 u => 56 :: uint_str u
  | Decimal.D9 u => 57 :: uint_str u
  end%N.

(** [%d] of a non-negative integer. *)
Definition dec_str (n : nat) : str := uint_str (Nat.to_uint n).

(** [%0<width>x] of an integer below [16 ^ width]. *)
Fixpoint hex_str (width : nat) (n : N) : str :=
  match width with
  | O => []
  | S w => hex_str w (n / 16)%N ++ [digit_char (n mod 16)%N]
  end.

(** [str(e)]: the message of an exception.  [InvalidToken] and
    [InvalidSignature] are raised without arguments, so their text is empty. *)
Definition exn_str (e : exn) : str :=
  match e with
  | UnicodeEncodeError object start stop reason =>
      if (start <? length object) && (stop =? S start) then
        let badchar := nth start object 0%N in
        pystr "'utf-8' codec can't encode character '\"
        ++ (if badchar <=? 0xff then pystr "x" ++ hex_str 2 badchar
            else if badchar <=? 0xffff then pystr "u" ++ hex_str 4 badchar
            else pystr "U" ++ hex_str 8 badchar)%N
        ++ pystr "' in position " ++ dec_str start ++ pystr ": " ++ reason
      else
        pystr "'utf-8' codec can't encode characters in position "
        ++ dec_str start ++ pystr "-" ++ dec_str (stop - 1) ++ pystr ": " ++ reason
  | UnicodeDecodeError object start stop reason =>
      if (start <? length object) && (stop =? S start) then
        pystr "'utf-8' codec can't decode byte 0x"
        ++ hex_str 2 (byte_val (nth start object x00))
        ++ pystr " in position " ++ dec_str start ++ pystr ": " ++ reason
      else
        pystr "'utf-8' codec can't decode bytes in position "
        ++ dec_str start ++ pystr "-" ++ dec_str (stop - 1) ++ pystr ": " ++ reason
  | BinasciiError msg => msg
  | InvalidSignature => pystr "Signature did not match digest."
  | InvalidToken => []
  | ValueError msg => msg
  | OverflowError msg => msg
  | OSError msg => msg
  end.

(* ================================================================== *)
(** * The UTF-8 codec: [str.encode()] and [bytes.decode()]             *)
(* ================================================================== *)

Module Utf8.

Definition is_surrogate (c : N) : bool := ((0xD800 <=? c) && (c <=? 0xDFFF))%N.

(** The number of surrogates at the head of [s]: the encoder reports a whole
    run of them as one error. *)
Fixpoint surrogate_run (s : str) : nat :=
  match s with
  | c :: s' => if is_surrogate c then S (surrogate_run s') else 0
  | [] => 0
  end.

(** The bytes of one code point that is not a surrogate. *)
Definition encode_char (c : N) : bytes :=
  (if c <? 0x80 then [byte_of c]
   else if c <? 0x800 then [byte_of (0xC0 + c / 64); byte_of (0x80 + c mod 64)]
   else if c <? 0x10000 then
     [byte_of (0xE0 + c / 4096); byte_of (0x80 + (c / 64) mod 64); byte_of (0x80 + c mod 64)]
   else
     [byte_of (0xF0 + c / 262144); byte_of (0x80 + (c / 4096) mod 64);
      byte_of (0x80 + (c / 64) mod 64); byte_of (0x80 + c mod 64)])%N.

(** The encoder at position [pos] of [object], with [s] still to encode.  The
    error handler is ['strict']: a surrogate raises [UnicodeEncodeError].  A
    value above [0x10FFFF] is no code point: [chr] refuses to build it. *)
Fixpoint encode_from (object : str) (pos : nat) (s : str) : result bytes :=
  match s with
  | [] => Returns []
  | c :: s' =>
      if is_surrogate c then
        Raises (UnicodeEncodeError object pos (pos + surrogate_run s)
                  (pystr "surrogates not allowed"))
      else if (0x10FFFF <? c)%N then
        Raises (ValueError (pystr "chr() arg not in range(0x110000)"))
      else
        rest <- encode_from object (S pos) s' ;;
        Returns (encode_char c ++ rest)
  end.

(** [s.encode()]. *)
Definition encode (s : str) : result bytes := encode_from s 0 s.

Definition is_continuation (b : N) : bool := ((0x80 <=? b) && (b <? 0xC0))%N.

(** The decoder at position [pos] of [object], with [s] still to decode.  It
    accepts exactly the well-formed sequences: no overlong form, no surrogate,
    nothing above [0x10FFFF].  A truncated sequence at the end of the data is
    reported up to the end; a bad continuation byte is reported with the bytes
    read before it. *)
Fixpoint decode_from (object : bytes) (pos : nat) (s : bytes) {struct s} : result str :=
  let invalid_start :=
    Raises (UnicodeDecodeError object pos (pos + 1) (pystr "invalid start byte")) in
  let invalid_continuation n :=
    Raises (UnicodeDecodeError object pos (pos + n) (pystr "invalid continuation byte")) in
  let unexpected_end :=
    Raises (UnicodeDecodeError object pos (pos + length s) (pystr "unexpected end of data")) in
  match s with
  | [] => Returns []
  | b1 :: s1 =>
    let ch := byte_val b1 in
    if (ch <? 0x80)%N then
      rest <- decode_from object (pos + 1) s1 ;; Returns (ch :: rest)
    else if (ch <? 0xC2)%N then invalid_start
    else if (ch <? 0xE0)%N then
      match s1 with
      | [] => unexpected_end
      | b2 :: s2 =>
        let ch2 := byte_val b2 in
        if negb (is_continuation ch2) then invalid_continuation 1
        else
          rest <- decode_from object (pos + 2) s2 ;;
          Returns ((ch mod 32 * 64 + ch2 mod 64)%N :: rest)
      end
    else if (ch <? 0xF0)%N then
      match s1 with
      | [] => unexpected_end
      | b2 :: s2 =>
        let ch2 := byte_val b2 in
        if negb (is_continuation ch2)
           || (if ch2 <? 0xA0 then ch =? 0xE0 else ch =? 0xED)%N
        then invalid_continuation 1
        else
          match s2 with
          | [] => unexpected_end
          | b3 :: s3 =>
            let ch3 := byte_val b3 in
            if negb (is_continuation ch3) then invalid_continuation 2
            else
              rest <- decode_from object (pos + 3) s3 ;;
              Returns ((ch mod 16 * 4096 + ch2 mod 64 * 64 + ch3 mod 64)%N :: rest)
          end
      end
    else if (ch <? 0xF5)%N then
      match s1 with
      | [] => unexpected_end
      | b2 :: s2 =>
        let ch2 := byte_val b2 in
        if negb (is_continuation ch2)
           || (if ch2 <? 0x90 then ch =? 0xF0 else ch =? 0xF4)%N
        then invalid_continuation 1
        else
          match s2 with
          | [] => unexpected_end
          | b3 :: s3 =>
            let ch3 := byte_val b3 in
            if negb (is_continuation ch3) then invalid_continuation 2
            else
              match s3 with
              | [] => unexpected_end
              | b4 :: s4 =>
                let ch4 := byte_val b4 in
                if negb (is_continuation ch4) then invalid_continuation 3
                else
                  rest <- decode_from object (pos + 4) s4 ;;
                  Returns ((ch mod 8 * 262144 + ch2 mod 64 * 4096
                            + ch3 mod 64 * 64 + ch4 mod 64)%N :: rest)
              end
          end
      end
    else invalid_start
  end.

(** [data.decode()]. *)
Definition decode (data : bytes) : result str := decode_from data 0 data.

End Utf8.

(** A Unicode scalar value: a code point that is not a surrogate. *)
Definition scalar (c : N) : Prop := Utf8.is_surrogate c = false /\ (c <= 0x10FFFF)%N.

(** A string that has a UTF-8 encoding: scalar values only. *)
Definition encodable (s : str) : Prop := Forall scalar s.

(** ASCII data: every byte below 128. *)
Definition ascii_bytes (data : bytes) : Prop := Forall (fun b => (byte_val b < 128)%N) data.

(* ================================================================== *)
(** * Character predicates: [str.isupper], [str.islower], [str.isdigit] *)
(* ================================================================== *)

(** The tables are those of the Unicode Character Database 14.0.0, the version
    CPython 3.11 is built with; each is a sorted list of inclusive ranges. *)
Module UnicodeData.

(** Code points [c] with [chr(c).isupper()]: the Uppercase property. *)
Definition uppercase_ranges : list (N * N) := [
  (65, 90); (192, 214); (216, 222); (256, 256); (258, 258); (260, 260); (262, 262); (264, 264);
  (266, 266); (268, 268); (270, 270); (272, 272); (274, 274); (276, 276); (278, 278);
  (280, 280); (282, 282); (284, 284); (286, 286); (288, 288); (290, 290); (292, 292);
  (294, 294); (296, 296); (298, 298); (300, 300); (302, 302); (304, 304); (306, 306);
  (308, 308); (310, 310); (313, 313); (315, 315); (317, 317); (319, 319); (321, 321);
  (323, 323); (325, 325); (327, 327); (330, 330); (332, 332); (334, 334); (336, 336);
  (338, 338); (340, 340); (342, 342); (344, 344); (346, 346); (348, 348); (350, 350);
  (352, 352); (354, 354); (356, 356); (358, 358); (360, 360); (362, 362); (364, 364);
  (366, 366); (368, 368); (370, 370); (372, 372); (374, 374); (376, 377); (379, 379);
  (381, 381); (385, 386); (388, 388); (390, 391); (393, 395); (398, 401); (403, 404);
  (406, 408); (412, 413); (415, 416); (418, 418); (420, 420); (422, 423); (425, 425);
  (428, 428); (430, 431); (433, 435); (437, 437); (439, 440); (444, 444); (452, 452);
  (455, 455); (458, 458); (461, 461); (463, 463); (465, 465); (467, 467); (469, 469);
  (471, 471); (473, 473); (475, 475); (478, 478); (480, 480); (482, 482); (484, 484);
  (486, 486); (488, 488); (490, 490); (492, 492); (494, 494); (497, 497); (500, 500);
  (502, 504); (506, 506); (508, 508); (510, 510); (512, 512); (514, 514); (516, 516);
  (518, 518); (520, 520); (522, 522); (524, 524); (526, 526); (528, 528); (530, 530);
  (532, 532); (534, 534); (536, 536); (538, 538); (540, 540); (542, 542); (544, 544);
  (546, 546); (548, 548); (550, 550); (552, 552); (554, 554); (556, 556); (558, 558);
  (560, 560); (562, 562); (570, 571); (573, 574); (577, 577); (579, 582); (584, 584);
  (586, 586); (588, 588); (590, 590); (880, 880); (882, 882); (886, 886); (895, 895);
  (902, 902); (904, 906); (908, 908); (910, 911); (913, 929); (931, 939); (975, 975);
  (978, 980); (984, 984); (986, 986); (988, 988); (990, 990); (992, 992); (994, 994);
  (996, 996); (998, 998); (1000, 1000); (1002, 1002); (1004, 1004); (1006, 1006); (1012, 1012);
  (1015, 1015); (1017, 1018); (1021, 1071); (1120, 1120); (1122, 1122); (1124, 1124);
  (1126, 1126); (1128, 1128); (1130, 1130); (1132, 1132); (1134, 1134); (1136, 1136);
  (1138, 1138); (1140, 1140); (1142, 1142); (1144, 1144); (1146, 1146); (1148, 1148);
  (1150, 1150); (1152, 1152); (1162, 1162); (1164, 1164); (1166, 1166); (1168, 1168);
  (1170, 1170); (1172, 1172); (1174, 1174); (1176, 1176); (1178, 1178); (1180, 1180);
  (1182, 1182); (1184, 1184); (1186, 1186); (1188, 1188); (1190, 1190); (1192, 1192);
  (1194, 1194); (1196, 1196); (1198, 1198); (1200, 1200); (1202, 1202); (1204, 1204);
  (1206, 1206); (1208, 1208); (1210, 1210); (1212, 1212); (1214, 1214); (1216, 1217);
  (1219, 1219); (1221, 1221); (1223, 1223); (1225, 1225); (1227, 1227); (1229, 1229);
  (1232, 1232); (1234, 1234); (1236, 1236); (1238, 1238); (1240, 1240); (1242, 1242);
  (1244, 1244); (1246, 1246); (1248, 1248); (1250, 1250); (1252, 1252); (1254, 1254);
  (1256, 1256); (1258, 1258); (1260, 1260); (1262, 1262); (1264, 1264); (1266, 1266);
  (1268, 1268); (1270, 1270); (1272, 1272); (1274, 1274); (1276, 1276); (1278, 1278);
  (1280, 1280); (1282, 1282); (1284, 1284); (1286, 1286); (1288, 1288); (1290, 1290);
  (1292, 1292); (1294, 1294); (1296, 1296); (1298, 1298); (1300, 1300); (1302, 1302);
  (1304, 1304); (1306, 1306); (1308, 1308); (1310, 1310); (1312, 1312); (1314, 1314);
  (1316, 1316); (1318, 1318); (1320, 1320); (1322, 1322); (1324, 1324); (1326, 1326);
  (1329, 1366); (4256, 4293); (4295, 4295); (4301, 4301); (5024, 5109); (7312, 7354);
  (7357, 7359); (7680, 7680); (7682, 7682); (7684, 7684); (7686, 7686); (7688, 7688);
  (7690, 7690); (7692, 7692); (7694, 7694); (7696, 7696); (7698, 7698); (7700, 7700);
  (7702, 7702); (7704, 7704); (7706, 7706); (7708, 7708); (7710, 7710); (7712, 7712);
  (7714, 7714); (7716, 7716); (7718, 7718); (7720, 7720); (7722, 7722); (7724, 7724);
  (7726, 7726); (7728, 7728); (7730, 7730); (7732, 7732); (7734, 7734); (7736, 7736);
  (7738, 7738); (7740, 7740); (7742, 7742); (7744, 7744); (7746, 7746); (7748, 7748);
  (7750, 7750); (7752, 7752); (7754, 7754); (7756, 7756); (7758, 7758); (7760, 7760);
  (7762, 7762); (7764, 7764); (7766, 7766); (7768, 7768); (7770, 7770); (7772, 7772);
  (7774, 7774); (7776, 7776); (7778, 7778); (7780, 7780); (7782, 7782); (7784, 7784);
  (7786, 7786); (7788, 7788); (7790, 7790); (7792, 7792); (7794, 7794); (7796, 7796);
  (7798, 7798); (7800, 7800); (7802, 7802); (7804, 7804); (7806, 7806); (7808, 7808);
  (7810, 7810); (7812, 7812); (7814, 7814); (7816, 7816); (7818, 7818); (7820, 7820);
  (7822, 7822); (7824, 7824); (7826, 7826); (7828, 7828); (7838, 7838); (7840, 7840);
  (7842, 7842); (7844, 7844); (7846, 7846); (7848, 7848); (7850, 7850); (7852, 7852);
  (7854, 7854); (7856, 7856); (7858, 7858); (7860, 7860); (7862, 7862); (7864, 7864);
  (7866, 7866); (7868, 7868); (7870, 7870); (7872, 7872); (7874, 7874); (7876, 7876);
  (7878, 7878); (7880, 7880); (7882, 7882); (7884, 7884); (7886, 7886); (7888, 7888);
  (7890, 7890); (7892, 7892); (7894, 7894); (7896, 7896); (7898, 7898); (7900, 7900);
  (7902, 7902); (7904, 7904); (7906, 7906); (7908, 7908); (7910, 7910); (7912, 7912);
  (7914, 7914); (7916, 7916); (7918, 7918); (7920, 7920); (7922, 7922); (7924, 7924);
  (7926, 7926); (7928, 7928); (7930, 7930); (7932, 7932); (7934, 7934); (7944, 7951);
  (7960, 7965); (7976, 7983); (7992, 7999); (8008, 8013); (8025, 8025); (8027, 8027);
  (8029, 8029); (8031, 8031); (8040, 8047); (8120, 8123); (8136, 8139); (8152, 8155);
  (8168, 8172); (8184, 8187); (8450, 8450); (8455, 8455); (8459, 8461); (8464, 8466);
  (8469, 8469); (8473, 8477); (8484, 8484); (8486, 8486); (8488, 8488); (8490, 8493);
  (8496, 8499); (8510, 8511); (8517, 8517); (8544, 8559); (8579, 8579); (9398, 9423);
  (11264, 11311); (11360, 11360); (11362, 11364); (11367, 11367); (11369, 11369);
  (11371, 11371); (11373, 11376); (11378, 11378); (11381, 11381); (11390, 11392);
  (11394, 11394); (11396, 11396); (11398, 11398); (11400, 11400); (11402, 11402);
  (11404, 11404); (11406, 11406); (11408, 11408); (11410, 11410); (11412, 11412);
  (11414, 11414); (11416, 11416); (11418, 11418); (11420, 11420); (11422, 11422);
  (11424, 11424); (11426, 11426); (11428, 11428); (11430, 11430); (11432, 11432);
  (11434, 11434); (11436, 11436); (11438, 11438); (11440, 11440); (11442, 11442);
  (11444, 11444); (11446, 11446); (11448, 11448); (11450, 11450); (11452, 11452);
  (11454, 11454); (11456, 11456); (11458, 11458); (11460, 11460); (11462, 11462);
  (11464, 11464); (11466, 11466); (11468, 11468); (11470, 11470); (11472, 11472);
  (11474, 11474); (11476, 11476); (11478, 11478); (11480, 11480); (11482, 11482);
  (11484, 11484); (11486, 11486); (11488, 11488); (11490, 11490); (11499, 11499);
  (11501, 11501); (11506, 11506); (42560, 42560); (42562, 42562); (42564, 42564);
  (42566, 42566); (42568, 42568); (42570, 42570); (42572, 42572); (42574, 42574);
  (42576, 42576); (42578, 42578); (42580, 42580); (42582, 42582); (42584, 42584);
  (42586, 42586); (42588, 42588); (42590, 42590); (42592, 42592); (42594, 42594);
  (42596, 42596); (42598, 42598); (42600, 42600); (42602, 42602); (42604, 42604);
  (42624, 42624); (42626, 42626); (42628, 42628); (42630, 42630); (42632, 42632);
  (42634, 42634); (42636, 42636); (42638, 42638); (42640, 42640); (42642, 42642);
  (42644, 42644); (42646, 42646); (42648, 42648); (42650, 42650); (42786, 42786);
  (42788, 42788); (42790, 42790); (42792, 42792); (42794, 42794); (42796, 42796);
  (42798, 42798); (42802, 42802); (42804, 42804); (42806, 42806); (42808, 42808);
  (42810, 42810); (42812, 42812); (42814, 42814); (42816, 42816); (42818, 42818);
  (42820, 42820); (42822, 42822); (42824, 42824); (42826, 42826); (42828, 42828);
  (42830, 42830); (42832, 42832); (42834, 42834); (42836, 42836); (42838, 42838);
  (42840, 42840); (42842, 42842); (42844, 42844); (42846, 42846); (42848, 42848);
  (42850, 42850); (42852, 42852); (42854, 42854); (42856, 42856); (42858, 42858);
  (42860, 42860); (42862, 42862); (42873, 42873); (42875, 42875); (42877, 42878);
  (42880, 42880); (42882, 42882); (42884, 42884); (42886, 42886); (42891, 42891);
  (42893, 42893); (42896, 42896); (42898, 42898); (42902, 42902); (42904, 42904);
  (42906, 42906); (42908, 42908); (42910, 42910); (42912, 42912); (42914, 42914);
  (42916, 42916); (42918, 42918); (42920, 42920); (42922, 42926); (42928, 42932);
  (42934, 42934); (42936, 42936); (42938, 42938); (42940, 42940); (42942, 42942);
  (42944, 42944); (42946, 42946); (42948, 42951); (42953, 42953); (42960, 42960);
  (42966, 42966); (42968, 42968); (42997, 42997); (65313, 65338); (66560, 66599);
  (66736, 66771); (66928, 66938); (66940, 66954); (66956, 66962); (66964, 66965);
  (68736, 68786); (71840, 71871); (93760, 93791); (119808, 119833); (119860, 119885);
  (119912, 119937); (119964, 119964); (119966, 119967); (119970, 119970); (119973, 119974);
  (119977, 119980); (119982, 119989); (120016, 120041); (120068, 120069); (120071, 120074);
  (120077, 120084); (120086, 120092); (120120, 120121); (120123, 120126); (120128, 120132);
  (120134, 120134); (120138, 120144); (120172, 120197); (120224, 120249); (120276, 120301);
  (120328, 120353); (120380, 120405); (120432, 120457); (120488, 120512); (120546, 120570);
  (120604, 120628); (120662, 120686); (120720, 120744); (120778, 120778); (125184, 125217);
  (127280, 127305); (127312, 127337); (127344, 127369)
]%N.

(** Code points [c] with [chr(c).islower()]: the Lowercase property. *)
Definition lowercase_ranges : list (N * N) := [
  (97, 122); (170, 170); (181, 181); (186, 186); (223, 246); (248, 255); (257, 257);
  (259, 259); (261, 261); (263, 263); (265, 265); (267, 267); (269, 269); (271, 271);
  (273, 273); (275, 275); (277, 277); (279, 279); (281, 281); (283, 283); (285, 285);
  (287, 287); (289, 289); (291, 291); (293, 293); (295, 295); (297, 297); (299, 299);
  (301, 301); (303, 303); (305, 305); (307, 307); (309, 309); (311, 312); (314, 314);
  (316, 316); (318, 318); (320, 320); (322, 322); (324, 324); (326, 326); (328, 329);
  (331, 331); (333, 333); (335, 335); (337, 337); (339, 339); (341, 341); (343, 343);
  (345, 345); (347, 347); (349, 349); (351, 351); (353, 353); (355, 355); (357, 357);
  (359, 359); (361, 361); (363, 363); (365, 365); (367, 367); (369, 369); (371, 371);
  (373, 373); (375, 375); (378, 378); (380, 380); (382, 384); (387, 387); (389, 389);
  (392, 392); (396, 397); (402, 402); (405, 405); (409, 411); (414, 414); (417, 417);
  (419, 419); (421, 421); (424, 424); (426, 427); (429, 429); (432, 432); (436, 436);
  (438, 438); (441, 442); (445, 447); (454, 454); (457, 457); (460, 460); (462, 462);
  (464, 464); (466, 466); (468, 468); (470, 470); (472, 472); (474, 474); (476, 477);
  (479, 479); (481, 481); (483, 483); (485, 485); (487, 487); (489, 489); (491, 491);
  (493, 493); (495, 496); (499, 499); (501, 501); (505, 505); (507, 507); (509, 509);
  (511, 511); (513, 513); (515, 515); (517, 517); (519, 519); (521, 521); (523, 523);
  (525, 525); (527, 527); (529, 529); (531, 531); (533, 533); (535, 535); (537, 537);
  (539, 539); (541, 541); (543, 543); (545, 545); (547, 547); (549, 549); (551, 551);
  (553, 553); (555, 555); (557, 557); (559, 559); (561, 561); (563, 569); (572, 572);
  (575, 576); (578, 578); (583, 583); (585, 585); (587, 587); (589, 589); (591, 659);
  (661, 696); (704, 705); (736, 740); (837, 837); (881, 881); (883, 883); (887, 887);
  (890, 893); (912, 912); (940, 974); (976, 977); (981, 983); (985, 985); (987, 987);
  (989, 989); (991, 991); (993, 993); (995, 995); (997, 997); (999, 999); (1001, 1001);
  (1003, 1003); (1005, 1005); (1007, 1011); (1013, 1013); (1016, 1016); (1019, 1020);
  (1072, 1119); (1121, 1121); (1123, 1123); (1125, 1125); (1127, 1127); (1129, 1129);
  (1131, 1131); (1133, 1133); (1135, 1135); (1137, 1137); (1139, 1139); (1141, 1141);
  (1143, 1143); (1145, 1145); (1147, 1147); (1149, 1149); (1151, 1151); (1153, 1153);
  (1163, 1163); (1165, 1165); (1167, 1167); (1169, 1169); (1171, 1171); (1173, 1173);
  (1175, 1175); (1177, 1177); (1179, 1179); (1181, 1181); (1183, 1183); (1185, 1185);
  (1187, 1187); (1189, 1189); (1191, 1191); (1193, 1193); (1195, 1195); (1197, 1197);
  (1199, 1199); (1201, 1201); (1203, 1203); (1205, 1205); (1207, 1207); (1209, 1209);
  (1211, 1211); (1213, 1213); (1215, 1215); (1218, 1218); (1220, 1220); (1222, 1222);
  (1224, 1224); (1226, 1226); (1228, 1228); (1230, 1231); (1233, 1233); (1235, 1235);
  (1237, 1237); (1239, 1239); (1241, 1241); (1243, 1243); (1245, 1245); (1247, 1247);
  (1249, 1249); (1251, 1251); (1253, 1253); (1255, 1255); (1257, 1257); (1259, 1259);
  (1261, 1261); (1263, 1263); (1265, 1265); (1267, 1267); (1269, 1269); (1271, 1271);
  (1273, 1273); (1275, 1275); (1277, 1277); (1279, 1279); (1281, 1281); (1283, 1283);
  (1285, 1285); (1287, 1287); (1289, 1289); (1291, 1291); (1293, 1293); (1295, 1295);
  (1297, 1297); (1299, 1299); (1301, 1301); (1303, 1303); (1305, 1305); (1307, 1307);
  (1309, 1309); (1311, 1311); (1313, 1313); (1315, 1315); (1317, 1317); (1319, 1319);
  (1321, 1321); (1323, 1323); (1325, 1325); (1327, 1327); (1376, 1416); (4304, 4346);
  (4349, 4351); (5112, 5117); (7296, 7304); (7424, 7615); (7681, 7681); (7683, 7683);
  (7685, 7685); (7687, 7687); (7689, 7689); (7691, 7691); (7693, 7693); (7695, 7695);
  (7697, 7697); (7699, 7699); (7701, 7701); (7703, 7703); (7705, 7705); (7707, 7707);
  (7709, 7709); (7711, 7711); (7713, 7713); (7715, 7715); (7717, 7717); (7719, 7719);
  (7721, 7721); (7723, 7723); (7725, 7725); (7727, 7727); (7729, 7729); (7731, 7731);
  (7733, 7733); (7735, 7735); (7737, 7737); (7739, 7739); (7741, 7741); (7743, 7743);
  (7745, 7745); (7747, 7747); (7749, 7749); (7751, 7751); (7753, 7753); (7755, 7755);
  (7757, 7757); (7759, 7759); (7761, 7761); (7763, 7763); (7765, 7765); (7767, 7767);
  (7769, 7769); (7771, 7771); (7773, 7773); (7775, 7775); (7777, 7777); (7779, 7779);
  (7781, 7781); (7783, 7783); (7785, 7785); (7787, 7787); (7789, 7789); (7791, 7791);
  (7793, 7793); (7795, 7795); (7797, 7797); (7799, 7799); (7801, 7801); (7803, 7803);
  (7805, 7805); (7807, 7807); (7809, 7809); (7811, 7811); (7813, 7813); (7815, 7815);
  (7817, 7817); (7819, 7819); (7821, 7821); (7823, 7823); (7825, 7825); (7827, 7827);
  (7829, 7837); (7839, 7839); (7841, 7841); (7843, 7843); (7845, 7845); (7847, 7847);
  (7849, 7849); (7851, 7851); (7853, 7853); (7855, 7855); (7857, 7857); (7859, 7859);
  (7861, 7861); (7863, 7863); (7865, 7865); (7867, 7867); (7869, 7869); (7871, 7871);
  (7873, 7873); (7875, 7875); (7877, 7877); (7879, 7879); (7881, 7881); (7883, 7883);
  (7885, 7885); (7887, 7887); (7889, 7889); (7891, 7891); (7893, 7893); (7895, 7895);
  (7897, 7897); (7899, 7899); (7901, 7901); (7903, 7903); (7905, 7905); (7907, 7907);
  (7909, 7909); (7911, 7911); (7913, 7913); (7915, 7915); (7917, 7917); (7919, 7919);
  (7921, 7921); (7923, 7923); (7925, 7925); (7927, 7927); (7929, 7929); (7931, 7931);
  (7933, 7933); (7935, 7943); (7952, 7957); (7968, 7975); (7984, 7991); (8000, 8005);
  (8016, 8023); (8032, 8039); (8048, 8061); (8064, 8071); (8080, 8087); (8096, 8103);
  (8112, 8116); (8118, 8119); (8126, 8126); (8130, 8132); (8134, 8135); (8144, 8147);
  (8150, 8151); (8160, 8167); (8178, 8180); (8182, 8183); (8305, 8305); (8319, 8319);
  (8336, 8348); (8458, 8458); (8462, 8463); (8467, 8467); (8495, 8495); (8500, 8500);
  (8505, 8505); (8508, 8509); (8518, 8521); (8526, 8526); (8560, 8575); (8580, 8580);
  (9424, 9449); (11312, 11359); (11361, 11361); (11365, 11366); (11368, 11368); (11370, 11370);
  (11372, 11372); (11377, 11377); (11379, 11380); (11382, 11389); (11393, 11393);
  (11395, 11395); (11397, 11397); (11399, 11399); (11401, 11401); (11403, 11403);
  (11405, 11405); (11407, 11407); (11409, 11409); (11411, 11411); (11413, 11413);
  (11415, 11415); (11417, 11417); (11419, 11419); (11421, 11421); (11423, 11423);
  (11425, 11425); (11427, 11427); (11429, 11429); (11431, 11431); (11433, 11433);
  (11435, 11435); (11437, 11437); (11439, 11439); (11441, 11441); (11443, 11443);
  (11445, 11445); (11447, 11447); (11449, 11449); (11451, 11451); (11453, 11453);
  (11455, 11455); (11457, 11457); (11459, 11459); (11461, 11461); (11463, 11463);
  (11465, 11465); (11467, 11467); (11469, 11469); (11471, 11471); (11473, 11473);
  (11475, 11475); (11477, 11477); (11479, 11479); (11481, 11481); (11483, 11483);
  (11485, 11485); (11487, 11487); (11489, 11489); (11491, 11492); (11500, 11500);
  (11502, 11502); (11507, 11507); (11520, 11557); (11559, 11559); (11565, 11565);
  (42561, 42561); (42563, 42563); (42565, 42565); (42567, 42567); (42569, 42569);
  (42571, 42571); (42573, 42573); (42575, 42575); (42577, 42577); (42579, 42579);
  (42581, 42581); (42583, 42583); (42585, 42585); (42587, 42587); (42589, 42589);
  (42591, 42591); (42593, 42593); (42595, 42595); (42597, 42597); (42599, 42599);
  (42601, 42601); (42603, 42603); (42605, 42605); (42625, 42625); (42627, 42627);
  (42629, 42629); (42631, 42631); (42633, 42633); (42635, 42635); (42637, 42637);
  (42639, 42639); (42641, 42641); (42643, 42643); (42645, 42645); (42647, 42647);
  (42649, 42649); (42651, 42653); (42787, 42787); (42789, 42789); (42791, 42791);
  (42793, 42793); (42795, 42795); (42797, 42797); (42799, 42801); (42803, 42803);
  (42805, 42805); (42807, 42807); (42809, 42809); (42811, 42811); (42813, 42813);
  (42815, 42815); (42817, 42817); (42819, 42819); (42821, 42821); (42823, 42823);
  (42825, 42825); (42827, 42827); (42829, 42829); (42831, 42831); (42833, 42833);
  (42835, 42835); (42837, 42837); (42839, 42839); (42841, 42841); (42843, 42843);
  (42845, 42845); (42847, 42847); (42849, 42849); (42851, 42851); (42853, 42853);
  (42855, 42855); (42857, 42857); (42859, 42859); (42861, 42861); (42863, 42872);
  (42874, 42874); (42876, 42876); (42879, 42879); (42881, 42881); (42883, 42883);
  (42885, 42885); (42887, 42887); (42892, 42892); (42894, 42894); (42897, 42897);
  (42899, 42901); (42903, 42903); (42905, 42905); (42907, 42907); (42909, 42909);
  (42911, 42911); (42913, 42913); (42915, 42915); (42917, 42917); (42919, 42919);
  (42921, 42921); (42927, 42927); (42933, 42933); (42935, 42935); (42937, 42937);
  (42939, 42939); (42941, 42941); (42943, 42943); (42945, 42945); (42947, 42947);
  (42952, 42952); (42954, 42954); (42961, 42961); (42963, 42963); (42965, 42965);
  (42967, 42967); (42969, 42969); (42998, 42998); (43000, 43002); (43824, 43866);
  (43868, 43880); (43888, 43967); (64256, 64262); (64275, 64279); (65345, 65370);
  (66600, 66639); (66776, 66811); (66967, 66977); (66979, 66993); (66995, 67001);
  (67003, 67004); (67456, 67456); (67459, 67461); (67463, 67504); (67506, 67514);
  (68800, 68850); (71872, 71903); (93792, 93823); (119834, 119859); (119886, 119892);
  (119894, 119911); (119938, 119963); (119990, 119993); (119995, 119995); (119997, 120003);
  (120005, 120015); (120042, 120067); (120094, 120119); (120146, 120171); (120198, 120223);
  (120250, 120275); (120302, 120327); (120354, 120379); (120406, 120431); (120458, 120485);
  (120514, 120538); (120540, 120545); (120572, 120596); (120598, 120603); (120630, 120654);
  (120656, 120661); (120688, 120712); (120714, 120719); (120746, 120770); (120772, 120777);
  (120779, 120779); (122624, 122633); (122635, 122654); (125218, 125251)
]%N.

(** Code points [c] with [chr(c).isdigit()]: Numeric_Type Digit or Decimal. *)
Definition digit_ranges : list (N * N) := [
  (48, 57); (178, 179); (185, 185); (1632, 1641); (1776, 1785); (1984, 1993); (2406, 2415);
  (2534, 2543); (2662, 2671); (2790, 2799); (2918, 2927); (3046, 3055); (3174, 3183);
  (3302, 3311); (3430, 3439); (3558, 3567); (3664, 3673); (3792, 3801); (3872, 3881);
  (4160, 4169); (4240, 4249); (4969, 4977); (6112, 6121); (6160, 6169); (6470, 6479);
  (6608, 6618); (6784, 6793); (6800, 6809); (6992, 7001); (7088, 7097); (7232, 7241);
  (7248, 7257); (8304, 8304); (8308, 8313); (8320, 8329); (9312, 9320); (9332, 9340);
  (9352, 9360); (9450, 9450); (9461, 9469); (9471, 9471); (10102, 10110); (10112, 10120);
  (10122, 10130); (42528, 42537); (43216, 43225); (43264, 43273); (43472, 43481);
  (43504, 43513); (43600, 43609); (44016, 44025); (65296, 65305); (66720, 66729);
  (68160, 68163); (68912, 68921); (69216, 69224); (69714, 69722); (69734, 69743);
  (69872, 69881); (69942, 69951); (70096, 70105); (70384, 70393); (70736, 70745);
  (70864, 70873); (71248, 71257); (71360, 71369); (71472, 71481); (71904, 71913);
  (72016, 72025); (72784, 72793); (73040, 73049); (73120, 73129); (92768, 92777);
  (92864, 92873); (93008, 93017); (120782, 120831); (123200, 123209); (123632, 123641);
  (125264, 125273); (127232, 127242); (130032, 130041)
]%N.

(** Code points [c] with [chr(c).isalnum()]: letters and numeric characters. *)
Definition alnum_ranges : list (N * N) := [
  (48, 57); (65, 90); (97, 122); (170, 170); (178, 179); (181, 181); (185, 186); (188, 190);
  (192, 214); (216, 246); (248, 705); (710, 721); (736, 740); (748, 748); (750, 750);
  (880, 884); (886, 887); (890, 893); (895, 895); (902, 902); (904, 906); (908, 908);
  (910, 929); (931, 1013); (1015, 1153); (1162, 1327); (1329, 1366); (1369, 1369);
  (1376, 1416); (1488, 1514); (1519, 1522); (1568, 1610); (1632, 1641); (1646, 1647);
  (1649, 1747); (1749, 1749); (1765, 1766); (1774, 1788); (1791, 1791); (1808, 1808);
  (1810, 1839); (1869, 1957); (1969, 1969); (1984, 2026); (2036, 2037); (2042, 2042);
  (2048, 2069); (2074, 2074); (2084, 2084); (2088, 2088); (2112, 2136); (2144, 2154);
  (2160, 2183); (2185, 2190); (2208, 2249); (2308, 2361); (2365, 2365); (2384, 2384);
  (2392, 2401); (2406, 2415); (2417, 2432); (2437, 2444); (2447, 2448); (2451, 2472);
  (2474, 2480); (2482, 2482); (2486, 2489); (2493, 2493); (2510, 2510); (2524, 2525);
  (2527, 2529); (2534, 2545); (2548, 2553); (2556, 2556); (2565, 2570); (2575, 2576);
  (2579, 2600); (2602, 2608); (2610, 2611); (2613, 2614); (2616, 2617); (2649, 2652);
  (2654, 2654); (2662, 2671); (2674, 2676); (2693, 2701); (2703, 2705); (2707, 2728);
  (2730, 2736); (2738, 2739); (2741, 2745); (2749, 2749); (2768, 2768); (2784, 2785);
  (2790, 2799); (2809, 2809); (2821, 2828); (2831, 2832); (2835, 2856); (2858, 2864);
  (2866, 2867); (2869, 2873); (2877, 2877); (2908, 2909); (2911, 2913); (2918, 2927);
  (2929, 2935); (2947, 2947); (2949, 2954); (2958, 2960); (2962, 2965); (2969, 2970);
  (2972, 2972); (2974, 2975); (2979, 2980); (2984, 2986); (2990, 3001); (3024, 3024);
  (3046, 3058); (3077, 3084); (3086, 3088); (3090, 3112); (3114, 3129); (3133, 3133);
  (3160, 3162); (3165, 3165); (3168, 3169); (3174, 3183); (3192, 3198); (3200, 3200);
  (3205, 3212); (3214, 3216); (3218, 3240); (3242, 3251); (3253, 3257); (3261, 3261);
  (3293, 3294); (3296, 3297); (3302, 3311); (3313, 3314); (3332, 3340); (3342, 3344);
  (3346, 3386); (3389, 3389); (3406, 3406); (3412, 3414); (3416, 3425); (3430, 3448);
  (3450, 3455); (3461, 3478); (3482, 3505); (3507, 3515); (3517, 3517); (3520, 3526);
  (3558, 3567); (3585, 3632); (3634, 3635); (3648, 3654); (3664, 3673); (3713, 3714);
  (3716, 3716); (3718, 3722); (3724, 3747); (3749, 3749); (3751, 3760); (3762, 3763);
  (3773, 3773); (3776, 3780); (3782, 3782); (3792, 3801); (3804, 3807); (3840, 3840);
  (3872, 3891); (3904, 3911); (3913, 3948); (3976, 3980); (4096, 4138); (4159, 4169);
  (4176, 4181); (4186, 4189); (4193, 4193); (4197, 4198); (4206, 4208); (4213, 4225);
  (4238, 4238); (4240, 4249); (4256, 4293); (4295, 4295); (4301, 4301); (4304, 4346);
  (4348, 4680); (4682, 4685); (4688, 4694); (4696, 4696); (4698, 4701); (4704, 4744);
  (4746, 4749); (4752, 4784); (4786, 4789); (4792, 4798); (4800, 4800); (4802, 4805);
  (4808, 4822); (4824, 4880); (4882, 4885); (4888, 4954); (4969, 4988); (4992, 5007);
  (5024, 5109); (5112, 5117); (5121, 5740); (5743, 5759); (5761, 5786); (5792, 5866);
  (5870, 5880); (5888, 5905); (5919, 5937); (5952, 5969); (5984, 5996); (5998, 6000);
  (6016, 6067); (6103, 6103); (6108, 6108); (6112, 6121); (6128, 6137); (6160, 6169);
  (6176, 6264); (6272, 6276); (6279, 6312); (6314, 6314); (6320, 6389); (6400, 6430);
  (6470, 6509); (6512, 6516); (6528, 6571); (6576, 6601); (6608, 6618); (6656, 6678);
  (6688, 6740); (6784, 6793); (6800, 6809); (6823, 6823); (6917, 6963); (6981, 6988);
  (6992, 7001); (7043, 7072); (7086, 7141); (7168, 7203); (7232, 7241); (7245, 7293);
  (7296, 7304); (7312, 7354); (7357, 7359); (7401, 7404); (7406, 7411); (7413, 7414);
  (7418, 7418); (7424, 7615); (7680, 7957); (7960, 7965); (7968, 8005); (8008, 8013);
  (8016, 8023); (8025, 8025); (8027, 8027); (8029, 8029); (8031, 8061); (8064, 8116);
  (8118, 8124); (8126, 8126); (8130, 8132); (8134, 8140); (8144, 8147); (8150, 8155);
  (8160, 8172); (8178, 8180); (8182, 8188); (8304, 8305); (8308, 8313); (8319, 8329);
  (8336, 8348); (8450, 8450); (8455, 8455); (8458, 8467); (8469, 8469); (8473, 8477);
  (8484, 8484); (8486, 8486); (8488, 8488); (8490, 8493); (8495, 8505); (8508, 8511);
  (8517, 8521); (8526, 8526); (8528, 8585); (9312, 9371); (9450, 9471); (10102, 10131);
  (11264, 11492); (11499, 11502); (11506, 11507); (11517, 11517); (11520, 11557);
  (11559, 11559); (11565, 11565); (11568, 11623); (11631, 11631); (11648, 11670);
  (11680, 11686); (11688, 11694); (11696, 11702); (11704, 11710); (11712, 11718);
  (11720, 11726); (11728, 11734); (11736, 11742); (11823, 11823); (12293, 12295);
  (12321, 12329); (12337, 12341); (12344, 12348); (12353, 12438); (12445, 12447);
  (12449, 12538); (12540, 12543); (12549, 12591); (12593, 12686); (12690, 12693);
  (12704, 12735); (12784, 12799); (12832, 12841); (12872, 12879); (12881, 12895);
  (12928, 12937); (12977, 12991); (13312, 19903); (19968, 42124); (42192, 42237);
  (42240, 42508); (42512, 42539); (42560, 42606); (42623, 42653); (42656, 42735);
  (42775, 42783); (42786, 42888); (42891, 42954); (42960, 42961); (42963, 42963);
  (42965, 42969); (42994, 43009); (43011, 43013); (43015, 43018); (43020, 43042);
  (43056, 43061); (43072, 43123); (43138, 43187); (43216, 43225); (43250, 43255);
  (43259, 43259); (43261, 43262); (43264, 43301); (43312, 43334); (43360, 43388);
  (43396, 43442); (43471, 43481); (43488, 43492); (43494, 43518); (43520, 43560);
  (43584, 43586); (43588, 43595); (43600, 43609); (43616, 43638); (43642, 43642);
  (43646, 43695); (43697, 43697); (43701, 43702); (43705, 43709); (43712, 43712);
  (43714, 43714); (43739, 43741); (43744, 43754); (43762, 43764); (43777, 43782);
  (43785, 43790); (43793, 43798); (43808, 43814); (43816, 43822); (43824, 43866);
  (43868, 43881); (43888, 44002); (44016, 44025); (44032, 55203); (55216, 55238);
  (55243, 55291); (63744, 64109); (64112, 64217); (64256, 64262); (64275, 64279);
  (64285, 64285); (64287, 64296); (64298, 64310); (64312, 64316); (64318, 64318);
  (64320, 64321); (64323, 64324); (64326, 64433); (64467, 64829); (64848, 64911);
  (64914, 64967); (65008, 65019); (65136, 65140); (65142, 65276); (65296, 65305);
  (65313, 65338); (65345, 65370); (65382, 65470); (65474, 65479); (65482, 65487);
  (65490, 65495); (65498, 65500); (65536, 65547); (65549, 65574); (65576, 65594);
  (65596, 65597); (65599, 65613); (65616, 65629); (65664, 65786); (65799, 65843);
  (65856, 65912); (65930, 65931); (66176, 66204); (66208, 66256); (66273, 66299);
  (66304, 66339); (66349, 66378); (66384, 66421); (66432, 66461); (66464, 66499);
  (66504, 66511); (66513, 66517); (66560, 66717); (66720, 66729); (66736, 66771);
  (66776, 66811); (66816, 66855); (66864, 66915); (66928, 66938); (66940, 66954);
  (66956, 66962); (66964, 66965); (66967, 66977); (66979, 66993); (66995, 67001);
  (67003, 67004); (67072, 67382); (67392, 67413); (67424, 67431); (67456, 67461);
  (67463, 67504); (67506, 67514); (67584, 67589); (67592, 67592); (67594, 67637);
  (67639, 67640); (67644, 67644); (67647, 67669); (67672, 67702); (67705, 67742);
  (67751, 67759); (67808, 67826); (67828, 67829); (67835, 67867); (67872, 67897);
  (67968, 68023); (68028, 68047); (68050, 68096); (68112, 68115); (68117, 68119);
  (68121, 68149); (68160, 68168); (68192, 68222); (68224, 68255); (68288, 68295);
  (68297, 68324); (68331, 68335); (68352, 68405); (68416, 68437); (68440, 68466);
  (68472, 68497); (68521, 68527); (68608, 68680); (68736, 68786); (68800, 68850);
  (68858, 68899); (68912, 68921); (69216, 69246); (69248, 69289); (69296, 69297);
  (69376, 69415); (69424, 69445); (69457, 69460); (69488, 69505); (69552, 69579);
  (69600, 69622); (69635, 69687); (69714, 69743); (69745, 69746); (69749, 69749);
  (69763, 69807); (69840, 69864); (69872, 69881); (69891, 69926); (69942, 69951);
  (69956, 69956); (69959, 69959); (69968, 70002); (70006, 70006); (70019, 70066);
  (70081, 70084); (70096, 70106); (70108, 70108); (70113, 70132); (70144, 70161);
  (70163, 70187); (70272, 70278); (70280, 70280); (70282, 70285); (70287, 70301);
  (70303, 70312); (70320, 70366); (70384, 70393); (70405, 70412); (70415, 70416);
  (70419, 70440); (70442, 70448); (70450, 70451); (70453, 70457); (70461, 70461);
  (70480, 70480); (70493, 70497); (70656, 70708); (70727, 70730); (70736, 70745);
  (70751, 70753); (70784, 70831); (70852, 70853); (70855, 70855); (70864, 70873);
  (71040, 71086); (71128, 71131); (71168, 71215); (71236, 71236); (71248, 71257);
  (71296, 71338); (71352, 71352); (71360, 71369); (71424, 71450); (71472, 71483);
  (71488, 71494); (71680, 71723); (71840, 71922); (71935, 71942); (71945, 71945);
  (71948, 71955); (71957, 71958); (71960, 71983); (71999, 71999); (72001, 72001);
  (72016, 72025); (72096, 72103); (72106, 72144); (72161, 72161); (72163, 72163);
  (72192, 72192); (72203, 72242); (72250, 72250); (72272, 72272); (72284, 72329);
  (72349, 72349); (72368, 72440); (72704, 72712); (72714, 72750); (72768, 72768);
  (72784, 72812); (72818, 72847); (72960, 72966); (72968, 72969); (72971, 73008);
  (73030, 73030); (73040, 73049); (73056, 73061); (73063, 73064); (73066, 73097);
  (73112, 73112); (73120, 73129); (73440, 73458); (73648, 73648); (73664, 73684);
  (73728, 74649); (74752, 74862); (74880, 75075); (77712, 77808); (77824, 78894);
  (82944, 83526); (92160, 92728); (92736, 92766); (92768, 92777); (92784, 92862);
  (92864, 92873); (92880, 92909); (92928, 92975); (92992, 92995); (93008, 93017);
  (93019, 93025); (93027, 93047); (93053, 93071); (93760, 93846); (93952, 94026);
  (94032, 94032); (94099, 94111); (94176, 94177); (94179, 94179); (94208, 100343);
  (100352, 101589); (101632, 101640); (110576, 110579); (110581, 110587); (110589, 110590);
  (110592, 110882); (110928, 110930); (110948, 110951); (110960, 111355); (113664, 113770);
  (113776, 113788); (113792, 113800); (113808, 113817); (119520, 119539); (119648, 119672);
  (119808, 119892); (119894, 119964); (119966, 119967); (119970, 119970); (119973, 119974);
  (119977, 119980); (119982, 119993); (119995, 119995); (119997, 120003); (120005, 120069);
  (120071, 120074); (120077, 120084); (120086, 120092); (120094, 120121); (120123, 120126);
  (120128, 120132); (120134, 120134); (120138, 120144); (120146, 120485); (120488, 120512);
  (120514, 120538); (120540, 120570); (120572, 120596); (120598, 120628); (120630, 120654);
  (120656, 120686); (120688, 120712); (120714, 120744); (120746, 120770); (120772, 120779);
  (120782, 120831); (122624, 122654); (123136, 123180); (123191, 123197); (123200, 123209);
  (123214, 123214); (123536, 123565); (123584, 123627); (123632, 123641); (124896, 124902);
  (124904, 124907); (124909, 124910); (124912, 124926); (124928, 125124); (125127, 125135);
  (125184, 125251); (125259, 125259); (125264, 125273); (126065, 126123); (126125, 126127);
  (126129, 126132); (126209, 126253); (126255, 126269); (126464, 126467); (126469, 126495);
  (126497, 126498); (126500, 126500); (126503, 126503); (126505, 126514); (126516, 126519);
  (126521, 126521); (126523, 126523); (126530, 126530); (126535, 126535); (126537, 126537);
  (126539, 126539); (126541, 126543); (126545, 126546); (126548, 126548); (126551, 126551);
  (126553, 126553); (126555, 126555); (126557, 126557); (126559, 126559); (126561, 126562);
  (126564, 126564); (126567, 126570); (126572, 126578); (126580, 126583); (126585, 126588);
  (126590, 126590); (126592, 126601); (126603, 126619); (126625, 126627); (126629, 126633);
  (126635, 126651); (127232, 127244); (130032, 130041); (131072, 173791); (173824, 177976);
  (177984, 178205); (178208, 183969); (183984, 191456); (194560, 195101); (196608, 201546)
]%N.

Fixpoint in_ranges (c : N) (ranges : list (N * N)) : bool :=
  match ranges with
  | [] => false
  | (lo, hi) :: ranges' => ((lo <=? c) && (c <=? hi))%N || in_ranges c ranges'
  end.

(** A range lies inside one range of a table. *)
Definition covered (ranges : list (N * N)) (r : N * N) : bool :=
  existsb (fun r' => (fst r' <=? fst r)%N && (snd r <=? snd r')%N) ranges.

End UnicodeData.

(** The predicates on a one-character string [c]. *)
Definition isupper (c : N) : bool := UnicodeData.in_ranges c UnicodeData.uppercase_ranges.
Definition islower (c : N) : bool := UnicodeData.in_ranges c UnicodeData.lowercase_ranges.
Definition isdigit (c : N) : bool := UnicodeData.in_ranges c UnicodeData.digit_ranges.
Definition isalnum (c : N) : bool := UnicodeData.in_ranges c UnicodeData.alnum_ranges.

(* ================================================================== *)
(** * [base64.urlsafe_b64encode] and [base64.urlsafe_b64decode]        *)
(* ================================================================== *)

Module Base64.

Definition bytes_of_string (s : String.string) : bytes :=
  map byte_of_ascii (String.list_ascii_of_string s).
Arguments bytes_of_string s%_string.

Definition alphabet : bytes :=
  bytes_of_string "ABCDEFGHIJKLMNOPQRSTUVWXYZabcdefghijklmnopqrstuvwxyz0123456789-_".

Definition pad : byte := "="%byte.

(** The character of a six-bit value. *)
Definition char_of (v : N) : byte := nth (N.to_nat v) alphabet pad.

(** Three bytes become four characters; a last group of one or two bytes is
    completed with [=]. *)
Fixpoint urlsafe_b64encode (s : bytes) : bytes :=
  match s with
  | [] => []
  | [a] =>
      let a := byte_val a in
      [char_of (a / 4); char_of (a mod 4 * 16); pad; pad]%N
  | [a; b] =>
      let a := byte_val a in
      let b := byte_val b in
      [char_of (a / 4); char_of (a mod 4 * 16 + b / 16); char_of (b mod 16 * 4); pad]%N
  | a :: b :: c :: rest =>
      let a := byte_val a in
      let b := byte_val b in
      let c := byte_val c in
      [char_of (a / 4); char_of (a mod 4 * 16 + b / 16);
       char_of (b mod 16 * 4 + c / 64); char_of (c mod 64)]%N
      ++ urlsafe_b64encode rest
  end.

(** The six-bit value of a character, after [urlsafe_b64decode] has translated
    [-] to [+] and [_] to [/]: both spellings of 62 and of 63 are read. *)
Definition value_of (ch : byte) : option N :=
  let c := byte_val ch in
  (if (65 <=? c) && (c <=? 90) then Some (c - 65)
   else if (97 <=? c) && (c <=? 122) then Some (c - 71)
   else if (48 <=? c) && (c <=? 57) then Some (c + 4)
   else if (c =? 43) || (c =? 45) then Some 62
   else if (c =? 47) || (c =? 95) then Some 63
   else None)%N.

Definition emit (b : N) (r : result bytes) : result bytes :=
  out <- r ;; Returns (byte_of b :: out).

(** [binascii.a2b_base64] with [strict_mode=False]: a character outside the
    alphabet is skipped; a complete run of padding after at least two
    characters of a group ends the decoding; data that stops inside a group
    raises [binascii.Error].  [quad_pos] is the position in the current group
    of four, [leftchar] the bits not yet written, [pads] the padding seen since
    the last character, [written] the number of bytes produced so far. *)
Fixpoint a2b_base64 (data : bytes) (quad_pos : nat) (leftchar : N) (pads written : nat)
  : result bytes :=
  match data with
  | [] =>
      match quad_pos with
      | 0 => Returns []
      | 1 =>
          Raises (BinasciiError
            (pystr "Invalid base64-encoded string: number of data characters ("
             ++ dec_str (written / 3 * 4 + 1)
             ++ pystr ") cannot be 1 more than a multiple of 4"))
      | _ => Raises (BinasciiError (pystr "Incorrect padding"))
      end
  | this_ch :: data' =>
      if Byte.eqb this_ch pad then
        if (2 <=? quad_pos) && (4 <=? quad_pos + S pads) then Returns []
        else a2b_base64 data' quad_pos leftchar
               (if 2 <=? quad_pos then S pads else pads) written
      else
        match value_of this_ch with
        | None => a2b_base64 data' quad_pos leftchar pads written
        | Some v =>
            match quad_pos with
            | 0 => a2b_base64 data' 1 v 0 written
            | 1 => emit (leftchar * 4 + v / 16)
                     (a2b_base64 data' 2 (v mod 16)%N 0 (S written))
            | 2 => emit (leftchar * 16 + v / 4)
                     (a2b_base64 data' 3 (v mod 4)%N 0 (S written))
            | _ => emit (leftchar * 64 + v)
                     (a2b_base64 data' 0 0%N 0 (S written))
            end
        end
  end.

Definition urlsafe_b64decode (s : bytes) : result bytes := a2b_base64 s 0 0%N 0 0.

End Base64.

(* ================================================================== *)
(** * The [cryptography] package: padding, CBC, HMAC, PBKDF2, Fernet   *)
(* ================================================================== *)

Definition bytes_eqb (a b : bytes) : bool :=
  (length a =? length b) && forallb (fun p => Byte.eqb (fst p) (snd p)) (combine a b).

Definition xor_byte (a b : byte) : byte := byte_of (N.lxor (byte_val a) (byte_val b)).

(** Byte-wise exclusive or of two strings of the same length. *)
Definition xor_bytes (a b : bytes) : bytes :=
  map (fun p => xor_byte (fst p) (snd p)) (combine a b).

(** [n.to_bytes(length=8, byteorder="big")]. *)
Definition to_bytes8 (n : Z) : result bytes :=
  if (n <? 0)%Z then Raises (OverflowError (pystr "can't convert negative int to unsigned"))
  else if (2 ^ 64 <=? n)%Z then Raises (OverflowError (pystr "int too big to convert"))
  else
    let n := Z.to_N n in
    Returns (map (fun k => byte_of (n / 256 ^ N.of_nat k mod 256)%N) [7; 6; 5; 4; 3; 2; 1; 0]).

(** [int.from_bytes(data, byteorder="big")]. *)
Definition from_bytes (data : bytes) : Z :=
  Z.of_N (fold_left (fun acc b => acc * 256 + byte_val b)%N data 0%N).

Module Pkcs7.

(** The block size of AES in bytes. *)
Definition block_size : nat := 16.

(** [padder.update(data) + padder.finalize()]: between 1 and 16 bytes are
    added, each holding their number. *)
Definition pad (data : bytes) : bytes :=
  let n := block_size - length data mod block_size in
  data ++ repeat (byte_of (N.of_nat n)) n.

(** [unpadder.update(data) + unpadder.finalize()]: the data must be a positive
    number of whole blocks whose last byte [n] is between 1 and 16 and whose
    last [n] bytes all hold [n]. *)
Definition unpad (data : bytes) : result bytes :=
  let invalid := Raises (ValueError (pystr "Invalid padding bytes.")) in
  if (length data =? 0) || negb (length data mod block_size =? 0) then invalid
  else
    let last_byte := last data x00 in
    let n := N.to_nat (byte_val last_byte) in
    if (n =? 0) || (block_size <? n) then invalid
    else if forallb (Byte.eqb last_byte) (slice_last n data)
    then Returns (slice_but_last n data)
    else invalid.

End Pkcs7.

(** The primitives under the constructions: the SHA-256 hash function; the
    AES-128 block cipher, which maps a 16-byte key and a 16-byte block to a
    16-byte block in each direction; and [bcrypt.hashpw(password, salt)], which
    raises [ValueError] on a salt it cannot parse. *)
Class Primitives : Type := {
  sha256 : bytes -> bytes;
  aes_encrypt_block : bytes -> bytes -> bytes;
  aes_decrypt_block : bytes -> bytes -> bytes;
  bcrypt_hashpw : bytes -> bytes -> result bytes
}.

Section Constructions.

Context {lib : Primitives}.

(** ** AES in CBC mode *)

Fixpoint cbc_encrypt_blocks (n : nat) (key previous data : bytes) : bytes :=
  match n with
  | 0 => []
  | S n' =>
      let block := aes_encrypt_block key (xor_bytes (slice_to 16 data) previous) in
      block ++ cbc_encrypt_blocks n' key block (slice_from 16 data)
  end.

Fixpoint cbc_decrypt_blocks (n : nat) (key previous data : bytes) : bytes :=
  match n with
  | 0 => []
  | S n' =>
      let block := slice_to 16 data in
      xor_bytes (aes_decrypt_block key block) previous
      ++ cbc_decrypt_blocks n' key block (slice_from 16 data)
  end.

Definition not_block_multiple : exn :=
  ValueError (pystr "The length of the provided data is not a multiple of the block length.").

(** [Cipher(algorithms.AES(key), modes.CBC(iv))]: the initialization vector
    must be one block long. *)
Definition Cipher (key iv : bytes) : result (bytes * bytes) :=
  if length iv =? 16 then Returns (key, iv)
  else
    Raises (ValueError
      (pystr "Invalid IV size (" ++ dec_str (length iv) ++ pystr ") for CBC.")).

(** [encryptor.update(data) + encryptor.finalize()]. *)
Definition cbc_encrypt (cipher : bytes * bytes) (data : bytes) : result bytes :=
  if length data mod 16 =? 0
  then Returns (cbc_encrypt_blocks (length data / 16) (fst cipher) (snd cipher) data)
  else Raises not_block_multiple.

(** [decryptor.update(data) + decryptor.finalize()]. *)
Definition cbc_decrypt (cipher : bytes * bytes) (data : bytes) : result bytes :=
  if length data mod 16 =? 0
  then Returns (cbc_decrypt_blocks (length data / 16) (fst cipher) (snd cipher) data)
  else Raises not_block_multiple.

(** ** HMAC-SHA256 (RFC 2104, block size 64) *)

Definition hmac_sha256 (key msg : bytes) : bytes :=
  let key := if 64 <? length key then sha256 key else key in
  let key_block := key ++ repeat x00 (64 - length key) in
  let ipad := map (xor_byte x36) key_block in
  let opad := map (xor_byte x5c) key_block in
  sha256 (opad ++ sha256 (ipad ++ msg)).

(** [h.verify(signature)]. *)
Definition hmac_verify (key msg signature : bytes) : result unit :=
  if bytes_eqb (hmac_sha256 key msg) signature then Returns tt
  else Raises InvalidSignature.

(** ** PBKDF2 with HMAC-SHA256 (RFC 8018) *)

(** The four bytes of a block index, most significant first. *)
Definition int32_be (i : N) : bytes :=
  map (fun k => byte_of (i / 256 ^ N.of_nat k mod 256)%N) [3; 2; 1; 0].

(** Block [i] of the derived key: the exclusive or of the [iterations] values
    [U_1 = HMAC(password, salt || i)], [U_(j+1) = HMAC(password, U_j)]. *)
Definition pbkdf2_block (password salt : bytes) (iterations i : N) : bytes :=
  let u1 := hmac_sha256 password (salt ++ int32_be i) in
  fst (N.iter (iterations - 1)
         (fun tu => let u := hmac_sha256 password (snd tu) in (xor_bytes (fst tu) u, u))
         (u1, u1)).

(** [PBKDF2HMAC(algorithm=SHA256(), length, salt, iterations).derive(password)]. *)
Definition pbkdf2_hmac_sha256 (password salt : bytes) (iterations : N) (length : nat)
  : bytes :=
  let blocks := (length + 31) / 32 in
  slice_to length
    (flat_map (fun i => pbkdf2_block password salt iterations (N.of_nat i)) (seq 1 blocks)).

End Constructions.

(** What the constructions need of the primitives: SHA-256 returns 32 bytes,
    and under a 16-byte key the AES decryption of a block undoes its
    encryption, which again is a block. *)
Class PrimitivesLaws (lib : Primitives) : Prop := {
  sha256_length : forall msg, length (sha256 msg) = 32;
  aes_encrypt_length : forall key block,
    length key = 16 -> length block = 16 -> length (aes_encrypt_block key block) = 16;
  aes_decrypt_encrypt : forall key block,
    length key = 16 -> length block = 16 ->
    aes_decrypt_block key (aes_encrypt_block key block) = block
}.

(* ================================================================== *)
(** * The environment: the salt file, the clock, the random source     *)
(* ================================================================== *)

(** The state of the path [salt.key]: absent where it can be created and
    written, a readable file with its content, a file that exists and cannot
    be opened for reading, absent in a directory that does not let it be
    created, or absent on a device that has no room for its content. *)
Inductive file : Type :=
| NoFile
| File (content : bytes)
| Unreadable
| Uncreatable
| NoSpace.

(** [time] is what [int(time.time())] returns; [entropy] is the stream the
    operating system draws random bytes from, [drawn] how many it has given. *)
Record World : Type := {
  salt_file : file;
  time : Z;
  entropy : nat -> byte;
  drawn : nat
}.

(** A call that reads or changes the environment. *)
Definition M (A : Type) : Type := World -> result A * World.

Definition ret {A} (a : A) : M A := fun w => (Returns a, w).

Definition lift {A} (r : result A) : M A := fun w => (r, w).

Definition bindM {A B} (m : M A) (k : A -> M B) : M B :=
  fun w =>
    match m w with
    | (Returns a, w') => k a w'
    | (Raises e, w') => (Raises e, w')
    end.

Notation "x <~ m ;; k" := (bindM m (fun x => k))
  (at level 61, m at next level, right associativity).

(** [os.urandom(n)]. *)
Definition os_urandom (n : nat) : M bytes :=
  fun w =>
    (Returns (map (entropy w) (seq (drawn w) n)),
     {| salt_file := salt_file w; time := time w;
        entropy := entropy w; drawn := drawn w + n |}).

(** [int(time.time())]. *)
Definition time_time : M Z := fun w => (Returns (time w), w).

(** [os.path.exists(SALT_FILE)]. *)
Definition path_exists : M bool :=
  fun w =>
    (Returns (match salt_file w with
              | NoFile | Uncreatable | NoSpace => false
              | File _ | Unreadable => true
              end), w).

(** [open(SALT_FILE, 'rb').read()]. *)
Definition read_file : M bytes :=
  fun w =>
    match salt_file w with
    | File content => (Returns content, w)
    | Unreadable =>
        (Raises (OSError (pystr "[Errno 13] Permission denied: 'salt.key'")), w)
    | NoFile | Uncreatable | NoSpace =>
        (Raises (OSError (pystr "[Errno 2] No such file or directory: 'salt.key'")), w)
    end.

(** [with open(SALT_FILE, 'wb') as f: f.write(data)]: where the file cannot
    be created, [open] raises and nothing is written; where the device has no
    room, [open] creates the file and closing it raises, which leaves the
    file empty. *)
Definition write_file (data : bytes) : M unit :=
  fun w =>
    match salt_file w with
    | Uncreatable =>
        (Raises (OSError (pystr "[Errno 13] Permission denied: 'salt.key'")), w)
    | NoSpace =>
        (Raises (OSError (pystr "[Errno 28] No space left on device")),
         {| salt_file := File []; time := time w;
            entropy := entropy w; drawn := drawn w |})
    | NoFile | File _ | Unreadable =>
        (Returns tt,
         {| salt_file := File data; time := time w;
            entropy := entropy w; drawn := drawn w |})
    end.

(** The environment after 16 random bytes have been drawn. *)
Definition after_encrypt (w : World) : World :=
  {| salt_file := salt_file w; time := time w;
     entropy := entropy w; drawn := drawn w + 16 |}.

(* ================================================================== *)
(** * [cryptography.fernet.Fernet]                                     *)
(* ================================================================== *)

Module Fernet.

(** An instance holds the two halves of its 32-byte key. *)
Record t : Type := {
  _signing_key : bytes;
  _encryption_key : bytes
}.

Section Operations.

Context {lib : Primitives}.

Definition bad_key : exn :=
  ValueError (pystr "Fernet key must be 32 url-safe base64-encoded bytes.").

(** [Fernet(key)]. *)
Definition new (key : bytes) : result t :=
  key <- reraise_as bad_key (Base64.urlsafe_b64decode key) ;;
  if negb (length key =? 32) then Raises bad_key
  else
    Returns {| _signing_key := slice_to 16 key; _encryption_key := slice_from 16 key |}.

Definition _encrypt_from_parts (self : t) (data : bytes) (current_time : Z) (iv : bytes)
  : result bytes :=
  let padded_data := Pkcs7.pad data in
  encryptor <- Cipher (_encryption_key self) iv ;;
  ciphertext <- cbc_encrypt encryptor padded_data ;;
  timestamp <- to_bytes8 current_time ;;
  let basic_parts := [x80] ++ timestamp ++ iv ++ ciphertext in
  let hmac := hmac_sha256 (_signing_key self) basic_parts in
  Returns (Base64.urlsafe_b64encode (basic_parts ++ hmac)).

Definition encrypt_at_time (self : t) (data : bytes) (current_time : Z) : M bytes :=
  iv <~ os_urandom 16 ;;
  lift (_encrypt_from_parts self data current_time iv).

(** [self.encrypt(data)]. *)
Definition encrypt (self : t) (data : bytes) : M bytes :=
  current_time <~ time_time ;;
  encrypt_at_time self data current_time.

Definition _get_unverified_token_data (token : bytes) : result (Z * bytes) :=
  data <- reraise_as InvalidToken (Base64.urlsafe_b64decode token) ;;
  match data with
  | [] => Raises InvalidToken
  | first :: _ =>
      if negb (Byte.eqb first x80) then Raises InvalidToken
      else if length data <? 9 then Raises InvalidToken
      else Returns (from_bytes (slice_to 8 (slice_from 1 data)), data)
  end.

Definition _verify_signature (self : t) (data : bytes) : result unit :=
  reraise_as InvalidToken
    (hmac_verify (_signing_key self) (slice_but_last 32 data) (slice_last 32 data)).

(** [self._decrypt_data(data, timestamp, None)]: no time-to-live is checked. *)
Definition _decrypt_data (self : t) (data : bytes) (timestamp : Z) : result bytes :=
  _ <- _verify_signature self data ;;
  let iv := slice_to 16 (slice_from 9 data) in
  let ciphertext := slice_but_last 32 (slice_from 25 data) in
  decryptor <- Cipher (_encryption_key self) iv ;;
  plaintext_padded <- reraise_as InvalidToken (cbc_decrypt decryptor ciphertext) ;;
  reraise_as InvalidToken (Pkcs7.unpad plaintext_padded).

(** [self.decrypt(token)], with [ttl=None]. *)
Definition decrypt (self : t) (token : bytes) : result bytes :=
  td <- _get_unverified_token_data token ;;
  _decrypt_data self (snd td) (fst td).

End Operations.

End Fernet.

(* ================================================================== *)
(** * [crypto_manager.CryptoManager]                                   *)
(* ================================================================== *)

Module CryptoManager.

(** The attributes of an instance. *)
Record t : Type := {
  master_password : str;
  salt : bytes;
  key : bytes;
  fernet : Fernet.t
}.

Definition SALT_FILE : str := pystr "salt.key".
Definition ITERATIONS : N := 480000.

(** [not s] for a string [s]. *)
Definition is_empty (s : str) : bool :=
  match s with
  | [] => true
  | _ => false
  end.

(** [self._load_or_create_salt()]. *)
Definition _load_or_create_salt : M bytes :=
  exists_ <~ path_exists ;;
  if (exists_ : bool) then
    read_file
  else
    salt <~ os_urandom 16 ;;
    _ <~ write_file salt ;;
    ret salt.

Section Methods.

Context {lib : Primitives}.

(** [self._derive_key()]; it reads [self.master_password] and [self.salt]. *)
Definition _derive_key (master_password : str) (salt : bytes) : result bytes :=
  password <- Utf8.encode master_password ;;
  let key := pbkdf2_hmac_sha256 password salt ITERATIONS 32 in
  Returns (Base64.urlsafe_b64encode key).

(** The 32 bytes [_derive_key] obtains from PBKDF2 before it encodes them. *)
Definition derived (master_password : str) (salt : bytes) : bytes :=
  pbkdf2_hmac_sha256 (flat_map Utf8.encode_char master_password) salt ITERATIONS 32.

(** [CryptoManager(master_password)]. *)
Definition __init__ (master_password : str) : M t :=
  salt <~ _load_or_create_salt ;;
  key <~ lift (_derive_key master_password salt) ;;
  fernet <~ lift (Fernet.new key) ;;
  ret {| master_password := master_password; salt := salt; key := key; fernet := fernet |}.

(** The instance whose key is derived from [master_password] and [salt]. *)
Definition instance (master_password : str) (salt : bytes) : t :=
  let raw := derived master_password salt in
  {| master_password := master_password;
     salt := salt;
     key := Base64.urlsafe_b64encode raw;
     fernet := {| Fernet._signing_key := slice_to 16 raw;
                  Fernet._encryption_key := slice_from 16 raw |} |}.

(** What [__init__] establishes and no method changes: the cipher of the
    instance is the one [Fernet] builds from its key. *)
Definition bound (self : t) : Prop := Fernet.new (key self) = Returns (fernet self).

(** [self.encrypt(plaintext)]. *)
Definition encrypt (self : t) (plaintext : str) : M str :=
  if is_empty plaintext then ret []
  else
    data <~ lift (Utf8.encode plaintext) ;;
    encrypted_bytes <~ Fernet.encrypt (fernet self) data ;;
    lift (Utf8.decode encrypted_bytes).

(** [self.decrypt(ciphertext)]. *)
Definition decrypt (self : t) (ciphertext : str) : result str :=
  if is_empty ciphertext then Returns []
  else
    try_except
      (token <- Utf8.encode ciphertext ;;
       decrypted_bytes <- Fernet.decrypt (fernet self) token ;;
       Utf8.decode decrypted_bytes)
      (fun e => Raises (ValueError (pystr "Decryption failed: " ++ exn_str e))).

(** [bcrypt.checkpw(password, hashed_password)], as bcrypt 4 implements it:
    the password is hashed again with the salt and cost the stored hash
    carries, and the two are compared. *)
Definition bcrypt_checkpw (password hashed_password : bytes) : result bool :=
  rehashed <- bcrypt_hashpw password hashed_password ;;
  Returns (bytes_eqb rehashed hashed_password).

(** [CryptoManager.verify_master_password(password, hashed)]. *)
Definition verify_master_password (password hashed : str) : result bool :=
  try_except
    (password <- Utf8.encode password ;;
     hashed <- Utf8.encode hashed ;;
     bcrypt_checkpw password hashed)
    (fun _ => Returns false).

End Methods.

(* ================================================================== *)
(** * [CryptoManager.validate_password_strength]                       *)
(* ================================================================== *)

(** The string of the test [c in "!@#$%^&*()_+-=[]{}|;:,.<>?"]. *)
Definition special_characters : str := pystr "!@#$%^&*()_+-=[]{}|;:,.<>?".

(** [c in special_characters] for a one-character string [c]. *)
Definition is_special (c : N) : bool := existsb (N.eqb c) special_characters.

(** [any(p(c) for c in password)]. *)
Definition any (p : N -> bool) (password : str) : bool := existsb p password.

(** [sum(checks)] of a list of booleans. *)
Definition sum (checks : list bool) : nat := fold_right (fun b n => Nat.b2n b + n) 0 checks.

Definition validate_password_strength (password : str) : bool * str :=
  if length password <? 8 then
    (false, pystr "Password must be at least 8 characters long")
  else
    let has_upper := any isupper password in
    let has_lower := any islower password in
    let has_digit := any isdigit password in
    let has_special := any is_special password in
    let strength_checks := [has_upper; has_lower; has_digit; has_special] in
    if sum strength_checks <? 3 then
      (false, pystr "Password must contain at least 3 of: uppercase, lowercase, digit, special character")
    else
      (true, []).

(** ** The rule in the words of the specification *)

(** The four character classes. *)
Inductive char_class : Type :=
| Uppercase
| Lowercase
| Digit
| Symbol.

Definition all_classes : list char_class := [Uppercase; Lowercase; Digit; Symbol].

Definition in_class (k : char_class) (c : N) : bool :=
  match k with
  | Uppercase => isupper c
  | Lowercase => islower c
  | Digit => isdigit c
  | Symbol => is_special c
  end.

(** A class is present in a password that has a character of it. *)
Definition class_present (k : char_class) (password : str) : Prop :=
  exists c, In c password /\ in_class k c = true.

(** Length at least 8, and at least 3 of the 4 classes present. *)
Definition strong (password : str) : Prop :=
  8 <= length password
  /\ exists classes : list char_class,
       NoDup classes /\ 3 <= length classes
       /\ forall k, In k classes -> class_present k password.

End CryptoManager.

(* ================================================================== *)
(** * [database.Database]: the [credentials] table and its update      *)
(* ================================================================== *)

Module Database.

(** A value bound to a [?] of a statement. *)
Inductive value : Type :=
| TEXT (s : str)
| INTEGER (n : Z).

(** A row of [credentials]; [url] and [notes] may be [NULL]. *)
Record row : Type := {
  id : Z;
  website : str;
  username : str;
  encrypted_password : str;
  url : option str;
  notes : option str;
  created_at : str;
  modified_at : str
}.

(** The columns [update_credential] can assign. *)
Inductive column : Type :=
| c_website
| c_username
| c_encrypted_password
| c_url
| c_notes
| c_modified_at.

Definition column_name (c : column) : str :=
  match c with
  | c_website => pystr "website"
  | c_username => pystr "username"
  | c_encrypted_password => pystr "encrypted_password"
  | c_url => pystr "url"
  | c_notes => pystr "notes"
  | c_modified_at => pystr "modified_at"
  end.

(** The database file: the rows of [credentials], and the statements the
    cursor has executed so far, each with its parameters. *)
Record t : Type := {
  credentials : list row;
  executed : list (str * list value)
}.

(** [sep.join(parts)]. *)
Fixpoint join (sep : str) (parts : list str) : str :=
  match parts with
  | [] => []
  | [p] => p
  | p :: parts' => p ++ sep ++ join sep parts'
  end.

(** What a column of type [TEXT] stores for a value: an integer is kept as
    its decimal text. *)
Definition text_of (v : value) : str :=
  match v with
  | TEXT s => s
  | INTEGER n =>
      if (n <? 0)%Z then pystr "-" ++ dec_str (Z.abs_nat n) else dec_str (Z.abs_nat n)
  end.

Definition assign (c : column) (v : value) (r : row) : row :=
  let s := text_of v in
  match c with
  | c_website =>
      {| id := id r; website := s; username := username r;
         encrypted_password := encrypted_password r; url := url r; notes := notes r;
         created_at := created_at r; modified_at := modified_at r |}
  | c_username =>
      {| id := id r; website := website r; username := s;
         encrypted_password := encrypted_password r; url := url r; notes := notes r;
         created_at := created_at r; modified_at := modified_at r |}
  | c_encrypted_password =>
      {| id := id r; website := website r; username := username r;
         encrypted_password := s; url := url r; notes := notes r;
         created_at := created_at r; modified_at := modified_at r |}
  | c_url =>
      {| id := id r; website := website r; username := username r;
         encrypted_password := encrypted_password r; url := Some s; notes := notes r;
         created_at := created_at r; modified_at := modified_at r |}
  | c_notes =>
      {| id := id r; website := website r; username := username r;
         encrypted_password := encrypted_password r; url := url r; notes := Some s;
         created_at := created_at r; modified_at := modified_at r |}
  | c_modified_at =>
      {| id := id r; website := website r; username := username r;
         encrypted_password := encrypted_password r; url := url r; notes := notes r;
         created_at := created_at r; modified_at := s |}
  end.

(** [UPDATE credentials SET c1 = ?, ..., cn = ? WHERE id = ?] run with the
    parameters [values]: the first [n] go to the columns in order, the last is
    the [id] selected. *)
Definition run_update (columns : list column) (values : list value) (rows : list row)
  : list row :=
  match nth_error values (length columns) with
  | Some (INTEGER selected) =>
      map (fun r =>
             if (id r =? selected)%Z
             then fold_left (fun r cv => assign (fst cv) (snd cv) r) (combine columns values) r
             else r)
          rows
  | _ => rows
  end.

(** [self.cursor.execute(query, values)] followed by [self.conn.commit()], for
    the query that assigns [columns]. *)
Definition execute_update (query : str) (columns : list column) (values : list value)
  (db : t) : t :=
  {| credentials := run_update columns values (credentials db);
     executed := executed db ++ [(query, values)] |}.

(** One of the five [if field is not None:] blocks. *)
Definition provided (field : option str) (c : column)
  (acc : list column * list value) : list column * list value :=
  match field with
  | Some s => (fst acc ++ [c], snd acc ++ [TEXT s])
  | None => acc
  end.

(** [self.update_credential(credential_id, website, username,
    encrypted_password, url, notes)]; [now] is what
    [datetime.now().isoformat()] returns.  The list [updates] of the source
    holds the text [column = ?] of each column held here. *)
Definition update_credential (credential_id : Z)
  (website username encrypted_password url notes : option str) (now : str) (db : t) : t :=
  let acc := ([], []) in
  let acc := provided website c_website acc in
  let acc := provided username c_username acc in
  let acc := provided encrypted_password c_encrypted_password acc in
  let acc := provided url c_url acc in
  let acc := provided notes c_notes acc in
  let (updates, values) := acc in
  match updates with
  | [] => db
  | _ =>
      let updates := updates ++ [c_modified_at] in
      let values := values ++ [TEXT now] in
      let values := values ++ [INTEGER credential_id] in
      let query :=
        pystr "UPDATE credentials SET "
        ++ join (pystr ", ") (map (fun c => column_name c ++ pystr " = ?") updates)
        ++ pystr " WHERE id = ?" in
      execute_update query updates values db
  end.

End Database.

(* ================================================================== *)
(** * Stand-ins to run the model on                                    *)
(* ================================================================== *)

(** An implementation of the primitives that satisfies [PrimitivesLaws] and
    is cheap to evaluate.  It is no cryptography: the hash keeps the first 32
    bytes of its input, the block cipher adds its key to the block, and the
    password hash appends the password to the 29 characters of the salt.  The
    examples below use it where a concrete instance of the class is needed. *)
Definition sample_lib : Primitives := {|
  sha256 := fun msg => slice_to 32 (msg ++ repeat x00 32);
  aes_encrypt_block := fun key block => xor_bytes block key;
  aes_decrypt_block := fun key block => xor_bytes block key;
  bcrypt_hashpw := fun password salt =>
    if length salt <? 29 then Raises (ValueError (pystr "Invalid salt"))
    else Returns (slice_to 29 salt ++ password)
|}.

(** A vault that has its 16-byte salt on disk. *)
Definition sample_world : World := {|
  salt_file := File (repeat x2a 16);
  time := 1700000000;
  entropy := fun n => byte_of (N.of_nat n mod 256);
  drawn := 0
|}.

(** The instance [CryptoManager("Tr0ub4dor&3")] in [sample_world]. *)
Definition sample_manager : CryptoManager.t :=
  CryptoManager.instance (lib := sample_lib) (pystr "Tr0ub4dor&3") (repeat x2a 16).

(** A vault whose salt file holds three bytes. *)
Definition short_salt_world : World := {|
  salt_file := File [x01; x02; x03];
  time := 1700000000;
  entropy := fun n => byte_of (N.of_nat n mod 256);
  drawn := 0
|}.

(** An instance with a key written out, to run [encrypt] and [decrypt] on. *)
Definition fixed_key_manager : CryptoManager.t :=
  let raw := repeat x00 16 ++ repeat x01 16 in
  {| CryptoManager.master_password := pystr "Tr0ub4dor&3";
     CryptoManager.salt := repeat x2a 16;
     CryptoManager.key := Base64.urlsafe_b64encode raw;
     CryptoManager.fernet :=
       {| Fernet._signing_key := slice_to 16 raw;
          Fernet._encryption_key := slice_from 16 raw |} |}.

(** A database with two credentials. *)
Definition sample_db : Database.t :=
  {| Database.credentials :=
       [ {| Database.id := 1; Database.website := pystr "example.org";
            Database.username := pystr "alice"; Database.encrypted_password := pystr "gAAAAAB";
            Database.url := Some []; Database.notes := Some [];
            Database.created_at := pystr "2024-01-01 00:00:00";
            Database.modified_at := pystr "2024-01-01 00:00:00" |};
         {| Database.id := 2; Database.website := pystr "example.net";
            Database.username := pystr "bob"; Database.encrypted_password := pystr "gAAAAAC";
            Database.url := None; Database.notes := None;
            Database.created_at := pystr "2024-01-02 00:00:00";
            Database.modified_at := pystr "2024-01-02 00:00:00" |} ];
     Database.executed := [] |}.

(* ================================================================== *)
(** * The text of a bcrypt hash                                        *)
(* ================================================================== *)

Module Bcrypt.

(** The alphabet of bcrypt's base64. *)
Definition alphabet : str :=
  pystr "./ABCDEFGHIJKLMNOPQRSTUVWXYZabcdefghijklmnopqrstuvwxyz0123456789".

Definition in_alphabet (b : byte) : bool := existsb (N.eqb (byte_val b)) alphabet.

Definition is_digit (b : byte) : bool := ((48 <=? byte_val b) && (byte_val b <=? 57))%N.

(** The 29 characters a hash begins with: [$2a$], [$2b$], [$2x$] or [$2y$],
    the cost in two digits, [$], and the salt in 22 characters of the
    alphabet. *)
Definition salt_text (s : bytes) : bool :=
  match s with
  | dollar1 :: two :: version :: dollar2 :: cost1 :: cost2 :: dollar3 :: salt =>
      Byte.eqb dollar1 x24 && Byte.eqb two x32
      && existsb (Byte.eqb version) [x61; x62; x78; x79]
      && Byte.eqb dollar2 x24
      && is_digit cost1 && is_digit cost2
      && Byte.eqb dollar3 x24
      && (length salt =? 22) && forallb in_alphabet salt
  | _ => false
  end.

(** The text [bcrypt.hashpw] returns: 60 characters, the 29 of the salt and
    the 31 of the digest. *)
Definition hash_text (h : bytes) : bool :=
  salt_text (slice_to 29 h) && (length h =? 60) && forallb in_alphabet (slice_from 29 h).

End Bcrypt.

(** What bcrypt returns is the text of a hash, whatever it was given. *)
Definition bcrypt_format (lib : Primitives) : Prop :=
  forall password salt hashed,
    bcrypt_hashpw password salt = Returns hashed -> Bcrypt.hash_text hashed = true.

(** A stored hash that is not the text of a bcrypt hash: a corrupt, truncated
    or extended one, the hash of another scheme, or a string that has no
    encoding at all. *)
Definition malformed_hash (hashed : str) : Prop :=
  forall h, Utf8.encode hashed = Returns h -> Bcrypt.hash_text h = false.

(** The 31 characters that stand for the digest in [format_lib]. *)
Definition format_digest (password : bytes) : bytes :=
  slice_to 31
    (map (fun b => byte_of (nth (N.to_nat (byte_val b) mod 64) Bcrypt.alphabet 46%N)) password
     ++ repeat x2e 31).

(** A stand-in for bcrypt that satisfies [bcrypt_format]: it refuses a salt
    that does not begin as a hash does, and returns the 29 characters of the
    salt followed by 31 characters made from the password.  The other
    primitives are those of [sample_lib]. *)
Definition format_lib : Primitives := {|
  sha256 := sha256 (Primitives := sample_lib);
  aes_encrypt_block := aes_encrypt_block (Primitives := sample_lib);
  aes_decrypt_block := aes_decrypt_block (Primitives := sample_lib);
  bcrypt_hashpw := fun password salt =>
    if Bcrypt.salt_text (slice_to 29 salt)
    then Returns (slice_to 29 salt ++ format_digest password)
    else Raises (ValueError (pystr "Invalid salt"))
|}.

(** The hash of ["Tr0ub4dor&3"] under [format_lib] with a salt of cost 12, as
    text, and the same hash with a character added. *)
Definition format_hash : str :=
  match bcrypt_hashpw (Primitives := format_lib)
          (map byte_of (pystr "Tr0ub4dor&3"))
          (map byte_of (pystr "$2b$12$abcdefghijklmnopqrstuv")) with
  | Returns h => map byte_val h
  | Raises _ => []
  end.

Definition extended_hash : str := format_hash ++ pystr "x".

From Stdlib Require Import Sorting.Permutation.

(* ================================================================== *)
(** * The [secrets] module                                             *)
(* ================================================================== *)

(** The random choices of the operating system, at the level of
    [secrets.randbelow]: [draws] holds the numbers it will supply, [taken] how
    many have been used.  Each call of [randbelow(n)] takes the next number
    and returns it reduced below [n], so that over all sources every value of
    [range(n)] is a possible result. *)
Record Rng : Type := {
  draws : nat -> nat;
  taken : nat
}.

(** A call that makes random choices. *)
Definition R (A : Type) : Type := Rng -> A * Rng.

Definition retR {A} (a : A) : R A := fun g => (a, g).

Definition bindR {A B} (m : R A) (k : A -> R B) : R B :=
  fun g => let (a, g') := m g in k a g'.

Notation "x <~~ m ;; k" := (bindR m (fun x => k))
  (at level 61, m at next level, right associativity).

Module Secrets.

(** [secrets.randbelow(n)], for a positive [n]. *)
Definition randbelow (n : nat) : R nat :=
  fun g => (draws g (taken g) mod n, {| draws := draws g; taken := S (taken g) |}).

(** [secrets.choice(seq)], for a non-empty string [seq]. *)
Definition choice (seq : str) : R N :=
  i <~~ randbelow (length seq) ;;
  retR (nth i seq 0%N).

End Secrets.

(* ================================================================== *)
(** * [password_generator.generate_password]                           *)
(* ================================================================== *)

Module PasswordGenerator.

(** [string.ascii_uppercase], [string.ascii_lowercase], [string.digits]. *)
Definition ascii_uppercase : str := pystr "ABCDEFGHIJKLMNOPQRSTUVWXYZ".
Definition ascii_lowercase : str := pystr "abcdefghijklmnopqrstuvwxyz".
Definition digits : str := pystr "0123456789".

Definition symbols : str := pystr "!@#$%^&*()_+-=[]{}|;:,.<>?".

(** One of the four [if use_...:] blocks: the characters join the pool and one
    of them, chosen at random, joins the required characters. *)
Definition add_class (use : bool) (chars : str) (acc : str * str) : R (str * str) :=
  if use then
    c <~~ Secrets.choice chars ;;
    retR (fst acc ++ chars, snd acc ++ [c])
  else retR acc.

(** [[secrets.choice(character_pool) for _ in range(n)]]. *)
Fixpoint random_chars (n : nat) (character_pool : str) : R str :=
  match n with
  | 0 => retR []
  | S n' =>
      c <~~ Secrets.choice character_pool ;;
      rest <~~ random_chars n' character_pool ;;
      retR (c :: rest)
  end.

(** [chars[i] = v], for [i] inside the list. *)
Definition set_item (i : nat) (v : N) (chars : str) : str :=
  firstn i chars ++ v :: skipn (S i) chars.

(** [chars[i], chars[j] = chars[j], chars[i]]: both are read, then [chars[i]]
    is written, then [chars[j]]. *)
Definition swap (i j : nat) (chars : str) : str :=
  let at_j := nth j chars 0%N in
  let at_i := nth i chars 0%N in
  set_item j at_i (set_item i at_j chars).

(** The loop [for i in range(len(chars) - 1, 0, -1)], entered at index [i]. *)
Fixpoint shuffle (i : nat) (chars : str) : R str :=
  match i with
  | 0 => retR chars
  | S i' =>
      j <~~ Secrets.randbelow (i + 1) ;;
      shuffle i' (swap i j chars)
  end.

Definition bad_length : exn :=
  ValueError (pystr "Password length must be between 12 and 64 characters").

Definition no_character_type : exn :=
  ValueError (pystr "At least one character type must be selected").

Definition generate_password (length : Z)
  (use_uppercase use_lowercase use_digits use_symbols : bool) : R (result str) :=
  if (length <? 12)%Z || (64 <? length)%Z then retR (Raises bad_length)
  else if negb (use_uppercase || use_lowercase || use_digits || use_symbols)
  then retR (Raises no_character_type)
  else
    acc <~~ add_class use_uppercase ascii_uppercase ([], []) ;;
    acc <~~ add_class use_lowercase ascii_lowercase acc ;;
    acc <~~ add_class use_digits digits acc ;;
    acc <~~ add_class use_symbols symbols acc ;;
    let character_pool := fst acc in
    let required_chars := snd acc in
    let remaining_length := (length - Z.of_nat (List.length required_chars))%Z in
    random <~~ random_chars (Z.to_nat remaining_length) character_pool ;;
    let password_chars := required_chars ++ random in
    shuffled <~~ shuffle (List.length password_chars - 1) password_chars ;;
    retR (Returns shuffled).

(** The pool that the selected types make up. *)
Definition pool_of (use_uppercase use_lowercase use_digits use_symbols : bool) : str :=
  (if use_uppercase then ascii_uppercase else [])
  ++ (if use_lowercase then ascii_lowercase else [])
  ++ (if use_digits then digits else [])
  ++ (if use_symbols then symbols else []).

(** The number of character types selected. *)
Definition selected (use_uppercase use_lowercase use_digits use_symbols : bool) : nat :=
  Nat.b2n use_uppercase + Nat.b2n use_lowercase + Nat.b2n use_digits + Nat.b2n use_symbols.

End PasswordGenerator.

(* ================================================================== *)
(** * [CryptoManager.hash_master_password]                             *)
(* ================================================================== *)

Section HashMasterPassword.

Context {lib : Primitives}.

(** [bcrypt.gensalt(rounds)]: the text of a salt, made from the cost and from
    16 random bytes. *)
Variable bcrypt_gensalt : nat -> bytes -> bytes.

(** [CryptoManager.hash_master_password(password)]. *)
Definition hash_master_password (password : str) : M str :=
  password <~ lift (Utf8.encode password) ;;
  random <~ os_urandom 16 ;;
  hashed <~ lift (bcrypt_hashpw password (bcrypt_gensalt 12 random)) ;;
  lift (Utf8.decode hashed).

End HashMasterPassword.

(** What verification needs of bcrypt: a hash is ASCII text, and it carries
    its salt, so that hashing the same password under the hash gives the hash
    again. *)
Definition bcrypt_contract (lib : Primitives) : Prop :=
  forall password salt hashed,
    bcrypt_hashpw password salt = Returns hashed ->
    ascii_bytes hashed /\ bcrypt_hashpw password hashed = Returns hashed.

(** A source of random choices to run the generator on. *)
Definition sample_rng : Rng := {| draws := fun k => 7 * k * k + 3 * k + 5; taken := 0 |}.

(** The password of 16 characters generated from it without lower-case
    letters. *)
Definition sample_password : str :=
  match fst (PasswordGenerator.generate_password 16 true false true true sample_rng) with
  | Returns password => password
  | Raises _ => []
  end.


(** A vault before its first run: [salt.key] does not exist yet. *)
Definition first_run_world : World := {|
  salt_file := NoFile;
  time := 1700000000;
  entropy := fun n => byte_of (N.of_nat (7 * n + 1) mod 256);
  drawn := 0
|}.

(** [all(b < 128 for b in data)]. *)
Definition is_ascii (data : bytes) : bool := forallb (fun b => (byte_val b <? 128)%N) data.

(** A stand-in for bcrypt that satisfies [bcrypt_contract]: a salt is 29
    characters of text, and the hash is the salt followed by the password in
    base64.  The other primitives are those of [sample_lib]. *)
Definition text_lib : Primitives := {|
  sha256 := sha256 (Primitives := sample_lib);
  aes_encrypt_block := aes_encrypt_block (Primitives := sample_lib);
  aes_decrypt_block := aes_decrypt_block (Primitives := sample_lib);
  bcrypt_hashpw := fun password salt =>
    if (length salt <? 29) || negb (is_ascii (slice_to 29 salt))
    then Raises (ValueError (pystr "Invalid salt"))
    else Returns (slice_to 29 salt ++ Base64.urlsafe_b64encode password)
|}.

(** A stand-in for [bcrypt.gensalt]: the prefix with the cost, then the random
    bytes in base64, 29 characters in all. *)
Definition sample_gensalt (rounds : nat) (random : bytes) : bytes :=
  slice_to 29
    (map byte_of (pystr "$2b$" ++ dec_str rounds ++ pystr "$")
     ++ Base64.urlsafe_b64encode random).

(** The hash of ["Tr0ub4dor&3"] under these stand-ins. *)
Definition sample_hash : str :=
  match fst (hash_master_password (lib := text_lib) sample_gensalt (pystr "Tr0ub4dor&3")
               sample_world) with
  | Returns hashed => hashed
  | Raises _ => []
  end.

(** A first run in a directory that does not let [salt.key] be created. *)
Definition closed_directory_world : World := {|
  salt_file := Uncreatable;
  time := 1700000000;
  entropy := fun n => byte_of (N.of_nat (7 * n + 1) mod 256);
  drawn := 0
|}.

(** The salt a first run draws in [w], and the environment once it is
    written to [salt.key]. *)
Definition new_salt (w : World) : bytes := map (entropy w) (seq (drawn w) 16).

Definition after_salt_created (w : World) : World := {|
  salt_file := File (new_salt w);
  time := time w;
  entropy := entropy w;
  drawn := drawn w + 16
|}.

(** A first run on a device that is full. *)
Definition full_device_world : World := {|
  salt_file := NoSpace;
  time := 1700000000;
  entropy := fun n => byte_of (N.of_nat (7 * n + 1) mod 256);
  drawn := 0
|}.

(** The environment once the salt is drawn and the file was created but not
    written. *)
Definition after_salt_lost (w : World) : World := {|
  salt_file := File [];
  time := time w;
  entropy := entropy w;
  drawn := drawn w + 16
|}.

(** The environment once the salt is drawn and [open] has refused to create
    the file. *)
Definition after_salt_refused (w : World) : World := {|
  salt_file := Uncreatable;
  time := time w;
  entropy := entropy w;
  drawn := drawn w + 16
|}.
(* ================================================================== *)
(** * [database.Database]: the other statements                        *)
(* ================================================================== *)

Module Db.

(** What a method of [Database] can raise: an exception of Python, or
    [sqlite3.OperationalError]. *)
Inductive error : Type :=
| Python (e : exn)
| OperationalError (msg : str).

Inductive outcome (A : Type) : Type :=
| Ok (a : A)
| Error (e : error).
Arguments Ok {A} a.
Arguments Error {A} e.

Definition and_then {A B} (o : outcome A) (k : A -> outcome B) : outcome B :=
  match o with
  | Ok a => k a
  | Error e => Error e
  end.

Notation "x <-- o ;; k" := (and_then o (fun x => k))
  (at level 61, o at next level, right associativity).

(** The database file: the table [credentials] with the statements executed
    so far, the table [settings], and the largest [id] that [credentials] has
    ever held, which SQLite keeps for an [AUTOINCREMENT] column.  [refusal]
    is the state of the engine towards this connection: [Some msg] when it
    refuses a statement that writes (the file is locked by another connection
    or is read-only, the disk is full) and raises
    [sqlite3.OperationalError(msg)]. *)
Record t : Type := {
  tables : Database.t;
  settings : list (str * str);
  sequence : Z;
  refusal : option str
}.

(** The file after [_create_tables] has run on a new database. *)
Definition empty : t :=
  {| tables := {| Database.credentials := []; Database.executed := [] |};
     settings := [];
     sequence := 0;
     refusal := None |}.

(** The engine takes the write lock when a statement that writes starts to
    run, after its parameters have been bound. *)
Definition write_lock (db : t) : outcome unit :=
  match refusal db with
  | None => Ok tt
  | Some msg => Error (OperationalError msg)
  end.

(** Binding a [str] to a [?]: the text is encoded, which a surrogate makes
    fail. *)
Definition bind_text (s : str) : outcome Database.value :=
  match Utf8.encode s with
  | Returns _ => Ok (Database.TEXT s)
  | Raises e => Error (Python e)
  end.

(** Binding an [int] to a [?]: it must fit 64 bits. *)
Definition bind_int (n : Z) : outcome Database.value :=
  if ((- 2 ^ 63 <=? n) && (n <? 2 ^ 63))%Z then Ok (Database.INTEGER n)
  else Error (Python (OverflowError (pystr "Python int too large to convert to SQLite INTEGER"))).

(** [self.cursor.execute(query, values)], as far as the list of executed
    statements goes. *)
Definition logged (query : str) (values : list Database.value) (db : t) (rows : list Database.row)
  : Database.t :=
  {| Database.credentials := rows;
     Database.executed := Database.executed (tables db) ++ [(query, values)] |}.

Definition hash_key : str := pystr "master_password_hash".

Fixpoint str_eqb (a b : str) : bool :=
  match a, b with
  | [], [] => true
  | x :: a', y :: b' => (x =? y)%N && str_eqb a' b'
  | _, _ => false
  end.

(** [self.set_master_password_hash(password_hash)]: [INSERT OR REPLACE]
    removes the row that holds the key, if there is one, and adds the new. *)
Definition set_master_password_hash (password_hash : str) (db : t) : outcome t :=
  v <-- bind_text password_hash ;;
  _ <-- write_lock db ;;
  Ok {| tables :=
          logged (pystr "INSERT OR REPLACE INTO settings (key, value) VALUES ('master_password_hash', ?)")
            [v] db (Database.credentials (tables db));
        settings :=
          filter (fun kv => negb (str_eqb (fst kv) hash_key)) (settings db)
          ++ [(hash_key, password_hash)];
        sequence := sequence db;
        refusal := refusal db |}.

(** [self.get_master_password_hash()]. *)
Definition get_master_password_hash (db : t) : option str * t :=
  (option_map snd (find (fun kv => str_eqb (fst kv) hash_key) (settings db)),
   {| tables :=
        logged (pystr "SELECT value FROM settings WHERE key = 'master_password_hash'")
          [] db (Database.credentials (tables db));
      settings := settings db;
      sequence := sequence db;
      refusal := refusal db |}).

(** [self.is_first_run()]. *)
Definition is_first_run (db : t) : bool * t :=
  let (h, db') := get_master_password_hash db in
  (match h with None => true | Some _ => false end, db').

(** The [id] an [INSERT] gives a new row: one more than the largest the table
    holds or has ever held. *)
Definition largest_id (db : t) : Z :=
  fold_right Z.max (sequence db) (map Database.id (Database.credentials (tables db))).

(** [self.add_credential(website, username, encrypted_password, url, notes)];
    [now] is the text of [CURRENT_TIMESTAMP].  It returns [lastrowid]. *)
Definition add_credential (website username encrypted_password url notes : str)
  (now : str) (db : t) : outcome (Z * t) :=
  v1 <-- bind_text website ;;
  v2 <-- bind_text username ;;
  v3 <-- bind_text encrypted_password ;;
  v4 <-- bind_text url ;;
  v5 <-- bind_text notes ;;
  _ <-- write_lock db ;;
  if (2 ^ 63 - 1 <=? largest_id db)%Z
  then Error (OperationalError (pystr "database or disk is full"))
  else
    let new_id := (largest_id db + 1)%Z in
    let new_row :=
      {| Database.id := new_id;
         Database.website := website;
         Database.username := username;
         Database.encrypted_password := encrypted_password;
         Database.url := Some url;
         Database.notes := Some notes;
         Database.created_at := now;
         Database.modified_at := now |} in
    Ok (new_id,
        {| tables :=
             logged (pystr "INSERT INTO credentials (website, username, encrypted_password, url, notes) VALUES (?, ?, ?, ?, ?)")
               [v1; v2; v3; v4; v5] db (Database.credentials (tables db) ++ [new_row]);
           settings := settings db;
           sequence := new_id;
           refusal := refusal db |}).

(** [self.get_credential(credential_id)]: the row as a dictionary, or [None]. *)
Definition get_credential (credential_id : Z) (db : t) : outcome (option Database.row * t) :=
  v <-- bind_int credential_id ;;
  Ok (find (fun r => (Database.id r =? credential_id)%Z) (Database.credentials (tables db)),
      {| tables :=
           logged (pystr "SELECT * FROM credentials WHERE id = ?") [v] db
             (Database.credentials (tables db));
         settings := settings db;
         sequence := sequence db;
         refusal := refusal db |}).

(** [self.delete_credential(credential_id)]. *)
Definition delete_credential (credential_id : Z) (db : t) : outcome t :=
  v <-- bind_int credential_id ;;
  _ <-- write_lock db ;;
  Ok {| tables :=
          logged (pystr "DELETE FROM credentials WHERE id = ?") [v] db
            (filter (fun r => negb (Database.id r =? credential_id)%Z)
               (Database.credentials (tables db)));
        settings := settings db;
        sequence := sequence db;
        refusal := refusal db |}.

Definition bind_optional (field : option str) : outcome unit :=
  match field with
  | Some s => _ <-- bind_text s ;; Ok tt
  | None => Ok tt
  end.

(** [self.update_credential(...)] with the binding of its parameters: when a
    field is given, they are bound in the order of the statement, and the
    engine grants the write, before [Database.update_credential] changes the
    table. *)
Definition update_credential (credential_id : Z)
  (website username encrypted_password url notes : option str) (now : str) (db : t)
  : outcome t :=
  match website, username, encrypted_password, url, notes with
  | None, None, None, None, None => Ok db
  | _, _, _, _, _ =>
      _ <-- bind_optional website ;;
      _ <-- bind_optional username ;;
      _ <-- bind_optional encrypted_password ;;
      _ <-- bind_optional url ;;
      _ <-- bind_optional notes ;;
      _ <-- bind_text now ;;
      _ <-- bind_int credential_id ;;
      _ <-- write_lock db ;;
      Ok {| tables :=
              Database.update_credential credential_id website username
                encrypted_password url notes now (tables db);
            settings := settings db;
            sequence := sequence db;
            refusal := refusal db |}
  end.

(** The rows of the table. *)
Definition rows (db : t) : list Database.row := Database.credentials (tables db).

(** What every statement keeps: [id] is a key of [credentials], and no row
    has an [id] above the largest one recorded. *)
Definition consistent (db : t) : Prop :=
  NoDup (map Database.id (rows db))
  /\ (0 <= sequence db)%Z
  /\ forall r, In r (rows db) -> (1 <= Database.id r <= sequence db)%Z.

End Db.


(** ** Words for the properties below *)

Module DbSpec.

(** An integer SQLite can hold. *)
Definition int64 (n : Z) : Prop := (- 2 ^ 63 <= n < 2 ^ 63)%Z.

(** What a call of [get_credential] returned, if it returned. *)
Definition fetched (o : Db.outcome (option Database.row * Db.t)) : option (option Database.row) :=
  match o with
  | Db.Ok (r, _) => Some r
  | Db.Error _ => None
  end.

(** A row after an update that gives it the fields provided and the
    modification time [now]. *)
Definition updated (website username encrypted_password url notes : option str) (now : str)
  (r : Database.row) : Database.row :=
  {| Database.id := Database.id r;
     Database.website := match website with Some s => s | None => Database.website r end;
     Database.username := match username with Some s => s | None => Database.username r end;
     Database.encrypted_password :=
       match encrypted_password with Some s => s | None => Database.encrypted_password r end;
     Database.url := match url with Some s => Some s | None => Database.url r end;
     Database.notes := match notes with Some s => Some s | None => Database.notes r end;
     Database.created_at := Database.created_at r;
     Database.modified_at := now |}.

(** No field is provided. *)
Definition nothing_provided (website username encrypted_password url notes : option str) : bool :=
  match website, username, encrypted_password, url, notes with
  | None, None, None, None, None => true
  | _, _, _, _, _ => false
  end.

End DbSpec.

(** A vault with two credentials, the second of which was added after a third
    had been deleted. *)
Definition sample_vault : Db.t :=
  {| Db.tables := sample_db; Db.settings := []; Db.sequence := 3; Db.refusal := None |}.

(** The same vault while another connection holds the write lock. *)
Definition locked_vault : Db.t :=
  {| Db.tables := sample_db; Db.settings := []; Db.sequence := 3;
     Db.refusal := Some (pystr "database is locked") |}.
(* ================================================================== *)
(** * Properties: bytes and arithmetic                                 *)
(* ================================================================== *)

(** Linear arithmetic with division and remainder by constants. *)
Ltac ndiv := zify; Z.to_euclidean_division_equations; lia.

Lemma byte_val_bound (b : byte) : (byte_val b < 256)%N.
Proof. unfold byte_val. pose proof (Byte.to_N_bounded b). lia. Qed.

Lemma byte_of_val (b : byte) : byte_of (byte_val b) = b.
Proof. unfold byte_of, byte_val. now rewrite Byte.of_to_N. Qed.

Lemma byte_val_of (n : N) : (n < 256)%N -> byte_val (byte_of n) = n.
Proof.
  intros Hn. unfold byte_of, byte_val.
  destruct (Byte.of_N n) eqn:E.
  - now apply Byte.to_of_N.
  - apply Byte.of_N_None_iff in E. lia.
Qed.

Lemma byte_val_inj (a b : byte) : byte_val a = byte_val b -> a = b.
Proof. intros H. rewrite <- (byte_of_val a), <- (byte_of_val b). now rewrite H. Qed.

(* ================================================================== *)
(** * The UTF-8 codec                                                  *)
(* ================================================================== *)

(** Rewrites the value of every freshly built byte, then decides the
    comparisons the decoder makes on it. *)
Ltac byte_values :=
  repeat (rewrite byte_val_of by ndiv).

Ltac decide_tests :=
  repeat match goal with
  | |- context [N.ltb ?a ?b] =>
      first [ replace (N.ltb a b) with true by (symmetry; apply N.ltb_lt; ndiv)
            | replace (N.ltb a b) with false by (symmetry; apply N.ltb_ge; ndiv) ]
  | |- context [N.leb ?a ?b] =>
      first [ replace (N.leb a b) with true by (symmetry; apply N.leb_le; ndiv)
            | replace (N.leb a b) with false by (symmetry; apply N.leb_gt; ndiv) ]
  | |- context [N.eqb ?a ?b] =>
      first [ replace (N.eqb a b) with true by (symmetry; apply N.eqb_eq; ndiv)
            | replace (N.eqb a b) with false by (symmetry; apply N.eqb_neq; ndiv) ]
  end.

Lemma decode_encode_char (object : bytes) (pos : nat) (c : N) (rest : bytes) :
  scalar c ->
  Utf8.decode_from object pos (Utf8.encode_char c ++ rest)
  = (r <- Utf8.decode_from object (pos + length (Utf8.encode_char c)) rest ;;
     Returns (c :: r)).
Proof.
  intros [Hs Hmax]. unfold Utf8.is_surrogate in Hs.
  apply andb_false_iff in Hs.
  unfold Utf8.encode_char.
  destruct (N.ltb_spec c 0x80) as [H1 | H1].
  { cbn [app length Utf8.decode_from]. byte_values. 
    replace (c <? 128)%N with true by (symmetry; apply N.ltb_lt; lia). reflexivity. }
  destruct (N.ltb_spec c 0x800) as [H2 | H2].
  { cbn [app length Utf8.decode_from]. unfold Utf8.is_continuation. byte_values.
    decide_tests. cbn [negb andb orb].
    replace ((192 + c / 64) mod 32 * 64 + (128 + c mod 64) mod 64)%N with c by ndiv.
    reflexivity. }
  destruct (N.ltb_spec c 0x10000) as [H3 | H3].
  { assert (Hc : (c < 0xD800 \/ 0xDFFF < c)%N).
    { destruct Hs as [Hs | Hs]; [apply N.leb_gt in Hs | apply N.leb_gt in Hs]; lia. }
    cbn [app length Utf8.decode_from]. unfold Utf8.is_continuation. byte_values.
    decide_tests. cbn [negb andb orb].
    destruct (N.ltb_spec (128 + (c / 64) mod 64) 160) as [Ha | Ha].
    - replace (224 + c / 4096 =? 224)%N with false by (symmetry; apply N.eqb_neq; ndiv).
      replace ((224 + c / 4096) mod 16 * 4096 + (128 + (c / 64) mod 64) mod 64 * 64
               + (128 + c mod 64) mod 64)%N with c by ndiv.
      reflexivity.
    - replace (224 + c / 4096 =? 237)%N with false by (symmetry; apply N.eqb_neq; ndiv).
      replace ((224 + c / 4096) mod 16 * 4096 + (128 + (c / 64) mod 64) mod 64 * 64
               + (128 + c mod 64) mod 64)%N with c by ndiv.
      reflexivity. }
  cbn [app length Utf8.decode_from]. unfold Utf8.is_continuation. byte_values.
  decide_tests. cbn [negb andb orb].
  destruct (N.ltb_spec (128 + (c / 4096) mod 64) 144) as [Ha | Ha].
  - replace (240 + c / 262144 =? 240)%N with false by (symmetry; apply N.eqb_neq; ndiv).
    replace ((240 + c / 262144) mod 8 * 262144 + (128 + (c / 4096) mod 64) mod 64 * 4096
             + (128 + (c / 64) mod 64) mod 64 * 64 + (128 + c mod 64) mod 64)%N
      with c by ndiv.
    reflexivity.
  - replace (240 + c / 262144 =? 244)%N with false by (symmetry; apply N.eqb_neq; ndiv).
    replace ((240 + c / 262144) mod 8 * 262144 + (128 + (c / 4096) mod 64) mod 64 * 4096
             + (128 + (c / 64) mod 64) mod 64 * 64 + (128 + c mod 64) mod 64)%N
      with c by ndiv.
    reflexivity.
Qed.

Lemma bind_returns {A B} (r : result A) (k : A -> result B) (b : B) :
  (x <- r ;; k x) = Returns b -> exists a, r = Returns a /\ k a = Returns b.
Proof. destruct r as [a | e]; cbn; [eauto | discriminate]. Qed.

Lemma encode_from_encodable (s : str) :
  encodable s ->
  forall object pos,
    Utf8.encode_from object pos s = Returns (flat_map Utf8.encode_char s).
Proof.
  induction 1 as [| c s [Hs Hmax] _ IH]; intros object pos; [reflexivity |].
  cbn [Utf8.encode_from flat_map]. rewrite Hs.
  replace (0x10FFFF <? c)%N with false by (symmetry; apply N.ltb_ge; lia).
  now rewrite IH.
Qed.

Lemma encode_from_returns (s : str) :
  forall object pos data,
    Utf8.encode_from object pos s = Returns data -> encodable s.
Proof.
  induction s as [| c s IH]; intros object pos data H; [constructor |].
  cbn [Utf8.encode_from] in H.
  destruct (Utf8.is_surrogate c) eqn:Hs; [discriminate |].
  destruct (N.ltb_spec 0x10FFFF c) as [Hc | Hc]; [discriminate |].
  apply bind_returns in H as (rest & Hrest & _).
  constructor; [split; assumption | eapply IH, Hrest].
Qed.

(** [s.encode()] succeeds exactly on the strings of scalar values. *)
Lemma encode_returns_iff (s : str) :
  (exists data, Utf8.encode s = Returns data) <-> encodable s.
Proof.
  split.
  - intros [data H]. eapply encode_from_returns, H.
  - intros H. eexists. now apply encode_from_encodable.
Qed.

Lemma decode_from_encoded (s : str) :
  encodable s ->
  forall object pos,
    Utf8.decode_from object pos (flat_map Utf8.encode_char s) = Returns s.
Proof.
  induction 1 as [| c s Hc _ IH]; intros object pos; [reflexivity |].
  cbn [flat_map]. rewrite decode_encode_char by assumption.
  now rewrite IH.
Qed.

(** Decoding what [encode] returned gives the string back. *)
Lemma decode_encode (s : str) (data : bytes) :
  Utf8.encode s = Returns data -> Utf8.decode data = Returns s.
Proof.
  intros H. assert (Hs : encodable s) by (eapply encode_from_returns, H).
  unfold Utf8.encode in H. rewrite encode_from_encodable in H by assumption.
  injection H as <-. now apply decode_from_encoded.
Qed.

Lemma decode_from_ascii (data : bytes) :
  ascii_bytes data ->
  forall object pos, Utf8.decode_from object pos data = Returns (map byte_val data).
Proof.
  induction 1 as [| b data Hb _ IH]; intros object pos; [reflexivity |].
  cbn [Utf8.decode_from map].
  replace (byte_val b <? 128)%N with true by (symmetry; apply N.ltb_lt; lia).
  now rewrite IH.
Qed.

Lemma encode_from_ascii (data : bytes) :
  ascii_bytes data ->
  forall object pos, Utf8.encode_from object pos (map byte_val data) = Returns data.
Proof.
  induction 1 as [| b data Hb _ IH]; intros object pos; [reflexivity |].
  cbn [Utf8.encode_from map]. unfold Utf8.is_surrogate.
  replace (55296 <=? byte_val b)%N with false by (symmetry; apply N.leb_gt; lia).
  replace (1114111 <? byte_val b)%N with false by (symmetry; apply N.ltb_ge; lia).
  cbn [andb]. rewrite IH. cbn [bind]. unfold Utf8.encode_char.
  replace (byte_val b <? 128)%N with true by (symmetry; apply N.ltb_lt; lia).
  now rewrite byte_of_val.
Qed.

(** ASCII bytes decode to the string of their values, which encodes back to
    the same bytes. *)
Lemma ascii_decode_encode (data : bytes) :
  ascii_bytes data ->
  Utf8.decode data = Returns (map byte_val data)
  /\ Utf8.encode (map byte_val data) = Returns data.
Proof.
  intros H. split; [now apply decode_from_ascii | now apply encode_from_ascii].
Qed.

(** A surrogate makes [encode] raise [UnicodeEncodeError] at its position. *)
Lemma encode_from_surrogate (prefix : str) (c : N) (suffix : str) :
  encodable prefix -> Utf8.is_surrogate c = true ->
  forall object pos,
    Utf8.encode_from object pos (prefix ++ c :: suffix)
    = Raises (UnicodeEncodeError object (pos + length prefix)
                (pos + length prefix + Utf8.surrogate_run (c :: suffix))
                (pystr "surrogates not allowed")).
Proof.
  induction 1 as [| d prefix [Hs Hmax] _ IH]; intros Hc object pos.
  - cbn [app length Utf8.encode_from]. rewrite Hc. now rewrite Nat.add_0_r.
  - cbn [app length Utf8.encode_from]. rewrite Hs.
    replace (0x10FFFF <? d)%N with false by (symmetry; apply N.ltb_ge; lia).
    rewrite IH by assumption. cbn [bind].
    now replace (S pos + length prefix) with (pos + S (length prefix)) by lia.
Qed.

(** A computable test for having an encoding. *)
Lemma encodable_test (s : str) :
  forallb (fun c => negb (Utf8.is_surrogate c) && (c <=? 0x10FFFF)%N) s = true ->
  encodable s.
Proof.
  intros H. apply Forall_forall. intros c Hc.
  rewrite forallb_forall in H. specialize (H c Hc).
  apply andb_true_iff in H as [H1 H2]. split.
  - now apply negb_true_iff.
  - now apply N.leb_le.
Qed.

(* ================================================================== *)
(** * Base64                                                           *)
(* ================================================================== *)

(** Every six-bit value satisfies a property that holds of the 64 of them. *)
Lemma sextet_cases (P : N -> Prop) :
  Forall P (map N.of_nat (seq 0 64)) -> forall v, (v < 64)%N -> P v.
Proof.
  intros H v Hv. rewrite Forall_forall in H. apply H.
  rewrite <- (N2Nat.id v). apply in_map, in_seq. lia.
Qed.

Lemma value_of_char_of (v : N) : (v < 64)%N -> Base64.value_of (Base64.char_of v) = Some v.
Proof. revert v. apply sextet_cases. repeat constructor. Qed.

Lemma char_of_not_pad (v : N) : (v < 64)%N -> Byte.eqb (Base64.char_of v) Base64.pad = false.
Proof. revert v. apply sextet_cases. repeat constructor. Qed.

Lemma char_of_ascii (v : N) : (byte_val (Base64.char_of v) < 128)%N.
Proof.
  destruct (N.lt_ge_cases v 64) as [Hv | Hv].
  - revert v Hv. apply sextet_cases. repeat constructor.
  - unfold Base64.char_of. rewrite nth_overflow; [reflexivity |].
    cbn [Base64.alphabet]. change (length _) with 64. lia.
Qed.

(** The decoder on a character of the alphabet. *)
Lemma a2b_char (v : N) (data : bytes) (quad_pos : nat) (leftchar : N) (pads written : nat) :
  (v < 64)%N ->
  Base64.a2b_base64 (Base64.char_of v :: data) quad_pos leftchar pads written
  = match quad_pos with
    | 0 => Base64.a2b_base64 data 1 v 0 written
    | 1 => Base64.emit (leftchar * 4 + v / 16)
             (Base64.a2b_base64 data 2 (v mod 16)%N 0 (S written))
    | 2 => Base64.emit (leftchar * 16 + v / 4)
             (Base64.a2b_base64 data 3 (v mod 4)%N 0 (S written))
    | _ => Base64.emit (leftchar * 64 + v)
             (Base64.a2b_base64 data 0 0%N 0 (S written))
    end.
Proof.
  intros Hv. cbn [Base64.a2b_base64].
  now rewrite char_of_not_pad, value_of_char_of by assumption.
Qed.

(** The decoder on a padding character. *)
Lemma a2b_pad (data : bytes) (quad_pos : nat) (leftchar : N) (pads written : nat) :
  Base64.a2b_base64 (Base64.pad :: data) quad_pos leftchar pads written
  = if (2 <=? quad_pos) && (4 <=? quad_pos + S pads) then Returns []
    else Base64.a2b_base64 data quad_pos leftchar
           (if 2 <=? quad_pos then S pads else pads) written.
Proof. reflexivity. Qed.

(** Induction over a list three elements at a time. *)
Lemma list_ind3 {A} (P : list A -> Prop) :
  P [] -> (forall a, P [a]) -> (forall a b, P [a; b]) ->
  (forall a b c l, P l -> P (a :: b :: c :: l)) ->
  forall l, P l.
Proof.
  intros H0 H1 H2 H3 l.
  assert (H : P l /\ (forall a, P (a :: l)) /\ (forall a b, P (a :: b :: l))).
  { induction l as [| x l (IH0 & IH1 & IH2)]; [auto |].
    repeat split; [apply IH1 | intros; apply IH2 | intros; apply H3, IH0]. }
  apply H.
Qed.

Ltac sextets :=
  repeat match goal with
  | |- context [Base64.a2b_base64 (Base64.char_of ?v :: _)] =>
      rewrite (@a2b_char v) by ndiv
  end.

Lemma a2b_encode (s : bytes) :
  forall written, Base64.a2b_base64 (Base64.urlsafe_b64encode s) 0 0%N 0 written = Returns s.
Proof.
  induction s as [| a | a b | a b c s IH] using list_ind3; intros written.
  - reflexivity.
  - cbn [Base64.urlsafe_b64encode]. pose proof (byte_val_bound a).
    sextets. rewrite !a2b_pad. cbn [Nat.leb andb Nat.add].
    unfold Base64.emit. cbn [bind].
    replace (byte_val a / 4 * 4 + byte_val a mod 4 * 16 / 16)%N with (byte_val a) by ndiv.
    now rewrite byte_of_val.
  - cbn [Base64.urlsafe_b64encode]. pose proof (byte_val_bound a). pose proof (byte_val_bound b).
    sextets. rewrite !a2b_pad. cbn [Nat.leb andb Nat.add].
    unfold Base64.emit. cbn [bind].
    replace (byte_val a / 4 * 4 + (byte_val a mod 4 * 16 + byte_val b / 16) / 16)%N
      with (byte_val a) by ndiv.
    replace ((byte_val a mod 4 * 16 + byte_val b / 16) mod 16 * 16
             + byte_val b mod 16 * 4 / 4)%N with (byte_val b) by ndiv.
    now rewrite !byte_of_val.
  - cbn [Base64.urlsafe_b64encode app].
    pose proof (byte_val_bound a). pose proof (byte_val_bound b). pose proof (byte_val_bound c).
    sextets. rewrite IH. unfold Base64.emit. cbn [bind].
    replace (byte_val a / 4 * 4 + (byte_val a mod 4 * 16 + byte_val b / 16) / 16)%N
      with (byte_val a) by ndiv.
    replace ((byte_val a mod 4 * 16 + byte_val b / 16) mod 16 * 16
             + (byte_val b mod 16 * 4 + byte_val c / 64) / 4)%N with (byte_val b) by ndiv.
    replace ((byte_val b mod 16 * 4 + byte_val c / 64) mod 4 * 64 + byte_val c mod 64)%N
      with (byte_val c) by ndiv.
    now rewrite !byte_of_val.
Qed.

(** Decoding what [urlsafe_b64encode] returned gives the bytes back. *)
Lemma b64decode_encode (s : bytes) :
  Base64.urlsafe_b64decode (Base64.urlsafe_b64encode s) = Returns s.
Proof. apply a2b_encode. Qed.

Lemma b64encode_ascii (s : bytes) : ascii_bytes (Base64.urlsafe_b64encode s).
Proof.
  assert (Hpad : (byte_val Base64.pad < 128)%N) by reflexivity.
  induction s as [| a | a b | a b c s IH] using list_ind3;
    cbn [Base64.urlsafe_b64encode app];
    repeat (constructor; [first [exact Hpad | apply char_of_ascii] |]);
    first [constructor | exact IH].
Qed.

(** Four characters for every three bytes, the last group padded. *)
Lemma b64encode_length (s : bytes) :
  length (Base64.urlsafe_b64encode s) = 4 * ((length s + 2) / 3).
Proof.
  induction s as [| a | a b | a b c s IH] using list_ind3; try reflexivity.
  cbn [Base64.urlsafe_b64encode app length]. rewrite IH.
  replace (S (S (S (length s))) + 2) with (length s + 2 + 1 * 3) by lia.
  rewrite Nat.div_add by lia. lia.
Qed.

Lemma b64encode_nonempty (a : byte) (s : bytes) :
  exists c t, Base64.urlsafe_b64encode (a :: s) = c :: t.
Proof. destruct s as [| b [| c s]]; cbn [Base64.urlsafe_b64encode app]; eauto. Qed.

(* ================================================================== *)
(** * Exclusive or, padding and CBC                                    *)
(* ================================================================== *)

Lemma lxor_byte_bound (a b : N) : (a < 256 -> b < 256 -> N.lxor a b < 256)%N.
Proof.
  intros Ha Hb.
  destruct (N.eq_dec (N.lxor a b) 0) as [-> | Hx]; [lia |].
  change 256%N with (2 ^ 8)%N. apply N.log2_lt_pow2; [lia |].
  pose proof (N.log2_lxor a b) as Hl.
  assert (Hla : (N.log2 a < 8)%N).
  { destruct (N.eq_dec a 0) as [-> | Ha0]; [cbn; lia |]. apply N.log2_lt_pow2; [lia | exact Ha]. }
  assert (Hlb : (N.log2 b < 8)%N).
  { destruct (N.eq_dec b 0) as [-> | Hb0]; [cbn; lia |]. apply N.log2_lt_pow2; [lia | exact Hb]. }
  lia.
Qed.

Lemma xor_byte_cancel (a b : byte) : xor_byte (xor_byte a b) b = a.
Proof.
  unfold xor_byte.
  rewrite byte_val_of by (apply lxor_byte_bound; apply byte_val_bound).
  rewrite N.lxor_assoc, N.lxor_nilpotent, N.lxor_0_r. apply byte_of_val.
Qed.

Lemma xor_bytes_length (a b : bytes) : length (xor_bytes a b) = Nat.min (length a) (length b).
Proof. unfold xor_bytes. now rewrite length_map, length_combine. Qed.

Lemma xor_bytes_cancel (a : bytes) :
  forall b, length a = length b -> xor_bytes (xor_bytes a b) b = a.
Proof.
  induction a as [| x a IH]; intros [| y b] H; try discriminate; [reflexivity |].
  injection H as H. unfold xor_bytes in *. cbn [combine map fst snd].
  now rewrite xor_byte_cancel, IH.
Qed.

Lemma pad_amount (data : bytes) :
  let n := Pkcs7.block_size - length data mod Pkcs7.block_size in
  1 <= n <= 16 /\ (length data + n) mod 16 = 0.
Proof.
  unfold Pkcs7.block_size. cbn zeta.
  pose proof (Nat.mod_upper_bound (length data) 16 ltac:(lia)) as Hm.
  split; [lia |].
  rewrite (Nat.div_mod_eq (length data) 16) at 1.
  replace (16 * (length data / 16) + length data mod 16 + (16 - length data mod 16))
    with ((length data / 16 + 1) * 16) by lia.
  apply Nat.Div0.mod_mul.
Qed.

Lemma pad_length (data : bytes) :
  length (Pkcs7.pad data) mod 16 = 0 /\ 0 < length (Pkcs7.pad data).
Proof.
  unfold Pkcs7.pad. rewrite length_app, repeat_length.
  pose proof (pad_amount data) as [Hn Hm]. cbn zeta in Hn, Hm. split; [exact Hm | lia].
Qed.

Lemma last_app_repeat {A} (l : list A) (x d : A) (n : nat) :
  0 < n -> last (l ++ repeat x n) d = x.
Proof.
  intros Hn. destruct n as [| n]; [lia |].
  replace (repeat x (S n)) with (repeat x n ++ [x]).
  - now rewrite app_assoc, last_last.
  - clear. induction n as [| n IH]; [reflexivity |]. cbn [repeat app] in *. now rewrite IH.
Qed.

Lemma forallb_repeat (x : byte) (n : nat) : forallb (Byte.eqb x) (repeat x n) = true.
Proof.
  induction n as [| n IH]; [reflexivity |]. cbn [repeat forallb].
  rewrite IH, andb_true_r. now apply Byte.byte_dec_lb.
Qed.

(** Removing the padding that [pad] added gives the data back. *)
Lemma unpad_pad (data : bytes) : Pkcs7.unpad (Pkcs7.pad data) = Returns data.
Proof.
  pose proof (pad_length data) as [Hm Hpos].
  pose proof (pad_amount data) as [Hn _]. cbn zeta in Hn.
  change Pkcs7.block_size with 16 in Hn.
  set (n := 16 - length data mod 16) in *.
  assert (Hpad : Pkcs7.pad data = data ++ repeat (byte_of (N.of_nat n)) n) by reflexivity.
  assert (Hlast : last (Pkcs7.pad data) x00 = byte_of (N.of_nat n)).
  { rewrite Hpad. apply last_app_repeat. lia. }
  assert (Hlen : length (Pkcs7.pad data) = length data + n).
  { now rewrite Hpad, length_app, repeat_length. }
  unfold Pkcs7.unpad. cbv zeta. change Pkcs7.block_size with 16.
  rewrite Hlast, Hm, byte_val_of, Nat2N.id by lia.
  replace (length (Pkcs7.pad data) =? 0) with false by (symmetry; apply Nat.eqb_neq; lia).
  replace (n =? 0) with false by (symmetry; apply Nat.eqb_neq; lia).
  replace (16 <? n) with false by (symmetry; apply Nat.ltb_ge; lia).
  cbn [Nat.eqb negb orb]. unfold slice_last, slice_but_last. rewrite Hlen.
  replace (length data + n - n) with (length data) by lia.
  rewrite Hpad, skipn_app, firstn_app, Nat.sub_diag, skipn_all, firstn_all.
  cbn [skipn firstn app]. rewrite forallb_repeat. now rewrite app_nil_r.
Qed.

Section ConstructionLemmas.

Context {lib : Primitives} {laws : PrimitivesLaws lib}.

Lemma firstn_app_exact {A} (l1 l2 : list A) (n : nat) :
  length l1 = n -> firstn n (l1 ++ l2) = l1.
Proof.
  intros <-. now rewrite firstn_app, Nat.sub_diag, firstn_all, firstn_O, app_nil_r.
Qed.

Lemma skipn_app_exact {A} (l1 l2 : list A) (n : nat) :
  length l1 = n -> skipn n (l1 ++ l2) = l2.
Proof. intros <-. now rewrite skipn_app, Nat.sub_diag, skipn_all. Qed.

Lemma cbc_blocks_roundtrip (n : nat) :
  forall key previous data,
    length key = 16 -> length previous = 16 -> length data = 16 * n ->
    length (cbc_encrypt_blocks n key previous data) = 16 * n
    /\ cbc_decrypt_blocks n key previous (cbc_encrypt_blocks n key previous data) = data.
Proof.
  induction n as [| n IH]; intros key previous data Hk Hp Hd.
  - destruct data; [split; reflexivity | discriminate].
  - cbn [cbc_encrypt_blocks cbc_decrypt_blocks]. unfold slice_to, slice_from.
    set (plain := firstn 16 data).
    assert (Hplain : length plain = 16) by (unfold plain; rewrite length_firstn; lia).
    set (block := aes_encrypt_block key (xor_bytes plain previous)).
    assert (Hx : length (xor_bytes plain previous) = 16)
      by (rewrite xor_bytes_length; lia).
    assert (Hb : length block = 16) by (now apply aes_encrypt_length).
    destruct (IH key block (skipn 16 data) Hk Hb) as [Hlen Hdec].
    { rewrite length_skipn. lia. }
    split.
    + rewrite length_app, Hlen. lia.
    + rewrite (firstn_app_exact _ _ _ Hb), (skipn_app_exact _ _ _ Hb), Hdec.
      unfold block. rewrite aes_decrypt_encrypt by assumption.
      rewrite xor_bytes_cancel by lia.
      apply firstn_skipn.
Qed.

(** Under a 16-byte key and initialization vector, CBC decryption undoes CBC
    encryption of whole blocks. *)
Lemma cbc_decrypt_encrypt (key iv data : bytes) :
  length key = 16 -> length iv = 16 -> length data mod 16 = 0 ->
  exists ciphertext,
    cbc_encrypt (key, iv) data = Returns ciphertext
    /\ length ciphertext = length data
    /\ cbc_decrypt (key, iv) ciphertext = Returns data.
Proof.
  intros Hk Hiv Hm. unfold cbc_encrypt, cbc_decrypt. cbn [fst snd]. rewrite Hm. cbn [Nat.eqb].
  assert (Hd : length data = 16 * (length data / 16)).
  { pose proof (Nat.div_mod_eq (length data) 16). lia. }
  destruct (cbc_blocks_roundtrip (length data / 16) key iv data Hk Hiv Hd) as [Hlen Hdec].
  eexists. split; [reflexivity |]. split; [lia |].
  rewrite Hlen. rewrite <- Hd, Hm. cbn [Nat.eqb].
  replace (16 * (length data / 16) / 16) with (length data / 16)
    by (rewrite Nat.mul_comm, Nat.div_mul; lia).
  now rewrite Hdec.
Qed.

Lemma hmac_sha256_length (key msg : bytes) : length (hmac_sha256 key msg) = 32.
Proof. unfold hmac_sha256. apply sha256_length. Qed.

Lemma pbkdf2_block_length (password salt : bytes) (iterations i : N) :
  length (pbkdf2_block password salt iterations i) = 32.
Proof.
  unfold pbkdf2_block.
  set (step := fun tu : bytes * bytes => _).
  assert (H : forall tu, length (fst tu) = 32 /\ length (snd tu) = 32 ->
                         length (fst (step tu)) = 32 /\ length (snd (step tu)) = 32).
  { intros [t u] [Ht Hu]. cbn [fst snd] in *. unfold step. cbn [fst snd].
    rewrite xor_bytes_length, Ht, !hmac_sha256_length. split; reflexivity. }
  refine (proj1 (N.iter_invariant (iterations - 1) _ step
                   (fun tu => length (fst tu) = 32 /\ length (snd tu) = 32) H _ _)).
  cbn [fst snd]. rewrite hmac_sha256_length. split; reflexivity.
Qed.

(** A derivation of 32 bytes is the first block of PBKDF2. *)
Lemma pbkdf2_32 (password salt : bytes) (iterations : N) :
  pbkdf2_hmac_sha256 password salt iterations 32
  = pbkdf2_block password salt iterations 1
  /\ length (pbkdf2_hmac_sha256 password salt iterations 32) = 32.
Proof.
  assert (H : pbkdf2_hmac_sha256 password salt iterations 32
              = pbkdf2_block password salt iterations 1).
  { unfold pbkdf2_hmac_sha256, slice_to.
    change ((32 + 31) / 32) with 1. cbn [seq flat_map N.of_nat Pos.of_succ_nat].
    rewrite app_nil_r. apply firstn_all2. now rewrite pbkdf2_block_length. }
  split; [exact H |]. rewrite H. apply pbkdf2_block_length.
Qed.

End ConstructionLemmas.

(* ================================================================== *)
(** * Fernet tokens                                                    *)
(* ================================================================== *)

Lemma slice_but_last_app {A} (a b : list A) (k : nat) :
  length b = k -> slice_but_last k (a ++ b) = a.
Proof.
  intros <-. unfold slice_but_last. rewrite length_app.
  replace (length a + length b - length b) with (length a) by lia.
  now apply firstn_app_exact.
Qed.

Lemma slice_last_app {A} (a b : list A) (k : nat) :
  length b = k -> slice_last k (a ++ b) = b.
Proof.
  intros <-. unfold slice_last. rewrite length_app.
  replace (length a + length b - length b) with (length a) by lia.
  now apply skipn_app_exact.
Qed.

Lemma bytes_eqb_eq (a b : bytes) : bytes_eqb a b = true <-> a = b.
Proof.
  unfold bytes_eqb. split.
  - intros H. apply andb_true_iff in H as [Hl Hf]. apply Nat.eqb_eq in Hl.
    revert b Hl Hf. induction a as [| x a IH]; intros [| y b] Hl Hf; try discriminate.
    + reflexivity.
    + cbn [combine forallb fst snd] in Hf. apply andb_true_iff in Hf as [Hxy Hf].
      apply Byte.byte_dec_bl in Hxy. subst y. f_equal. apply IH; [now injection Hl | exact Hf].
  - intros <-. rewrite Nat.eqb_refl. cbn [andb].
    induction a as [| x a IH]; [reflexivity |].
    cbn [combine forallb fst snd]. rewrite IH, andb_true_r. now apply Byte.byte_dec_lb.
Qed.

Lemma to_bytes8_returns (n : Z) :
  (0 <= n < 2 ^ 64)%Z -> exists data, to_bytes8 n = Returns data /\ length data = 8.
Proof.
  intros Hn. unfold to_bytes8.
  replace (n <? 0)%Z with false by (symmetry; apply Z.ltb_ge; lia).
  replace (2 ^ 64 <=? n)%Z with false by (symmetry; apply Z.leb_gt; lia).
  eexists. split; reflexivity.
Qed.

(** The key halves of an instance that [Fernet(key)] built. *)
Lemma new_key_lengths {lib : Primitives} (key : bytes) (f : Fernet.t) :
  Fernet.new key = Returns f ->
  length (Fernet._signing_key f) = 16 /\ length (Fernet._encryption_key f) = 16.
Proof.
  unfold Fernet.new. intros H. apply bind_returns in H as (k & _ & H).
  destruct (Nat.eqb_spec (length k) 32) as [Hk | Hk]; [| discriminate].
  cbn [negb] in H.
  replace f with {| Fernet._signing_key := slice_to 16 k;
                    Fernet._encryption_key := slice_from 16 k |} by congruence.
  cbn [Fernet._signing_key Fernet._encryption_key].
  unfold slice_to, slice_from. rewrite length_firstn, length_skipn. lia.
Qed.

(** [Fernet(key)] accepts the encoding of any 32 bytes. *)
Lemma new_of_encoded {lib : Primitives} (raw : bytes) :
  length raw = 32 ->
  Fernet.new (Base64.urlsafe_b64encode raw)
  = Returns {| Fernet._signing_key := slice_to 16 raw;
               Fernet._encryption_key := slice_from 16 raw |}.
Proof.
  intros H. unfold Fernet.new. rewrite b64decode_encode. cbn [reraise_as try_except bind].
  now rewrite H.
Qed.

Section FernetLemmas.

Context {lib : Primitives} {laws : PrimitivesLaws lib}.

(** The token of [data]: what [_encrypt_from_parts] returns, step by step. *)
Lemma encrypt_from_parts_returns (f : Fernet.t) (data : bytes) (current_time : Z) (iv : bytes) :
  length (Fernet._encryption_key f) = 16 -> length iv = 16 ->
  (0 <= current_time < 2 ^ 64)%Z ->
  exists timestamp ciphertext,
    length timestamp = 8
    /\ length ciphertext mod 16 = 0
    /\ cbc_decrypt (Fernet._encryption_key f, iv) ciphertext = Returns (Pkcs7.pad data)
    /\ Fernet._encrypt_from_parts f data current_time iv
       = Returns (Base64.urlsafe_b64encode
                    (([x80] ++ timestamp ++ iv ++ ciphertext)
                     ++ hmac_sha256 (Fernet._signing_key f)
                          ([x80] ++ timestamp ++ iv ++ ciphertext))).
Proof.
  intros Hk Hiv Ht.
  destruct (to_bytes8_returns current_time Ht) as (timestamp & Hts & Hlen).
  destruct (cbc_decrypt_encrypt (Fernet._encryption_key f) iv (Pkcs7.pad data) Hk Hiv
              (proj1 (pad_length data))) as (ciphertext & Henc & Hclen & Hdec).
  exists timestamp, ciphertext. repeat split; try assumption.
  - rewrite Hclen. apply pad_length.
  - unfold Fernet._encrypt_from_parts, Cipher. rewrite Hiv. cbn [Nat.eqb bind].
    rewrite Henc. cbn [bind]. rewrite Hts. reflexivity.
Qed.

(** Decrypting the token of [data] under the same instance gives [data]. *)
Lemma fernet_decrypt_encrypt (f : Fernet.t) (data : bytes) (current_time : Z) (iv : bytes) :
  length (Fernet._encryption_key f) = 16 -> length iv = 16 ->
  (0 <= current_time < 2 ^ 64)%Z ->
  exists token,
    Fernet._encrypt_from_parts f data current_time iv = Returns token
    /\ ascii_bytes token
    /\ Fernet.decrypt f token = Returns data.
Proof.
  intros Hk Hiv Ht.
  destruct (encrypt_from_parts_returns f data current_time iv Hk Hiv Ht)
    as (timestamp & ciphertext & Hts & Hcm & Hdec & Henc).
  eexists. split; [exact Henc |]. split; [apply b64encode_ascii |].
  set (basic_parts := [x80] ++ timestamp ++ iv ++ ciphertext) in *.
  set (hmac := hmac_sha256 (Fernet._signing_key f) basic_parts).
  assert (Hmac : length hmac = 32) by apply hmac_sha256_length.
  unfold Fernet.decrypt, Fernet._get_unverified_token_data.
  rewrite b64decode_encode. cbn [reraise_as try_except bind].
  assert (Hdata : basic_parts ++ hmac = x80 :: (timestamp ++ iv ++ ciphertext) ++ hmac)
    by reflexivity.
  rewrite Hdata at 1. change (Byte.eqb x80 x80) with true. cbn [negb].
  replace (length (basic_parts ++ hmac) <? 9) with false.
  2:{ symmetry. apply Nat.ltb_ge. unfold basic_parts. rewrite !length_app. cbn [length]. lia. }
  cbn [bind snd fst]. unfold Fernet._decrypt_data, Fernet._verify_signature, hmac_verify.
  rewrite (slice_but_last_app _ _ _ Hmac), (slice_last_app _ _ _ Hmac).
  fold hmac. rewrite (proj2 (bytes_eqb_eq hmac hmac) eq_refl).
  cbn [reraise_as try_except bind].
  assert (Hiv' : slice_to 16 (slice_from 9 (basic_parts ++ hmac)) = iv).
  { unfold slice_to, slice_from, basic_parts.
    replace (([x80] ++ timestamp ++ iv ++ ciphertext) ++ hmac)
      with (([x80] ++ timestamp) ++ iv ++ ciphertext ++ hmac)
      by (now rewrite <- !app_assoc).
    rewrite skipn_app_exact by (rewrite length_app; cbn [length]; lia).
    now apply firstn_app_exact. }
  assert (Hct : slice_but_last 32 (slice_from 25 (basic_parts ++ hmac)) = ciphertext).
  { unfold slice_from, basic_parts.
    replace (([x80] ++ timestamp ++ iv ++ ciphertext) ++ hmac)
      with (([x80] ++ timestamp ++ iv) ++ ciphertext ++ hmac)
      by (now rewrite <- !app_assoc).
    rewrite skipn_app_exact by (rewrite !length_app; cbn [length]; lia).
    now apply slice_but_last_app. }
  rewrite Hiv', Hct. unfold Cipher. rewrite Hiv. cbn [Nat.eqb bind].
  rewrite Hdec. cbn [reraise_as try_except bind].
  now rewrite unpad_pad.
Qed.

(** Whatever makes [Fernet.decrypt] fail, it raises [InvalidToken]. *)
Lemma fernet_decrypt_raises (f : Fernet.t) (token : bytes) (e : exn) :
  Fernet.decrypt f token = Raises e -> e = InvalidToken.
Proof.
  unfold Fernet.decrypt, Fernet._get_unverified_token_data.
  destruct (Base64.urlsafe_b64decode token) as [data | e0];
    cbn [reraise_as try_except bind]; [| congruence].
  destruct data as [| first data']; cbn [bind]; [congruence |].
  destruct (Byte.eqb first x80); cbn [negb bind]; [| congruence].
  destruct (length (first :: data') <? 9); cbn [bind fst snd]; [congruence |].
  set (data := first :: data').
  unfold Fernet._decrypt_data, Fernet._verify_signature, hmac_verify.
  destruct (bytes_eqb _ _) eqn:Hmac; cbn [reraise_as try_except bind]; [| congruence].
  apply bytes_eqb_eq in Hmac.
  assert (Hlen : 32 <= length data).
  { apply (f_equal (@length byte)) in Hmac. rewrite hmac_sha256_length in Hmac.
    unfold slice_last in Hmac. rewrite length_skipn in Hmac. lia. }
  unfold Cipher.
  replace (length (slice_to 16 (slice_from 9 data)) =? 16) with true.
  2:{ symmetry. apply Nat.eqb_eq. unfold slice_to, slice_from.
      rewrite length_firstn, length_skipn. lia. }
  cbn [bind].
  destruct (cbc_decrypt _ _) as [padded | e1]; cbn [reraise_as try_except bind]; [| congruence].
  destruct (Pkcs7.unpad padded); cbn [reraise_as try_except]; congruence.
Qed.

(** A token whose tag is not the one the instance computes is refused before
    anything is decrypted. *)
Lemma fernet_decrypt_bad_tag (f : Fernet.t) (token data : bytes) :
  Base64.urlsafe_b64decode token = Returns data ->
  hmac_sha256 (Fernet._signing_key f) (slice_but_last 32 data) <> slice_last 32 data ->
  Fernet.decrypt f token = Raises InvalidToken.
Proof.
  intros Hdata Hmac.
  destruct (Fernet.decrypt f token) as [plain | e] eqn:H;
    [| now rewrite (fernet_decrypt_raises f token e H)].
  exfalso. revert H. unfold Fernet.decrypt, Fernet._get_unverified_token_data.
  rewrite Hdata. cbn [reraise_as try_except bind].
  destruct data as [| first data']; cbn [bind]; [discriminate |].
  destruct (Byte.eqb first x80); cbn [negb bind]; [| discriminate].
  destruct (length (first :: data') <? 9); cbn [bind fst snd]; [discriminate |].
  unfold Fernet._decrypt_data, Fernet._verify_signature, hmac_verify.
  destruct (bytes_eqb _ _) eqn:E; cbn [reraise_as try_except bind]; [| discriminate].
  apply bytes_eqb_eq in E. contradiction.
Qed.

End FernetLemmas.

(* ================================================================== *)
(** * The stand-in primitives satisfy the laws                          *)
(* ================================================================== *)

Lemma sample_lib_laws : PrimitivesLaws sample_lib.
Proof.
  constructor; cbn [sha256 aes_encrypt_block aes_decrypt_block sample_lib].
  - intros msg. unfold slice_to. rewrite length_firstn, length_app, repeat_length. lia.
  - intros key block Hk Hb. rewrite xor_bytes_length. lia.
  - intros key block Hk Hb. apply xor_bytes_cancel. lia.
Qed.

(* ================================================================== *)
(** * [CryptoManager]: construction                                    *)
(* ================================================================== *)

(** When [salt.key] exists and can be read, its content is the salt, whatever
    its length, and nothing is written or drawn. *)
Lemma load_existing_salt (w : World) (content : bytes) :
  salt_file w = File content ->
  CryptoManager._load_or_create_salt w = (Returns content, w).
Proof.
  intros H. unfold CryptoManager._load_or_create_salt, bindM, path_exists, read_file.
  cbv beta. repeat (rewrite H; cbv beta iota). reflexivity.
Qed.

(** When [salt.key] exists and cannot be read, the call raises and nothing is
    written or drawn. *)
Lemma load_unreadable_salt (w : World) :
  salt_file w = Unreadable ->
  exists e, CryptoManager._load_or_create_salt w = (Raises e, w).
Proof.
  intros H. unfold CryptoManager._load_or_create_salt, bindM, path_exists, read_file.
  cbv beta. repeat (rewrite H; cbv beta iota). eexists. reflexivity.
Qed.

(** When [salt.key] does not exist, 16 fresh bytes are drawn, written and
    returned. *)
Lemma create_salt (w : World) :
  salt_file w = NoFile ->
  exists salt w',
    CryptoManager._load_or_create_salt w = (Returns salt, w')
    /\ length salt = 16 /\ salt_file w' = File salt.
Proof.
  intros H. unfold CryptoManager._load_or_create_salt, bindM, path_exists.
  rewrite H. unfold os_urandom, write_file, ret. cbn [salt_file]. rewrite H.
  do 2 eexists. split; [reflexivity |]. split; [| reflexivity].
  now rewrite length_map, length_seq.
Qed.

Section ManagerLemmas.

Context {lib : Primitives} {laws : PrimitivesLaws lib}.

Lemma derived_length (master_password : str) (salt : bytes) :
  length (CryptoManager.derived master_password salt) = 32.
Proof. exact (proj2 (pbkdf2_32 _ _ _)). Qed.

Lemma derive_key_returns (master_password : str) (salt : bytes) :
  encodable master_password ->
  CryptoManager._derive_key master_password salt
  = Returns (Base64.urlsafe_b64encode (CryptoManager.derived master_password salt)).
Proof.
  intros H. unfold CryptoManager._derive_key, Utf8.encode, CryptoManager.derived.
  rewrite encode_from_encodable by assumption. cbn [bind]. reflexivity.
Qed.

Lemma init_returns (master_password : str) (w : World) (content : bytes) :
  encodable master_password -> salt_file w = File content ->
  CryptoManager.__init__ master_password w = (Returns (CryptoManager.instance master_password content), w).
Proof.
  intros Hp Hs. unfold CryptoManager.__init__, bindM.
  rewrite (load_existing_salt w content Hs). unfold lift.
  rewrite derive_key_returns by assumption.
  rewrite new_of_encoded by apply derived_length.
  reflexivity.
Qed.

Lemma instance_bound (master_password : str) (salt : bytes) :
  CryptoManager.bound (CryptoManager.instance master_password salt).
Proof.
  unfold CryptoManager.bound, CryptoManager.instance. cbn [CryptoManager.key CryptoManager.fernet].
  apply new_of_encoded, derived_length.
Qed.

(** Salt persistence: with the same password and the same salt on disk,
    [__init__] builds the same key and the same cipher, whatever the time and
    the random source. *)
Lemma init_deterministic (master_password : str) (content : bytes)
  (w1 w1' w2 w2' : World) (self1 self2 : CryptoManager.t) :
  salt_file w1 = File content -> salt_file w2 = File content ->
  CryptoManager.__init__ master_password w1 = (Returns self1, w1') ->
  CryptoManager.__init__ master_password w2 = (Returns self2, w2') ->
  self1 = self2.
Proof.
  intros H1 H2. unfold CryptoManager.__init__, bindM.
  rewrite (load_existing_salt w1 content H1), (load_existing_salt w2 content H2).
  unfold lift, ret.
  destruct (CryptoManager._derive_key master_password content) as [key | e]; [| discriminate].
  destruct (Fernet.new key) as [f | e]; [| discriminate].
  intros E1 E2. congruence.
Qed.

(** Every instance that [__init__] returns satisfies the invariant. *)
Lemma init_bound (master_password : str) (w w' : World) (self : CryptoManager.t) :
  CryptoManager.__init__ master_password w = (Returns self, w') -> CryptoManager.bound self.
Proof.
  unfold CryptoManager.__init__, bindM, lift, ret.
  destruct (CryptoManager._load_or_create_salt w) as [[salt | e] w1]; [| discriminate].
  destruct (CryptoManager._derive_key master_password salt) as [key | e]; [| discriminate].
  destruct (Fernet.new key) as [f | e] eqn:Hf; [| discriminate].
  intros H. injection H as <- _. exact Hf.
Qed.

(* ================================================================== *)
(** * [CryptoManager]: encrypt and decrypt                             *)
(* ================================================================== *)

Lemma bound_key_length (self : CryptoManager.t) :
  CryptoManager.bound self ->
  length (Fernet._encryption_key (CryptoManager.fernet self)) = 16.
Proof. intros H. now apply new_key_lengths in H. Qed.

Lemma fernet_decrypt_empty (f : Fernet.t) : Fernet.decrypt f [] = Raises InvalidToken.
Proof. reflexivity. Qed.

(** [encrypt] on a string with an encoding, when the clock reads a time that
    fits 64 bits: a non-empty ASCII ciphertext that [decrypt] maps back. *)
Lemma encrypt_then_decrypt (self : CryptoManager.t) (plaintext : str) (w : World) :
  CryptoManager.bound self -> plaintext <> [] -> encodable plaintext ->
  (0 <= time w < 2 ^ 64)%Z ->
  exists ciphertext w',
    CryptoManager.encrypt self plaintext w = (Returns ciphertext, w')
    /\ ciphertext <> []
    /\ CryptoManager.decrypt self ciphertext = Returns plaintext.
Proof.
  intros Hb Hne Henc Ht.
  set (iv := map (entropy w) (seq (drawn w) 16)).
  assert (Hiv : length iv = 16) by (unfold iv; now rewrite length_map, length_seq).
  destruct (fernet_decrypt_encrypt (CryptoManager.fernet self)
              (flat_map Utf8.encode_char plaintext) (time w) iv
              (bound_key_length self Hb) Hiv Ht) as (token & Htok & Hascii & Hdec).
  destruct (ascii_decode_encode token Hascii) as [Hd He].
  assert (Htne : token <> []).
  { intros ->. rewrite fernet_decrypt_empty in Hdec. discriminate. }
  exists (map byte_val token). eexists. split; [| split].
  - unfold CryptoManager.encrypt.
    destruct plaintext as [| c plaintext]; [contradiction |]. cbn [CryptoManager.is_empty].
    unfold bindM, lift, Utf8.encode. rewrite encode_from_encodable by assumption.
    unfold Fernet.encrypt, Fernet.encrypt_at_time, bindM, time_time, os_urandom, lift.
    fold iv. rewrite Htok, Hd. reflexivity.
  - destruct token; [contradiction | discriminate].
  - unfold CryptoManager.decrypt.
    destruct token as [| b token]; [contradiction |]. cbn [map CryptoManager.is_empty].
    change (byte_val b :: map byte_val token) with (map byte_val (b :: token)).
    rewrite He. cbn [bind]. rewrite Hdec. cbn [bind].
    unfold Utf8.decode. rewrite decode_from_encoded by assumption. reflexivity.
Qed.

(** A string with a surrogate makes [encrypt] raise before the clock is read
    or a random byte drawn. *)
Lemma encrypt_surrogate (self : CryptoManager.t) (prefix : str) (c : N) (suffix : str)
  (w : World) :
  encodable prefix -> Utf8.is_surrogate c = true ->
  CryptoManager.encrypt self (prefix ++ c :: suffix) w
  = (Raises (UnicodeEncodeError (prefix ++ c :: suffix) (length prefix)
               (length prefix + Utf8.surrogate_run (c :: suffix))
               (pystr "surrogates not allowed")), w).
Proof.
  intros Hp Hc. unfold CryptoManager.encrypt.
  replace (CryptoManager.is_empty (prefix ++ c :: suffix)) with false
    by (now destruct prefix).
  unfold bindM, lift, Utf8.encode. now rewrite encode_from_surrogate.
Qed.

(** Before the epoch the time has no unsigned encoding: [encrypt] raises
    [OverflowError], after the initialization vector has been drawn. *)
Lemma encrypt_before_epoch (self : CryptoManager.t) (plaintext : str) (w : World) :
  plaintext <> [] -> encodable plaintext -> (time w < 0)%Z ->
  CryptoManager.encrypt self plaintext w
  = (Raises (OverflowError (pystr "can't convert negative int to unsigned")),
     after_encrypt w).
Proof.
  intros Hne Henc Ht. unfold CryptoManager.encrypt.
  destruct plaintext as [| c plaintext]; [contradiction |]. cbn [CryptoManager.is_empty].
  unfold bindM, lift, Utf8.encode. rewrite encode_from_encodable by assumption.
  unfold Fernet.encrypt, Fernet.encrypt_at_time, bindM, time_time, os_urandom, lift.
  unfold Fernet._encrypt_from_parts, Cipher. rewrite length_map, length_seq.
  cbn [Nat.eqb bind]. unfold cbc_encrypt. rewrite (proj1 (pad_length _)).
  cbn [Nat.eqb bind]. unfold to_bytes8.
  replace (time w <? 0)%Z with true by (symmetry; apply Z.ltb_lt; lia).
  reflexivity.
Qed.


End ManagerLemmas.

(* ================================================================== *)
(** * Password strength                                                *)
(* ================================================================== *)

Lemma in_ranges_iff (c : N) (ranges : list (N * N)) :
  UnicodeData.in_ranges c ranges = true
  <-> exists lo hi, In (lo, hi) ranges /\ (lo <= c <= hi)%N.
Proof.
  induction ranges as [| [lo hi] ranges IH]; cbn [UnicodeData.in_ranges In].
  - split; [discriminate | intros (? & ? & [] & _)].
  - rewrite orb_true_iff, andb_true_iff, N.leb_le, N.leb_le, IH. split.
    + intros [H | (lo' & hi' & Hin & H)]; [exists lo, hi | exists lo', hi']; auto.
    + intros (lo' & hi' & [Heq | Hin] & H).
      * injection Heq as -> ->. now left.
      * right. now exists lo', hi'.
Qed.

Lemma in_ranges_covered (small large : list (N * N)) (c : N) :
  forallb (UnicodeData.covered large) small = true ->
  UnicodeData.in_ranges c small = true -> UnicodeData.in_ranges c large = true.
Proof.
  intros Hall Hc. apply in_ranges_iff in Hc as (lo & hi & Hin & Hlo & Hhi).
  rewrite forallb_forall in Hall. specialize (Hall _ Hin).
  unfold UnicodeData.covered in Hall. apply existsb_exists in Hall as ([lo' hi'] & Hin' & H).
  cbn [fst snd] in H. apply andb_true_iff in H as [H1 H2].
  apply N.leb_le in H1, H2. apply in_ranges_iff. exists lo', hi'. split; [exact Hin' | lia].
Qed.

(** Every digit is alphanumeric. *)
Lemma isdigit_isalnum (c : N) : isdigit c = true -> isalnum c = true.
Proof.
  unfold isdigit, isalnum. apply in_ranges_covered. vm_compute. reflexivity.
Qed.

(** Every code point below 128 satisfies a property that a computation
    confirms on the 128 of them. *)
Lemma ascii_cases (check : N -> bool) :
  forallb check (map N.of_nat (seq 0 128)) = true ->
  forall c, (c < 128)%N -> check c = true.
Proof.
  intros H c Hc. rewrite forallb_forall in H. apply H.
  rewrite <- (N2Nat.id c). apply in_map, in_seq. lia.
Qed.

(** Among the ASCII characters, one that is neither alphanumeric nor in the
    string of special characters is neither upper case nor lower case. *)
Lemma ascii_other_uncased (c : N) :
  (c < 128)%N -> isalnum c = false -> CryptoManager.is_special c = false ->
  isupper c = false /\ islower c = false.
Proof.
  intros Hc Ha Hs.
  pose proof (ascii_cases
    (fun c => isalnum c || CryptoManager.is_special c || negb (isupper c || islower c))
    ltac:(vm_compute; reflexivity) c Hc) as H.
  cbv beta in H. rewrite Ha, Hs in H. cbn [orb] in H.
  apply negb_true_iff, orb_false_iff in H. exact H.
Qed.

Lemma is_special_iff (c : N) :
  CryptoManager.is_special c = true <-> In c CryptoManager.special_characters.
Proof.
  unfold CryptoManager.is_special. rewrite existsb_exists. split.
  - intros (x & Hin & Heq). apply N.eqb_eq in Heq. now subst x.
  - intros H. exists c. split; [exact H | apply N.eqb_refl].
Qed.

(** A character outside a class leaves the flag of that class as it is. *)
Lemma any_insert (p : N -> bool) (c : N) (before after : str) :
  p c = false ->
  CryptoManager.any p (before ++ c :: after) = CryptoManager.any p (before ++ after).
Proof.
  intros H. unfold CryptoManager.any. rewrite !existsb_app. cbn [existsb]. now rewrite H.
Qed.

Lemma any_in_class (k : CryptoManager.char_class) (password : str) :
  CryptoManager.any (CryptoManager.in_class k) password = true
  <-> CryptoManager.class_present k password.
Proof. unfold CryptoManager.any, CryptoManager.class_present. apply existsb_exists. Qed.

(** The sum the function tests is the number of classes that are present. *)
Lemma sum_checks (password : str) :
  CryptoManager.sum
    [CryptoManager.any isupper password; CryptoManager.any islower password;
     CryptoManager.any isdigit password;
     CryptoManager.any CryptoManager.is_special password]
  = length (filter (fun k => CryptoManager.any (CryptoManager.in_class k) password)
              CryptoManager.all_classes).
Proof.
  unfold CryptoManager.all_classes. cbn [filter].
  change (CryptoManager.any (CryptoManager.in_class CryptoManager.Uppercase) password)
    with (CryptoManager.any isupper password).
  change (CryptoManager.any (CryptoManager.in_class CryptoManager.Lowercase) password)
    with (CryptoManager.any islower password).
  change (CryptoManager.any (CryptoManager.in_class CryptoManager.Digit) password)
    with (CryptoManager.any isdigit password).
  change (CryptoManager.any (CryptoManager.in_class CryptoManager.Symbol) password)
    with (CryptoManager.any CryptoManager.is_special password).
  destruct (CryptoManager.any isupper password),
           (CryptoManager.any islower password),
           (CryptoManager.any isdigit password),
           (CryptoManager.any CryptoManager.is_special password); reflexivity.
Qed.

Lemma all_classes_nodup : NoDup CryptoManager.all_classes.
Proof.
  unfold CryptoManager.all_classes.
  repeat (constructor; [cbn [In]; intuition discriminate |]). constructor.
Qed.

Lemma all_classes_complete (k : CryptoManager.char_class) : In k CryptoManager.all_classes.
Proof. destruct k; cbn; tauto. Qed.

(** The function accepts exactly the passwords the rule calls strong. *)
Lemma validate_iff_strong (password : str) :
  fst (CryptoManager.validate_password_strength password) = true
  <-> CryptoManager.strong password.
Proof.
  unfold CryptoManager.validate_password_strength, CryptoManager.strong.
  rewrite sum_checks.
  set (present := filter _ CryptoManager.all_classes).
  destruct (Nat.ltb_spec (length password) 8) as [Hlen | Hlen]; cbn [fst].
  { split; [discriminate | intros [H _]; lia]. }
  destruct (Nat.ltb_spec (length present) 3) as [Hsum | Hsum]; cbn [fst].
  - split; [discriminate |]. intros (_ & classes & Hnd & Hl & Hall). exfalso.
    assert (Hincl : incl classes present).
    { intros k Hk. apply filter_In. split; [apply all_classes_complete |].
      apply any_in_class, Hall, Hk. }
    pose proof (NoDup_incl_length Hnd Hincl). lia.
  - split; [intros _ | reflexivity]. split; [exact Hlen |].
    exists present. split; [apply NoDup_filter, all_classes_nodup |]. split; [exact Hsum |].
    intros k Hk. apply filter_In in Hk as [_ Hk]. now apply any_in_class.
Qed.

(* ================================================================== *)
(** * The model at work                                                *)
(* ================================================================== *)

Example encode_euro : Utf8.encode [0x41; 0xE9; 0x20AC; 0x1F600]%N
  = Returns [x41; xc3; xa9; xe2; x82; xac; xf0; x9f; x98; x80].
Proof. reflexivity. Qed.

Example decode_overlong :
  match Utf8.decode [xc0; x80] with
  | Returns _ => []
  | Raises e => exn_str e
  end = pystr "'utf-8' codec can't decode byte 0xc0 in position 0: invalid start byte".
Proof. reflexivity. Qed.

Example decode_truncated :
  match Utf8.decode [x41; xe2; x82] with
  | Returns _ => []
  | Raises e => exn_str e
  end = pystr "'utf-8' codec can't decode bytes in position 1-2: unexpected end of data".
Proof. reflexivity. Qed.

Example b64encode_foobar :
  Base64.urlsafe_b64encode (Base64.bytes_of_string "foobar") = Base64.bytes_of_string "Zm9vYmFy"
  /\ Base64.urlsafe_b64encode [xfb; xff] = Base64.bytes_of_string "-_8=".
Proof. split; reflexivity. Qed.

Example b64decode_incomplete :
  Base64.urlsafe_b64decode (Base64.bytes_of_string "abc")
  = Raises (BinasciiError (pystr "Incorrect padding")).
Proof. reflexivity. Qed.

Example pad_hunter2 :
  Pkcs7.pad (Base64.bytes_of_string "hunter2")
  = Base64.bytes_of_string "hunter2" ++ repeat x09 9.
Proof. reflexivity. Qed.

(** A token begins with the version byte and the time of its making; at
    1700000000 seconds that is [gAAAAABlU_EA] in base64. *)
Example encrypt_hunter2 :
  exists rest,
    CryptoManager.encrypt (lib := sample_lib) fixed_key_manager (pystr "hunter2") sample_world
    = (Returns (pystr "gAAAAABlU_EA" ++ rest), after_encrypt sample_world)
    /\ length rest = 88
    /\ CryptoManager.decrypt (lib := sample_lib) fixed_key_manager (pystr "gAAAAABlU_EA" ++ rest)
       = Returns (pystr "hunter2").
Proof. eexists. split; [vm_compute; reflexivity |]. split; vm_compute; reflexivity. Qed.

(** Changing a character in the tag of a token makes [decrypt] fail with the
    bare message. *)
Example decrypt_tampered :
  forall ciphertext w',
    CryptoManager.encrypt (lib := sample_lib) fixed_key_manager (pystr "hunter2") sample_world
    = (Returns ciphertext, w') ->
    CryptoManager.decrypt (lib := sample_lib) fixed_key_manager
      (firstn 90 ciphertext ++ [88%N] ++ skipn 91 ciphertext)
    = Raises (ValueError (pystr "Decryption failed: ")).
Proof.
  intros ciphertext w' H. vm_compute in H. injection H as <- _. vm_compute. reflexivity.
Qed.

Example strength_examples :
  map (fun s => fst (CryptoManager.validate_password_strength s))
    [pystr "Tr0ub4dor&3"; pystr "CorrectHorse1!"; pystr "correct horse battery";
     pystr "ABCDEFGH1"; pystr "Abcdefg~"; pystr "Abcdefg_"]
  = [true; true; false; false; false; true].
Proof. vm_compute. reflexivity. Qed.

Example update_website :
  let db' :=
    Database.update_credential 2 (Some (pystr "example.com")) None None None None
      (pystr "2024-03-01T12:00:00") sample_db in
  map Database.website (Database.credentials db') = [pystr "example.org"; pystr "example.com"]
  /\ map Database.modified_at (Database.credentials db')
     = [pystr "2024-01-01 00:00:00"; pystr "2024-03-01T12:00:00"]
  /\ map Database.username (Database.credentials db')
     = map Database.username (Database.credentials sample_db)
  /\ Database.executed db'
     = [(pystr "UPDATE credentials SET website = ?, modified_at = ? WHERE id = ?",
         [Database.TEXT (pystr "example.com"); Database.TEXT (pystr "2024-03-01T12:00:00");
          Database.INTEGER 2])].
Proof. repeat split. Qed.

(* ================================================================== *)
(** * The database                                                     *)
(* ================================================================== *)

(** An update that names at least one field executes exactly one statement,
    whose parameters end with the new timestamp and the selected [id]. *)
Lemma update_credential_website (credential_id : Z) (website now : str) (db : Database.t) :
  Database.executed
    (Database.update_credential credential_id (Some website) None None None None now db)
  = Database.executed db
    ++ [(pystr "UPDATE credentials SET website = ?, modified_at = ? WHERE id = ?",
         [Database.TEXT website; Database.TEXT now; Database.INTEGER credential_id])].
Proof. reflexivity. Qed.

(** That statement rewrites the selected row and leaves the others alone. *)
Lemma update_credential_rows (credential_id : Z) (website now : str) (db : Database.t)
  (r : Database.row) :
  In r (Database.credentials
          (Database.update_credential credential_id (Some website) None None None None now db))
  <-> exists r0, In r0 (Database.credentials db)
      /\ r = if (Database.id r0 =? credential_id)%Z
             then Database.assign Database.c_modified_at (Database.TEXT now)
                    (Database.assign Database.c_website (Database.TEXT website) r0)
             else r0.
Proof.
  cbn. rewrite in_map_iff. split; intros (r0 & H1 & H2); exists r0; split; auto.
Qed.

(* ================================================================== *)
(** * Decryption under another key, and the text of the errors          *)
(* ================================================================== *)

(** [encrypt] returns the token of [_encrypt_from_parts] as a string. *)
Lemma encrypt_returns_token {lib : Primitives} (self : CryptoManager.t) (plaintext : str)
  (w : World) (token : bytes) :
  plaintext <> [] -> encodable plaintext ->
  Fernet._encrypt_from_parts (CryptoManager.fernet self)
    (flat_map Utf8.encode_char plaintext) (time w)
    (map (entropy w) (seq (drawn w) 16)) = Returns token ->
  ascii_bytes token ->
  CryptoManager.encrypt self plaintext w = (Returns (map byte_val token), after_encrypt w).
Proof.
  intros Hne Henc Htok Hascii. unfold CryptoManager.encrypt.
  destruct plaintext as [| c plaintext]; [contradiction |]. cbn [CryptoManager.is_empty].
  unfold bindM, lift, Utf8.encode. rewrite encode_from_encodable by assumption.
  unfold Fernet.encrypt, Fernet.encrypt_at_time, bindM, time_time, os_urandom, lift.
  rewrite Htok. unfold Utf8.decode. rewrite decode_from_ascii by assumption. reflexivity.
Qed.

(** A ciphertext produced under one instance, presented to an instance whose
    signing key gives other tags, is refused with the bare [ValueError]: the
    tag is checked before anything is decrypted. *)
Lemma decrypt_under_other_key (lib : Primitives) (laws : PrimitivesLaws lib)
  (self1 self2 : CryptoManager.t) (plaintext : str) (w : World) :
  CryptoManager.bound self1 ->
  plaintext <> [] -> encodable plaintext -> (0 <= time w < 2 ^ 64)%Z ->
  (forall msg,
     hmac_sha256 (Fernet._signing_key (CryptoManager.fernet self2)) msg
     <> hmac_sha256 (Fernet._signing_key (CryptoManager.fernet self1)) msg) ->
  exists ciphertext w',
    CryptoManager.encrypt self1 plaintext w = (Returns ciphertext, w')
    /\ CryptoManager.decrypt self2 ciphertext
       = Raises (ValueError (pystr "Decryption failed: ")).
Proof.
  intros Hb Hne Henc Ht Hsep.
  set (iv := map (entropy w) (seq (drawn w) 16)).
  assert (Hiv : length iv = 16) by (unfold iv; now rewrite length_map, length_seq).
  destruct (encrypt_from_parts_returns (CryptoManager.fernet self1)
              (flat_map Utf8.encode_char plaintext) (time w) iv
              (bound_key_length self1 Hb) Hiv Ht)
    as (timestamp & ciphertext & _ & _ & _ & Htok).
  set (basic_parts := [x80] ++ timestamp ++ iv ++ ciphertext) in *.
  set (tag := hmac_sha256 (Fernet._signing_key (CryptoManager.fernet self1)) basic_parts) in *.
  set (token := Base64.urlsafe_b64encode (basic_parts ++ tag)) in *.
  assert (Hascii : ascii_bytes token) by apply b64encode_ascii.
  exists (map byte_val token), (after_encrypt w). split.
  - now apply encrypt_returns_token.
  - assert (Htag : length tag = 32) by apply hmac_sha256_length.
    assert (Hbad : Fernet.decrypt (CryptoManager.fernet self2) token = Raises InvalidToken).
    { apply (fernet_decrypt_bad_tag _ token (basic_parts ++ tag)).
      - apply b64decode_encode.
      - rewrite (slice_but_last_app _ _ _ Htag), (slice_last_app _ _ _ Htag). apply Hsep. }
    unfold CryptoManager.decrypt.
    assert (Hne' : CryptoManager.is_empty (map byte_val token) = false).
    { destruct (b64encode_nonempty x80 ((timestamp ++ iv ++ ciphertext) ++ tag))
        as (c & t & Hct).
      unfold token, basic_parts. cbn [app]. now rewrite Hct. }
    rewrite Hne'. rewrite (proj2 (ascii_decode_encode token Hascii)). cbn [bind].
    rewrite Hbad. reflexivity.
Qed.



(* ================================================================== *)
(** * The claims                                                       *)
(* ================================================================== *)

(** C1 (as amended).  For every plaintext that is not empty and has a UTF-8
    encoding, and every instance whose cipher is bound to its key, on a system
    whose clock reads a time that fits 64 bits: [encrypt] returns a ciphertext,
    and [decrypt] of that ciphertext under the same instance returns the
    plaintext. *)
Theorem encrypt_decrypt_roundtrip (lib : Primitives) (laws : PrimitivesLaws lib)
  (self : CryptoManager.t) (plaintext : str) (w : World) :
  CryptoManager.bound self ->
  plaintext <> [] ->
  encodable plaintext ->
  (0 <= time w < 2 ^ 64)%Z ->
  exists ciphertext w',
    CryptoManager.encrypt self plaintext w = (Returns ciphertext, w')
    /\ CryptoManager.decrypt self ciphertext = Returns plaintext.
Proof.
  intros Hb Hne Henc Ht.
  destruct (encrypt_then_decrypt self plaintext w Hb Hne Henc Ht)
    as (ciphertext & w' & H1 & _ & H2).
  now exists ciphertext, w'.
Qed.

Lemma encrypt_decrypt_roundtrip_witness :
  exists ciphertext w',
    CryptoManager.encrypt (lib := sample_lib) sample_manager (pystr "hunter2") sample_world
    = (Returns ciphertext, w')
    /\ CryptoManager.decrypt (lib := sample_lib) sample_manager ciphertext
       = Returns (pystr "hunter2").
Proof.
  apply (encrypt_decrypt_roundtrip sample_lib sample_lib_laws sample_manager
           (pystr "hunter2") sample_world).
  - apply (instance_bound (laws := sample_lib_laws)).
  - discriminate.
  - apply encodable_test. reflexivity.
  - cbn. lia.
Defined.

(** C1 (as stated) fails on a plaintext that holds a lone surrogate: it is a
    non-empty string, and [encrypt] raises [UnicodeEncodeError] on it, so that
    there is no ciphertext to decrypt. *)
Lemma lone_surrogate_not_encrypted :
  CryptoManager.bound sample_manager
  /\ [0xD800%N] <> []
  /\ CryptoManager.encrypt (lib := sample_lib) sample_manager [0xD800%N] sample_world
     = (Raises (UnicodeEncodeError [0xD800%N] 0 1 (pystr "surrogates not allowed")),
        sample_world).
Proof.
  split; [apply (instance_bound (laws := sample_lib_laws)) |].
  split; [discriminate |].
  apply (encrypt_surrogate sample_manager [] 0xD800%N [] sample_world);
    [constructor | reflexivity].
Qed.

(** C3 (as amended).  [_derive_key] is a function of the master password, the
    salt and the fixed iteration count: for a password that has a UTF-8
    encoding it returns the URL-safe base64 text, 44 bytes long, of the 32
    bytes that PBKDF2-HMAC-SHA256 derives from them, and decoding that text
    gives the 32 bytes back. *)
Theorem derive_key_encodes_32_bytes (lib : Primitives) (laws : PrimitivesLaws lib)
  (master_password : str) (salt : bytes) :
  encodable master_password ->
  exists password raw,
    Utf8.encode master_password = Returns password
    /\ raw = pbkdf2_hmac_sha256 password salt CryptoManager.ITERATIONS 32
    /\ length raw = 32
    /\ CryptoManager._derive_key master_password salt
       = Returns (Base64.urlsafe_b64encode raw)
    /\ length (Base64.urlsafe_b64encode raw) = 44
    /\ Base64.urlsafe_b64decode (Base64.urlsafe_b64encode raw) = Returns raw.
Proof.
  intros H. exists (flat_map Utf8.encode_char master_password).
  exists (CryptoManager.derived master_password salt).
  split; [now apply encode_from_encodable |].
  split; [reflexivity |].
  split; [apply derived_length |].
  split; [now apply derive_key_returns |].
  split; [| apply b64decode_encode].
  rewrite b64encode_length, derived_length. reflexivity.
Qed.

Lemma derive_key_encodes_32_bytes_witness :
  exists password raw,
    Utf8.encode (pystr "Tr0ub4dor&3") = Returns password
    /\ raw = pbkdf2_hmac_sha256 (lib := sample_lib) password (repeat x2a 16)
               CryptoManager.ITERATIONS 32
    /\ length raw = 32
    /\ CryptoManager._derive_key (lib := sample_lib) (pystr "Tr0ub4dor&3") (repeat x2a 16)
       = Returns (Base64.urlsafe_b64encode raw)
    /\ length (Base64.urlsafe_b64encode raw) = 44
    /\ Base64.urlsafe_b64decode (Base64.urlsafe_b64encode raw) = Returns raw.
Proof.
  apply (derive_key_encodes_32_bytes sample_lib sample_lib_laws).
  apply encodable_test. reflexivity.
Defined.

(** C3 (as stated) fails on the length: what [_derive_key] returns is 44 bytes
    long, not 32. *)
Lemma derive_key_returns_44_bytes :
  exists key,
    CryptoManager._derive_key (lib := sample_lib) (pystr "Tr0ub4dor&3") (repeat x2a 16)
    = Returns key
    /\ length key = 44 /\ length key <> 32.
Proof.
  eexists. split.
  - apply (derive_key_returns (lib := sample_lib)). apply encodable_test. reflexivity.
  - rewrite b64encode_length, (derived_length (laws := sample_lib_laws)).
    split; [reflexivity | discriminate].
Qed.

(** C4 (the code at the failing input).  With three bytes in [salt.key],
    [_load_or_create_salt] returns those three bytes, and [__init__] builds an
    instance on them without raising. *)
Theorem malformed_salt_accepted (lib : Primitives) (laws : PrimitivesLaws lib)
  (master_password : str) :
  encodable master_password ->
  CryptoManager._load_or_create_salt short_salt_world
  = (Returns [x01; x02; x03], short_salt_world)
  /\ exists self,
       CryptoManager.__init__ master_password short_salt_world
       = (Returns self, short_salt_world)
       /\ CryptoManager.salt self = [x01; x02; x03].
Proof.
  intros H. split; [reflexivity |].
  exists (CryptoManager.instance master_password [x01; x02; x03]).
  split; [now apply init_returns | reflexivity].
Qed.

Lemma malformed_salt_accepted_witness :
  CryptoManager._load_or_create_salt short_salt_world
  = (Returns [x01; x02; x03], short_salt_world)
  /\ exists self,
       CryptoManager.__init__ (lib := sample_lib) (pystr "Tr0ub4dor&3") short_salt_world
       = (Returns self, short_salt_world)
       /\ CryptoManager.salt self = [x01; x02; x03].
Proof.
  apply (malformed_salt_accepted sample_lib sample_lib_laws).
  apply encodable_test. reflexivity.
Defined.

(** The 29 characters that pass [salt_text]. *)
Lemma salt_text_length (s : bytes) : Bcrypt.salt_text s = true -> length s = 29.
Proof.
  destruct s as [| b1 [| b2 [| b3 [| b4 [| b5 [| b6 [| b7 salt]]]]]]]; try discriminate.
  unfold Bcrypt.salt_text. intros H.
  apply andb_true_iff in H as [H _]. apply andb_true_iff in H as [_ H].
  apply Nat.eqb_eq in H. cbn [length]. now rewrite H.
Qed.

Lemma forallb_firstn {A} (f : A -> bool) (n : nat) (l : list A) :
  forallb f l = true -> forallb f (firstn n l) = true.
Proof.
  revert l. induction n as [| n IH]; intros [| x l] H; try reflexivity.
  cbn [firstn forallb] in *. apply andb_true_iff in H as [Hx Hl].
  now rewrite Hx, IH.
Qed.

Lemma format_digest_text (password : bytes) :
  length (format_digest password) = 31
  /\ forallb Bcrypt.in_alphabet (format_digest password) = true.
Proof.
  unfold format_digest, slice_to. split.
  - rewrite length_firstn, length_app, repeat_length. lia.
  - apply forallb_firstn. rewrite forallb_app. apply andb_true_iff. split.
    + apply forallb_forall. intros x Hx. apply in_map_iff in Hx as (b & <- & _).
      assert (Hall : forallb (fun k => Bcrypt.in_alphabet
                                         (byte_of (nth k Bcrypt.alphabet 46%N)))
                       (seq 0 64) = true) by (vm_compute; reflexivity).
      rewrite forallb_forall in Hall. apply Hall. apply in_seq.
      pose proof (Nat.mod_upper_bound (N.to_nat (byte_val b)) 64). lia.
    + apply forallb_forall. intros x Hx. apply repeat_spec in Hx. now subst x.
Qed.

(** The stand-in keeps the format. *)
Lemma format_lib_format : bcrypt_format format_lib.
Proof.
  intros password salt hashed. cbn [bcrypt_hashpw format_lib].
  destruct (Bcrypt.salt_text (slice_to 29 salt)) eqn:Hs; [| discriminate].
  intros H.
  assert (Hh : hashed = slice_to 29 salt ++ format_digest password) by congruence.
  subst hashed. clear H.
  pose proof (salt_text_length _ Hs) as Hl.
  destruct (format_digest_text password) as [Hdl Hda].
  unfold Bcrypt.hash_text.
  assert (E1 : slice_to 29 (slice_to 29 salt ++ format_digest password) = slice_to 29 salt)
    by (now apply firstn_app_exact).
  assert (E2 : slice_from 29 (slice_to 29 salt ++ format_digest password)
               = format_digest password) by (now apply skipn_app_exact).
  rewrite E1, E2, Hs, Hda, length_app, Hl, Hdl. reflexivity.
Qed.

(** A stored hash that is not the text of a hash is never reproduced. *)
Lemma verify_malformed {lib : Primitives} (password hashed : str) :
  bcrypt_format lib -> malformed_hash hashed ->
  CryptoManager.verify_master_password password hashed = Returns false.
Proof.
  intros Hf Hm.
  unfold CryptoManager.verify_master_password, CryptoManager.bcrypt_checkpw.
  destruct (Utf8.encode password) as [p | e1]; cbn [bind try_except]; [| reflexivity].
  destruct (Utf8.encode hashed) as [h | e2] eqn:Hh; cbn [bind try_except]; [| reflexivity].
  destruct (bcrypt_hashpw p h) as [rehashed | e3] eqn:Hr; cbn [bind try_except];
    [| reflexivity].
  f_equal. destruct (bytes_eqb rehashed h) eqn:E; [| reflexivity].
  apply bytes_eqb_eq in E. subst rehashed.
  pose proof (Hf _ _ _ Hr) as Ht. rewrite (Hm h Hh) in Ht. discriminate.
Qed.

(** C5.  For every password and every hash string, [verify_master_password]
    returns a boolean and never raises.  It returns [True] exactly when both
    strings have an encoding and bcrypt, hashing the password under the stored
    hash, reproduces that hash; so it returns [False] on a hash that cannot be
    encoded and on a hash that bcrypt rejects.  And since what bcrypt returns
    is always the text of a hash (60 characters: [$2a$], [$2b$], [$2x$] or
    [$2y$], a cost in two digits, [$], 53 characters of its alphabet), it
    returns [False] on every stored hash that is not such a text, be it
    corrupt, truncated, extended or foreign. *)
Theorem verify_master_password_never_raises (lib : Primitives) (password hashed : str) :
  (exists b, CryptoManager.verify_master_password password hashed = Returns b)
  /\ (CryptoManager.verify_master_password password hashed = Returns true
      <-> exists p h,
            Utf8.encode password = Returns p /\ Utf8.encode hashed = Returns h
            /\ bcrypt_hashpw p h = Returns h)
  /\ (forall e, Utf8.encode hashed = Raises e ->
      CryptoManager.verify_master_password password hashed = Returns false)
  /\ (forall p h e,
        Utf8.encode password = Returns p -> Utf8.encode hashed = Returns h ->
        bcrypt_hashpw p h = Raises e ->
        CryptoManager.verify_master_password password hashed = Returns false)
  /\ (bcrypt_format lib -> malformed_hash hashed ->
      CryptoManager.verify_master_password password hashed = Returns false).
Proof.
  assert (Hlast : bcrypt_format lib -> malformed_hash hashed ->
                  CryptoManager.verify_master_password password hashed = Returns false)
    by apply verify_malformed.
  revert Hlast.
  unfold CryptoManager.verify_master_password, CryptoManager.bcrypt_checkpw.
  destruct (Utf8.encode password) as [p | e1]; cbn [bind try_except].
  2:{ intros Hlast. repeat split; eauto; try discriminate.
      intros (p & h & H & _). discriminate. }
  destruct (Utf8.encode hashed) as [h | e2]; cbn [bind try_except].
  2:{ intros Hlast. repeat split; eauto; try discriminate.
      intros (p' & h' & _ & H & _). discriminate. }
  destruct (bcrypt_hashpw p h) as [rehashed | e3] eqn:Hh; cbn [bind try_except].
  2:{ intros Hlast. repeat split; eauto; try discriminate.
      intros (p' & h' & Hp & Hh' & H). injection Hp as <-. injection Hh' as <-.
      rewrite Hh in H. discriminate. }
  intros Hlast.
  split; [eauto |]. split; [| split; [| split]].
  - split.
    + intros H. injection H as H. apply bytes_eqb_eq in H. subst rehashed.
      now exists p, h.
    + intros (p' & h' & Hp & Hh' & H). injection Hp as <-. injection Hh' as <-.
      rewrite Hh in H. injection H as ->. f_equal. now apply bytes_eqb_eq.
  - discriminate.
  - intros p' h' e Hp Hh' H. injection Hp as <-. injection Hh' as <-.
    rewrite Hh in H. discriminate.
  - exact Hlast.
Qed.

Lemma verify_master_password_never_raises_witness :
  CryptoManager.verify_master_password (lib := format_lib) (pystr "Tr0ub4dor&3") format_hash
  = Returns true
  /\ CryptoManager.verify_master_password (lib := format_lib) (pystr "Tr0ub4dor&3")
       extended_hash
     = Returns false
  /\ CryptoManager.verify_master_password (lib := format_lib) (pystr "Tr0ub4dor&3")
       (pystr "not-a-hash")
     = Returns false
  /\ CryptoManager.verify_master_password (lib := format_lib) (pystr "Tr0ub4dor&3")
       (firstn 59 format_hash)
     = Returns false.
Proof.
  split; [vm_compute; reflexivity |]. split; [| split].
  - apply (proj2 (proj2 (proj2 (proj2
             (verify_master_password_never_raises format_lib (pystr "Tr0ub4dor&3")
                extended_hash))))); [exact format_lib_format |].
    intros h H. vm_compute in H. injection H as <-. reflexivity.
  - apply (proj2 (proj2 (proj2 (proj2
             (verify_master_password_never_raises format_lib (pystr "Tr0ub4dor&3")
                (pystr "not-a-hash")))))); [exact format_lib_format |].
    intros h H. vm_compute in H. injection H as <-. reflexivity.
  - apply (proj2 (proj2 (proj2 (proj2
             (verify_master_password_never_raises format_lib (pystr "Tr0ub4dor&3")
                (firstn 59 format_hash)))))); [exact format_lib_format |].
    intros h H. vm_compute in H. injection H as <-. reflexivity.
Defined.

(** The three library predicates on the ASCII characters. *)
Lemma ascii_classes (c : N) :
  (c < 128)%N ->
  (isupper c = true <-> (65 <= c <= 90)%N)
  /\ (islower c = true <-> (97 <= c <= 122)%N)
  /\ (isdigit c = true <-> (48 <= c <= 57)%N).
Proof.
  intros Hc.
  pose proof (ascii_cases
    (fun c => Bool.eqb (isupper c) ((65 <=? c) && (c <=? 90))
              && Bool.eqb (islower c) ((97 <=? c) && (c <=? 122))
              && Bool.eqb (isdigit c) ((48 <=? c) && (c <=? 57)))%N
    ltac:(vm_compute; reflexivity) c Hc) as H.
  cbv beta in H. apply andb_true_iff in H as [H Hd]. apply andb_true_iff in H as [Hu Hl].
  apply eqb_prop in Hu, Hl, Hd. rewrite Hu, Hl, Hd.
  rewrite !andb_true_iff, !N.leb_le. tauto.
Qed.

(** C6.  [validate_password_strength] accepts a password exactly when it has
    at least 8 characters and at least 3 of the 4 classes upper case, lower
    case, digit, special character are present in it.  The special characters
    are those of the string [!@#$%^&*()_+-=[]{}|;:,.<>?] and no other; among
    the ASCII characters the upper-case ones are [A] to [Z], the lower-case
    ones [a] to [z], the digits [0] to [9].  It rejects ["Ab1!"] as too short
    and ["abcdefgh"] for its classes, and accepts ["Abcdefg1"]; with a special
    character as third class it accepts ["Abcdef!!"], ["abcdef1!"] and
    ["ABCDEF1!"], and it rejects ["abcdef!!"], which has two classes. *)
Theorem validate_password_strength_rule :
  (forall password,
     fst (CryptoManager.validate_password_strength password) = true
     <-> CryptoManager.strong password)
  /\ (forall c,
        CryptoManager.in_class CryptoManager.Symbol c = true
        <-> In c (pystr "!@#$%^&*()_+-=[]{}|;:,.<>?"))
  /\ (forall c, (c < 128)%N ->
        (CryptoManager.in_class CryptoManager.Uppercase c = true <-> (65 <= c <= 90)%N)
        /\ (CryptoManager.in_class CryptoManager.Lowercase c = true <-> (97 <= c <= 122)%N)
        /\ (CryptoManager.in_class CryptoManager.Digit c = true <-> (48 <= c <= 57)%N))
  /\ CryptoManager.validate_password_strength (pystr "Ab1!")
     = (false, pystr "Password must be at least 8 characters long")
  /\ CryptoManager.validate_password_strength (pystr "abcdefgh")
     = (false, pystr "Password must contain at least 3 of: uppercase, lowercase, digit, special character")
  /\ CryptoManager.validate_password_strength (pystr "Abcdefg1") = (true, [])
  /\ CryptoManager.validate_password_strength (pystr "Abcdef!!") = (true, [])
  /\ CryptoManager.validate_password_strength (pystr "abcdef1!") = (true, [])
  /\ CryptoManager.validate_password_strength (pystr "ABCDEF1!") = (true, [])
  /\ CryptoManager.validate_password_strength (pystr "abcdef!!")
     = (false, pystr "Password must contain at least 3 of: uppercase, lowercase, digit, special character").
Proof.
  split; [exact validate_iff_strong |].
  split; [exact is_special_iff |].
  split; [exact ascii_classes |].
  repeat split; vm_compute; reflexivity.
Qed.

(** C7.  [encrypt] of the empty string returns the empty string and leaves
    the environment as it was: no time is read and no random byte drawn,
    whatever the key.  [decrypt] of the empty string returns the empty string. *)
Theorem empty_string_identity (lib : Primitives) (self : CryptoManager.t) (w : World) :
  CryptoManager.encrypt self [] w = (Returns [], w)
  /\ CryptoManager.decrypt self [] = Returns [].
Proof. split; reflexivity. Qed.




(** A character of no class leaves the presence of every class as it is. *)
Lemma class_present_insert (k : CryptoManager.char_class) (c : N) (before after : str) :
  CryptoManager.in_class k c = false ->
  (CryptoManager.class_present k (before ++ c :: after)
   <-> CryptoManager.class_present k (before ++ after)).
Proof.
  intros Hc. rewrite <- !any_in_class. now rewrite any_insert.
Qed.

(** What the function returns for a password with such a character in it. *)
Lemma validate_insert_other (c : N) (before after : str) :
  CryptoManager.is_special c = false -> isalnum c = false ->
  isupper c = false -> islower c = false ->
  CryptoManager.validate_password_strength (before ++ c :: after)
  = if S (length (before ++ after)) <? 8
    then (false, pystr "Password must be at least 8 characters long")
    else if CryptoManager.sum
              [CryptoManager.any isupper (before ++ after);
               CryptoManager.any islower (before ++ after);
               CryptoManager.any isdigit (before ++ after);
               CryptoManager.any CryptoManager.is_special (before ++ after)] <? 3
    then (false, pystr "Password must contain at least 3 of: uppercase, lowercase, digit, special character")
    else (true, []).
Proof.
  intros Hs Ha Hu Hl.
  assert (Hd : isdigit c = false).
  { destruct (isdigit c) eqn:E; [| reflexivity].
    apply isdigit_isalnum in E. congruence. }
  unfold CryptoManager.validate_password_strength.
  rewrite !any_insert by assumption.
  replace (length (before ++ c :: after)) with (S (length (before ++ after)))
    by (rewrite !length_app; cbn [length]; lia).
  reflexivity.
Qed.

(** C9 (as amended).  In [validate_password_strength] the special-character
    class is satisfied only by the characters of the fixed string: a password
    of seven letters of both cases and one more character that is neither a
    letter of a case nor a digit is accepted exactly when that character is in
    the string.  A character outside the string that is not alphanumeric and
    that [isupper] and [islower] reject counts for the length and for nothing
    else, wherever it stands: the password with it is accepted exactly when
    it has 8 characters with it and 3 classes without it, and where the
    password has 8 characters without it the answer is the same with and
    without.  Among the ASCII characters every one that is not alphanumeric
    and not in the string is such a character: with the space, [~], the
    backquote, the double quote or the backslash as eighth character,
    ["Abcdefg"] is rejected for its classes and ["Abcdef1"] is accepted. *)
Theorem other_characters_count_for_length_only :
  (forall c, isupper c = false -> islower c = false -> isdigit c = false ->
     (fst (CryptoManager.validate_password_strength (pystr "Abcdefg" ++ [c])) = true
      <-> In c (pystr "!@#$%^&*()_+-=[]{}|;:,.<>?")))
  /\ (forall c before after,
        ~ In c (pystr "!@#$%^&*()_+-=[]{}|;:,.<>?") -> isalnum c = false ->
        isupper c = false -> islower c = false ->
        (fst (CryptoManager.validate_password_strength (before ++ c :: after)) = true
         <-> 8 <= S (length (before ++ after))
             /\ exists classes : list CryptoManager.char_class,
                  NoDup classes /\ 3 <= length classes
                  /\ forall k, In k classes ->
                       CryptoManager.class_present k (before ++ after)))
  /\ (forall c before after,
        ~ In c (pystr "!@#$%^&*()_+-=[]{}|;:,.<>?") -> isalnum c = false ->
        isupper c = false -> islower c = false ->
        8 <= length (before ++ after) ->
        CryptoManager.validate_password_strength (before ++ c :: after)
        = CryptoManager.validate_password_strength (before ++ after))
  /\ (forall c, (c < 128)%N -> isalnum c = false ->
        ~ In c (pystr "!@#$%^&*()_+-=[]{}|;:,.<>?") ->
        isupper c = false /\ islower c = false)
  /\ Forall (fun c =>
               (c < 128)%N /\ isalnum c = false
               /\ ~ In c (pystr "!@#$%^&*()_+-=[]{}|;:,.<>?")
               /\ CryptoManager.validate_password_strength (pystr "Abcdefg" ++ [c])
                  = (false, pystr "Password must contain at least 3 of: uppercase, lowercase, digit, special character")
               /\ CryptoManager.validate_password_strength (pystr "Abcdef1" ++ [c])
                  = (true, []))
       [32; 126; 96; 34; 92]%N.
Proof.
  assert (Hout : forall c, ~ In c (pystr "!@#$%^&*()_+-=[]{}|;:,.<>?") ->
                           CryptoManager.is_special c = false).
  { intros c Hc. destruct (CryptoManager.is_special c) eqn:E; [| reflexivity].
    exfalso. apply Hc. now apply is_special_iff. }
  split; [| split; [| split; [| split]]].
  - intros c Hu Hl Hd. rewrite <- (is_special_iff c).
    unfold CryptoManager.validate_password_strength, CryptoManager.any.
    rewrite !existsb_app. cbn [existsb length app]. rewrite Hu, Hl, Hd.
    rewrite !orb_false_r.
    replace (existsb isupper (pystr "Abcdefg")) with true by (vm_compute; reflexivity).
    replace (existsb islower (pystr "Abcdefg")) with true by (vm_compute; reflexivity).
    replace (existsb isdigit (pystr "Abcdefg")) with false by (vm_compute; reflexivity).
    replace (existsb CryptoManager.is_special (pystr "Abcdefg")) with false
      by (vm_compute; reflexivity).
    cbn [orb]. destruct (CryptoManager.is_special c); cbn; split; congruence.
  - intros c before after Hc Ha Hu Hl.
    rewrite validate_iff_strong. unfold CryptoManager.strong.
    replace (length (before ++ c :: after)) with (S (length (before ++ after)))
      by (rewrite !length_app; cbn [length]; lia).
    assert (Hk : forall k, CryptoManager.in_class k c = false).
    { intros [| | |]; cbn [CryptoManager.in_class]; auto.
      destruct (isdigit c) eqn:E; [| reflexivity].
      apply isdigit_isalnum in E. congruence. }
    split; intros (Hlen & classes & Hn & H3 & Hp); (split; [exact Hlen |]);
      exists classes; repeat split; try assumption; intros k Hin;
      apply (class_present_insert k c before after (Hk k)); auto.
  - intros c before after Hc Ha Hu Hl Hlen.
    rewrite (validate_insert_other c before after (Hout c Hc) Ha Hu Hl).
    unfold CryptoManager.validate_password_strength.
    replace (S (length (before ++ after)) <? 8) with false
      by (symmetry; apply Nat.ltb_ge; lia).
    replace (length (before ++ after) <? 8) with false
      by (symmetry; apply Nat.ltb_ge; lia).
    reflexivity.
  - intros c Hc Ha Hs. apply ascii_other_uncased; auto.
  - repeat constructor; try (vm_compute; reflexivity);
      intros H; cbn in H; repeat (destruct H as [H | H]; [discriminate H |]); exact H.
Qed.

Lemma other_characters_count_for_length_only_witness :
  CryptoManager.validate_password_strength (pystr "Abcdefg" ++ 32%N :: pystr "1")
  = CryptoManager.validate_password_strength (pystr "Abcdefg" ++ pystr "1").
Proof.
  apply (proj1 (proj2 (proj2 other_characters_count_for_length_only))).
  - intros H. cbn in H. repeat (destruct H as [H | H]; [discriminate H |]). exact H.
  - reflexivity.
  - reflexivity.
  - reflexivity.
  - cbn. lia.
Defined.

(** C9 (as stated) fails on U+24B6, CIRCLED LATIN CAPITAL LETTER A: it is not
    alphanumeric and not in the fixed string, yet [isupper] accepts it, so that
    it supplies the upper-case class: before ["bcdefg1"], which has two
    classes, it makes a password that is accepted, where [~] in its place, a
    character that counts for the length only, makes one that is rejected. *)
Lemma circled_letter_counts_as_uppercase :
  isalnum 0x24B6 = false
  /\ ~ In 0x24B6%N (pystr "!@#$%^&*()_+-=[]{}|;:,.<>?")
  /\ CryptoManager.validate_password_strength (0x24B6%N :: pystr "bcdefg1") = (true, [])
  /\ CryptoManager.validate_password_strength (126%N :: pystr "bcdefg1")
     = (false, pystr "Password must contain at least 3 of: uppercase, lowercase, digit, special character")
  /\ CryptoManager.validate_password_strength (pystr "bcdefg1")
     = (false, pystr "Password must be at least 8 characters long").
Proof.
  split; [vm_compute; reflexivity |]. split.
  - intros H. cbn in H. repeat (destruct H as [H | H]; [discriminate H |]). exact H.
  - repeat split; vm_compute; reflexivity.
Qed.

(** C10.  With every optional field absent, [update_credential] returns
    before it executes anything: the rows, [modified_at] included, and the
    list of executed statements are those of the database it was given. *)
Theorem update_credential_nothing_to_update (credential_id : Z) (now : str)
  (db : Database.t) :
  Database.update_credential credential_id None None None None None now db = db.
Proof. reflexivity. Qed.

(* ================================================================== *)
(** * The password generator                                           *)
(* ================================================================== *)

Lemma bindR_eq {A B} (m : R A) (k : A -> R B) (g g' : Rng) (a : A) :
  m g = (a, g') -> bindR m k g = k a g'.
Proof. intros H. unfold bindR. now rewrite H. Qed.

Lemma randbelow_lt (n : nat) (g : Rng) : 0 < n -> fst (Secrets.randbelow n g) < n.
Proof. intros H. cbn. apply Nat.mod_upper_bound. lia. Qed.

Lemma choice_in (seq : str) (g : Rng) : seq <> [] -> In (fst (Secrets.choice seq g)) seq.
Proof.
  intros H. cbn. apply nth_In. apply Nat.mod_upper_bound.
  destruct seq; [contradiction | discriminate].
Qed.

Lemma random_chars_spec (n : nat) (pool : str) :
  pool <> [] ->
  forall g,
    length (fst (PasswordGenerator.random_chars n pool g)) = n
    /\ Forall (fun c => In c pool) (fst (PasswordGenerator.random_chars n pool g)).
Proof.
  intros Hp. induction n as [| n IH]; intros g; [split; [reflexivity | constructor] |].
  cbn [PasswordGenerator.random_chars].
  destruct (Secrets.choice pool g) as [c g1] eqn:Hc.
  destruct (PasswordGenerator.random_chars n pool g1) as [rest g2] eqn:Hr.
  rewrite (bindR_eq _ _ _ _ _ Hc), (bindR_eq _ _ _ _ _ Hr).
  cbn [retR fst]. specialize (IH g1). rewrite Hr in IH. cbn [fst] in IH.
  destruct IH as [IH1 IH2]. split; [cbn [length]; lia |].
  constructor; [| exact IH2].
  pose proof (choice_in pool g Hp) as H. now rewrite Hc in H.
Qed.

Lemma set_item_length (i : nat) (v : N) (chars : str) :
  i < length chars -> length (PasswordGenerator.set_item i v chars) = length chars.
Proof.
  intros H. unfold PasswordGenerator.set_item.
  rewrite length_app, length_firstn. cbn [length]. rewrite length_skipn. lia.
Qed.

Lemma set_item_cons (i : nat) (v x : N) (chars : str) :
  PasswordGenerator.set_item (S i) v (x :: chars)
  = x :: PasswordGenerator.set_item i v chars.
Proof. reflexivity. Qed.

Lemma nth_set_item (i j : nat) (v : N) (chars : str) :
  i < length chars ->
  nth j (PasswordGenerator.set_item i v chars) 0%N
  = if j =? i then v else nth j chars 0%N.
Proof.
  revert i j. induction chars as [| x chars IH]; intros i j H; [cbn in H; lia |].
  destruct i as [| i].
  - destruct j; reflexivity.
  - rewrite set_item_cons. destruct j as [| j]; [reflexivity |].
    cbn [nth Nat.eqb]. apply IH. cbn in H. lia.
Qed.

(** Writing one item takes away one occurrence of the old value and adds one
    of the new. *)
Lemma count_occ_set_item (i : nat) (v x : N) (chars : str) :
  i < length chars ->
  count_occ N.eq_dec (PasswordGenerator.set_item i v chars) x
  + (if N.eq_dec (nth i chars 0%N) x then 1 else 0)
  = count_occ N.eq_dec chars x + (if N.eq_dec v x then 1 else 0).
Proof.
  revert i. induction chars as [| y chars IH]; intros i H; [cbn in H; lia |].
  destruct i as [| i].
  - unfold PasswordGenerator.set_item. cbn [firstn skipn app nth count_occ].
    destruct (N.eq_dec v x), (N.eq_dec y x); lia.
  - rewrite set_item_cons. cbn [nth count_occ].
    specialize (IH i ltac:(cbn in H; lia)).
    destruct (N.eq_dec y x); lia.
Qed.

(** Exchanging two items of a list only reorders it. *)
Lemma swap_permutation (i j : nat) (chars : str) :
  i < length chars -> j < length chars ->
  Permutation (PasswordGenerator.swap i j chars) chars.
Proof.
  intros Hi Hj. apply (Permutation_count_occ N.eq_dec). intros x.
  unfold PasswordGenerator.swap. cbv zeta.
  set (mid := PasswordGenerator.set_item i (nth j chars 0%N) chars).
  assert (Hm : length mid = length chars) by now apply set_item_length.
  pose proof (count_occ_set_item i (nth j chars 0%N) x chars Hi) as H1. fold mid in H1.
  pose proof (count_occ_set_item j (nth i chars 0%N) x mid ltac:(lia)) as H2.
  assert (Hn : nth j mid 0%N = nth j chars 0%N).
  { unfold mid. rewrite nth_set_item by assumption. now destruct (j =? i). }
  rewrite Hn in H2. lia.
Qed.

(** Whatever the random choices, the loop returns a rearrangement of the list
    it was given. *)
Lemma shuffle_permutation (i : nat) :
  forall chars g,
    i < length chars ->
    Permutation (fst (PasswordGenerator.shuffle i chars g)) chars.
Proof.
  induction i as [| i IH]; intros chars g Hi; [reflexivity |].
  cbn [PasswordGenerator.shuffle].
  destruct (Secrets.randbelow (S i + 1) g) as [j g1] eqn:Hj.
  rewrite (bindR_eq _ _ _ _ _ Hj).
  assert (Hlt : j < S i + 1).
  { pose proof (randbelow_lt (S i + 1) g ltac:(lia)) as H. now rewrite Hj in H. }
  assert (Hs : Permutation (PasswordGenerator.swap (S i) j chars) chars)
    by (apply swap_permutation; lia).
  etransitivity; [apply IH | exact Hs].
  rewrite (Permutation_length Hs). lia.
Qed.

Lemma add_class_spec (use : bool) (chars : str) (acc : str * str) (g : Rng) :
  chars <> [] ->
  exists c g',
    In c chars
    /\ PasswordGenerator.add_class use chars acc g
       = ((fst acc ++ (if use then chars else []), snd acc ++ (if use then [c] else [])), g').
Proof.
  intros H. unfold PasswordGenerator.add_class. destruct use.
  - destruct (Secrets.choice chars g) as [c g'] eqn:Hc.
    exists c, g'. split; [| now rewrite (bindR_eq _ _ _ _ _ Hc)].
    pose proof (choice_in chars g H) as Hin. now rewrite Hc in Hin.
  - destruct chars as [| c chars]; [contradiction |].
    exists c, g. split; [now left |]. unfold retR. rewrite !app_nil_r. now destruct acc.
Qed.

(** What a successful call has done: one character was chosen from each
    selected class, the rest from the pool, and the whole was rearranged. *)
Lemma generate_password_returns (length : Z) (uu ul ud us : bool) (g : Rng) :
  (12 <= length <= 64)%Z -> uu || ul || ud || us = true ->
  exists cu cl cd cs random password g',
    PasswordGenerator.generate_password length uu ul ud us g = (Returns password, g')
    /\ In cu PasswordGenerator.ascii_uppercase /\ In cl PasswordGenerator.ascii_lowercase
    /\ In cd PasswordGenerator.digits /\ In cs PasswordGenerator.symbols
    /\ Forall (fun c => In c (PasswordGenerator.pool_of uu ul ud us)) random
    /\ List.length random = Z.to_nat length - PasswordGenerator.selected uu ul ud us
    /\ Permutation password
         ((if uu then [cu] else []) ++ (if ul then [cl] else [])
          ++ (if ud then [cd] else []) ++ (if us then [cs] else []) ++ random).
Proof.
  intros Hlen Hsel. unfold PasswordGenerator.generate_password.
  replace (length <? 12)%Z with false by (symmetry; apply Z.ltb_ge; lia).
  replace (64 <? length)%Z with false by (symmetry; apply Z.ltb_ge; lia).
  rewrite Hsel. cbn [orb negb].
  destruct (add_class_spec uu PasswordGenerator.ascii_uppercase ([], []) g ltac:(discriminate))
    as (cu & g1 & Hcu & E1).
  rewrite (bindR_eq _ _ _ _ _ E1). cbv beta. cbn [fst snd app].
  match goal with |- context [PasswordGenerator.add_class ul _ ?acc] =>
    destruct (add_class_spec ul PasswordGenerator.ascii_lowercase acc g1 ltac:(discriminate))
      as (cl & g2 & Hcl & E2) end.
  rewrite (bindR_eq _ _ _ _ _ E2). cbv beta. cbn [fst snd].
  match goal with |- context [PasswordGenerator.add_class ud _ ?acc] =>
    destruct (add_class_spec ud PasswordGenerator.digits acc g2 ltac:(discriminate))
      as (cd & g3 & Hcd & E3) end.
  rewrite (bindR_eq _ _ _ _ _ E3). cbv beta. cbn [fst snd].
  match goal with |- context [PasswordGenerator.add_class us _ ?acc] =>
    destruct (add_class_spec us PasswordGenerator.symbols acc g3 ltac:(discriminate))
      as (cs & g4 & Hcs & E4) end.
  rewrite (bindR_eq _ _ _ _ _ E4). cbv beta. cbn [fst snd].
  set (pool := (((if uu then PasswordGenerator.ascii_uppercase else []) ++ _) ++ _) ++ _).
  set (required := (((if uu then [cu] else []) ++ _) ++ _) ++ _).
  assert (Hpool : pool = PasswordGenerator.pool_of uu ul ud us).
  { unfold pool, PasswordGenerator.pool_of. now rewrite <- !app_assoc. }
  assert (Hreq : List.length required = PasswordGenerator.selected uu ul ud us).
  { unfold required, PasswordGenerator.selected. rewrite !length_app. now destruct uu, ul, ud, us. }
  assert (Hne : pool <> []).
  { rewrite Hpool. unfold PasswordGenerator.pool_of.
    destruct uu, ul, ud, us; try discriminate Hsel; discriminate. }
  set (n := Z.to_nat (length - Z.of_nat (List.length required))).
  destruct (PasswordGenerator.random_chars n pool g4) as [random g5] eqn:Hr.
  pose proof (random_chars_spec n pool Hne g4) as [Hrl Hrf]. rewrite Hr in Hrl, Hrf.
  cbn [fst] in Hrl, Hrf.
  rewrite (bindR_eq _ _ _ _ _ Hr). cbv beta zeta.
  destruct (PasswordGenerator.shuffle (List.length (required ++ random) - 1)
              (required ++ random) g5) as [password g6] eqn:Hsh.
  rewrite (bindR_eq _ _ _ _ _ Hsh).
  exists cu, cl, cd, cs, random, password, g6.
  split; [reflexivity |]. repeat (split; [assumption |]).
  split; [now rewrite <- Hpool |].
  split; [rewrite Hrl; unfold n; rewrite Hreq; unfold PasswordGenerator.selected; destruct uu, ul, ud, us; cbn; lia |].
  assert (Hpos : List.length (required ++ random) - 1 < List.length (required ++ random)).
  { rewrite length_app, Hreq. unfold PasswordGenerator.selected.
    destruct uu, ul, ud, us; try discriminate Hsel; cbn; lia. }
  pose proof (shuffle_permutation _ (required ++ random) g5 Hpos) as Hperm.
  rewrite Hsh in Hperm. cbn [fst] in Hperm.
  etransitivity; [exact Hperm |].
  unfold required. rewrite <- !app_assoc. reflexivity.
Qed.

(** The characters of each pool belong to the class of the pool and to no
    other. *)
Lemma pool_classes :
  Forall (fun c => isupper c = true /\ islower c = false /\ isdigit c = false
                   /\ CryptoManager.is_special c = false) PasswordGenerator.ascii_uppercase
  /\ Forall (fun c => isupper c = false /\ islower c = true /\ isdigit c = false
                      /\ CryptoManager.is_special c = false) PasswordGenerator.ascii_lowercase
  /\ Forall (fun c => isupper c = false /\ islower c = false /\ isdigit c = true
                      /\ CryptoManager.is_special c = false) PasswordGenerator.digits
  /\ Forall (fun c => isupper c = false /\ islower c = false /\ isdigit c = false
                      /\ CryptoManager.is_special c = true) PasswordGenerator.symbols.
Proof. repeat split; repeat constructor. Qed.

Lemma in_pool_of (uu ul ud us : bool) (c : N) :
  In c (PasswordGenerator.pool_of uu ul ud us)
  <-> (uu = true /\ In c PasswordGenerator.ascii_uppercase)
      \/ (ul = true /\ In c PasswordGenerator.ascii_lowercase)
      \/ (ud = true /\ In c PasswordGenerator.digits)
      \/ (us = true /\ In c PasswordGenerator.symbols).
Proof.
  unfold PasswordGenerator.pool_of. rewrite !in_app_iff.
  destruct uu, ul, ud, us; cbn [In]; intuition discriminate.
Qed.

(** A character of the pool has the class of a selected type, and only that. *)
Lemma pool_of_class (uu ul ud us : bool) (c : N) :
  In c (PasswordGenerator.pool_of uu ul ud us) ->
  (isupper c = true -> uu = true) /\ (islower c = true -> ul = true)
  /\ (isdigit c = true -> ud = true) /\ (CryptoManager.is_special c = true -> us = true).
Proof.
  destruct pool_classes as (Hu & Hl & Hd & Hs).
  rewrite Forall_forall in Hu, Hl, Hd, Hs.
  intros H. apply in_pool_of in H as [[E H] | [[E H] | [[E H] | [E H]]]].
  - destruct (Hu c H) as (-> & -> & -> & ->). repeat split; auto; discriminate.
  - destruct (Hl c H) as (-> & -> & -> & ->). repeat split; auto; discriminate.
  - destruct (Hd c H) as (-> & -> & -> & ->). repeat split; auto; discriminate.
  - destruct (Hs c H) as (-> & -> & -> & ->). repeat split; auto; discriminate.
Qed.

Lemma any_true_iff (p : N -> bool) (password : str) :
  CryptoManager.any p password = true <-> exists c, In c password /\ p c = true.
Proof. apply existsb_exists. Qed.

Lemma bool_eq_iff (a b : bool) : (a = true <-> b = true) -> a = b.
Proof. destruct a, b; intuition congruence. Qed.

(** The shape of a generated password, and the class flags that
    [validate_password_strength] computes on it. *)
Lemma generate_password_shape (length : Z) (uu ul ud us : bool) (g : Rng) :
  (12 <= length <= 64)%Z -> uu || ul || ud || us = true ->
  exists password g',
    PasswordGenerator.generate_password length uu ul ud us g = (Returns password, g')
    /\ List.length password = Z.to_nat length
    /\ Forall (fun c => In c (PasswordGenerator.pool_of uu ul ud us)) password
    /\ CryptoManager.any isupper password = uu
    /\ CryptoManager.any islower password = ul
    /\ CryptoManager.any isdigit password = ud
    /\ CryptoManager.any CryptoManager.is_special password = us.
Proof.
  intros Hlen Hsel.
  destruct (generate_password_returns length uu ul ud us g Hlen Hsel)
    as (cu & cl & cd & cs & random & password & g' & E & Hcu & Hcl & Hcd & Hcs
        & Hrand & Hrl & Hperm).
  exists password, g'. split; [exact E |].
  set (chosen := (if uu then [cu] else []) ++ (if ul then [cl] else [])
                 ++ (if ud then [cd] else []) ++ (if us then [cs] else []) ++ random) in *.
  assert (Hall : forall c, In c password -> In c (PasswordGenerator.pool_of uu ul ud us)).
  { intros c Hc. apply (Permutation_in _ Hperm) in Hc. unfold chosen in Hc.
    rewrite Forall_forall in Hrand. rewrite !in_app_iff in Hc. apply in_pool_of.
    destruct Hc as [Hc | [Hc | [Hc | [Hc | Hc]]]].
    - destruct uu; [| contradiction]. destruct Hc as [<- | []]. auto.
    - destruct ul; [| contradiction]. destruct Hc as [<- | []]. auto.
    - destruct ud; [| contradiction]. destruct Hc as [<- | []]. auto 6.
    - destruct us; [| contradiction]. destruct Hc as [<- | []]. auto 6.
    - apply in_pool_of. auto. }
  assert (Hin : forall c, In c chosen -> In c password).
  { intros c Hc. apply (Permutation_in _ (Permutation_sym Hperm)), Hc. }
  destruct pool_classes as (Hu & Hl & Hd & Hs).
  rewrite Forall_forall in Hu, Hl, Hd, Hs.
  split.
  { rewrite (Permutation_length Hperm). unfold chosen. rewrite !length_app, Hrl.
    unfold PasswordGenerator.selected. destruct uu, ul, ud, us; try discriminate Hsel; cbn; lia. }
  split; [now apply Forall_forall |].
  repeat split; apply bool_eq_iff; rewrite any_true_iff; split.
  - intros (c & Hc & Hp). now apply (pool_of_class uu ul ud us c (Hall c Hc)).
  - intros ->. exists cu. split; [apply Hin; unfold chosen; cbn; auto | apply (Hu cu Hcu)].
  - intros (c & Hc & Hp). now apply (pool_of_class uu ul ud us c (Hall c Hc)).
  - intros ->. exists cl. split; [| apply (Hl cl Hcl)].
    apply Hin. unfold chosen. rewrite !in_app_iff. cbn. auto.
  - intros (c & Hc & Hp). now apply (pool_of_class uu ul ud us c (Hall c Hc)).
  - intros ->. exists cd. split; [| apply (Hd cd Hcd)].
    apply Hin. unfold chosen. rewrite !in_app_iff. cbn. auto.
  - intros (c & Hc & Hp). now apply (pool_of_class uu ul ud us c (Hall c Hc)).
  - intros ->. exists cs. split; [| apply (Hs cs Hcs)].
    apply Hin. unfold chosen. rewrite !in_app_iff. cbn. auto 6.
Qed.

Lemma generate_password_returned (length : Z) (uu ul ud us : bool) (g g' : Rng)
  (password : str) :
  PasswordGenerator.generate_password length uu ul ud us g = (Returns password, g') ->
  (12 <= length <= 64)%Z /\ uu || ul || ud || us = true.
Proof.
  unfold PasswordGenerator.generate_password.
  destruct (length <? 12)%Z eqn:E1; [discriminate |].
  destruct (64 <? length)%Z eqn:E2; [discriminate |].
  cbn [orb]. destruct (uu || ul || ud || us); [| discriminate].
  intros _. apply Z.ltb_ge in E1, E2. split; [lia | reflexivity].
Qed.

Lemma shuffle_taken (i : nat) :
  forall chars g, taken (snd (PasswordGenerator.shuffle i chars g)) = taken g + i.
Proof.
  induction i as [| i IH]; intros chars g; [cbn; lia |].
  cbn [PasswordGenerator.shuffle].
  destruct (Secrets.randbelow (S i + 1) g) as [j g1] eqn:Hj.
  rewrite (bindR_eq _ _ _ _ _ Hj). rewrite IH.
  unfold Secrets.randbelow in Hj. injection Hj as _ <-. cbn. lia.
Qed.

(** X1.  [generate_password] raises exactly when its arguments are refused,
    and then before any random choice is made: [ValueError] with the text on
    the length when [length] is below 12 or above 64, whatever the types
    selected; [ValueError] with the text on the character types when the
    length is in range and no type is selected; in every other case it returns
    a password. *)
Theorem generate_password_raises_iff (length : Z) (uu ul ud us : bool) (g : Rng) :
  ((length < 12 \/ 64 < length)%Z
   <-> PasswordGenerator.generate_password length uu ul ud us g
       = (Raises PasswordGenerator.bad_length, g))
  /\ ((12 <= length <= 64)%Z /\ uu || ul || ud || us = false
      <-> PasswordGenerator.generate_password length uu ul ud us g
          = (Raises PasswordGenerator.no_character_type, g))
  /\ ((12 <= length <= 64)%Z /\ uu || ul || ud || us = true
      <-> exists password g',
            PasswordGenerator.generate_password length uu ul ud us g
            = (Returns password, g')).
Proof.
  assert (Hne : PasswordGenerator.bad_length <> PasswordGenerator.no_character_type)
    by (vm_compute; discriminate).
  assert (E : exists r g',
             PasswordGenerator.generate_password length uu ul ud us g = (r, g')
             /\ (((length <? 12) || (64 <? length))%Z = true
                 /\ r = Raises PasswordGenerator.bad_length /\ g' = g
                 \/ ((length <? 12) || (64 <? length))%Z = false
                    /\ uu || ul || ud || us = false
                    /\ r = Raises PasswordGenerator.no_character_type /\ g' = g
                 \/ ((length <? 12) || (64 <? length))%Z = false
                    /\ uu || ul || ud || us = true
                    /\ exists password, r = Returns password)).
  { destruct ((length <? 12) || (64 <? length))%Z eqn:Hr.
    - exists (Raises PasswordGenerator.bad_length), g. split; [| now left].
      unfold PasswordGenerator.generate_password. now rewrite Hr.
    - destruct (uu || ul || ud || us) eqn:Hsel.
      + apply orb_false_iff in Hr as [H1 H2]. apply Z.ltb_ge in H1, H2.
        destruct (generate_password_returns length uu ul ud us g ltac:(lia) Hsel)
          as (_ & _ & _ & _ & _ & password & g' & E & _).
        exists (Returns password), g'. split; [exact E |]. right. right.
        repeat split; eauto.
      + exists (Raises PasswordGenerator.no_character_type), g. split; [| right; now left].
        unfold PasswordGenerator.generate_password. now rewrite Hr, Hsel. }
  destruct E as (r & g' & E & Hcase). rewrite E.
  assert (Hrange : ((length <? 12) || (64 <? length))%Z = true <-> (length < 12 \/ 64 < length)%Z).
  { rewrite orb_true_iff, !Z.ltb_lt. reflexivity. }
  assert (Hin : ((length <? 12) || (64 <? length))%Z = false <-> (12 <= length <= 64)%Z).
  { rewrite orb_false_iff, !Z.ltb_ge. lia. }
  destruct Hcase as [(Hr & -> & ->) | [(Hr & Hsel & -> & ->) | (Hr & Hsel & password & ->)]];
    [apply Hrange in Hr | apply Hin in Hr | apply Hin in Hr];
    (split; [| split]); split; intros H;
    first [ reflexivity
          | lia
          | now split
          | exfalso; apply Hne; congruence
          | discriminate H
          | destruct H as (? & ? & H); discriminate H
          | destruct H as [? ?]; (lia || congruence)
          | eauto ].
Qed.

(** X2.  A password that [generate_password] returns has exactly [length]
    characters, and every one of them belongs to the pool of the selected
    types: an upper-case letter, a lower-case letter, a digit or one of the
    26 symbols is there only if its type was selected. *)
Theorem generated_password_length_and_pool (length : Z) (uu ul ud us : bool)
  (g g' : Rng) (password : str) :
  PasswordGenerator.generate_password length uu ul ud us g = (Returns password, g') ->
  Z.of_nat (List.length password) = length
  /\ Forall (fun c => In c (PasswordGenerator.pool_of uu ul ud us)) password.
Proof.
  intros H. destruct (generate_password_returned _ _ _ _ _ _ _ _ H) as [Hlen Hsel].
  destruct (generate_password_shape length uu ul ud us g Hlen Hsel)
    as (p & g1 & E & Hl & Hp & _).
  rewrite E in H. injection H as -> _. split; [lia | exact Hp].
Qed.

Lemma generated_password_length_and_pool_witness :
  Z.of_nat (List.length sample_password) = 16%Z
  /\ Forall (fun c => In c (PasswordGenerator.pool_of true false true true))
       sample_password.
Proof.
  apply (generated_password_length_and_pool 16 true false true true sample_rng
           (snd (PasswordGenerator.generate_password 16 true false true true sample_rng))).
  vm_compute. reflexivity.
Defined.

(** X3.  A password that [generate_password] returns holds a character of a
    type exactly when the type was selected: at least one character of each
    selected type, none of a type left out.  The types are tested as
    [validate_password_strength] tests them. *)
Theorem generated_password_has_selected_types (length : Z) (uu ul ud us : bool)
  (g g' : Rng) (password : str) :
  PasswordGenerator.generate_password length uu ul ud us g = (Returns password, g') ->
  CryptoManager.any isupper password = uu
  /\ CryptoManager.any islower password = ul
  /\ CryptoManager.any isdigit password = ud
  /\ CryptoManager.any CryptoManager.is_special password = us.
Proof.
  intros H. destruct (generate_password_returned _ _ _ _ _ _ _ _ H) as [Hlen Hsel].
  destruct (generate_password_shape length uu ul ud us g Hlen Hsel)
    as (p & g1 & E & _ & _ & Hc).
  rewrite E in H. injection H as -> _. exact Hc.
Qed.

Lemma generated_password_has_selected_types_witness :
  CryptoManager.any isupper sample_password = true
  /\ CryptoManager.any islower sample_password = false
  /\ CryptoManager.any isdigit sample_password = true
  /\ CryptoManager.any CryptoManager.is_special sample_password = true.
Proof.
  apply (generated_password_has_selected_types 16 true false true true sample_rng
           (snd (PasswordGenerator.generate_password 16 true false true true sample_rng))).
  vm_compute. reflexivity.
Defined.

(** X4.  The generator and the validator together: a password that
    [generate_password] returns is accepted by [validate_password_strength]
    exactly when at least three of the four character types were selected.
    With one or two types the generated password is refused, whatever its
    length. *)
Theorem generated_password_accepted_iff (length : Z) (uu ul ud us : bool)
  (g g' : Rng) (password : str) :
  PasswordGenerator.generate_password length uu ul ud us g = (Returns password, g') ->
  (fst (CryptoManager.validate_password_strength password) = true
   <-> 3 <= PasswordGenerator.selected uu ul ud us).
Proof.
  intros H. destruct (generate_password_returned _ _ _ _ _ _ _ _ H) as [Hlen Hsel].
  destruct (generate_password_shape length uu ul ud us g Hlen Hsel)
    as (p & g1 & E & Hl & _ & Hu & Hlo & Hd & Hs).
  rewrite E in H. injection H as -> _.
  unfold CryptoManager.validate_password_strength.
  replace (List.length password <? 8) with false by (symmetry; apply Nat.ltb_ge; lia).
  rewrite Hu, Hlo, Hd, Hs. unfold PasswordGenerator.selected.
  destruct uu, ul, ud, us; cbn; split; intros; try discriminate; try lia; reflexivity.
Qed.

Lemma generated_password_accepted_iff_witness :
  fst (CryptoManager.validate_password_strength sample_password) = true
  <-> 3 <= PasswordGenerator.selected true false true true.
Proof.
  apply (generated_password_accepted_iff 16 true false true true sample_rng
           (snd (PasswordGenerator.generate_password 16 true false true true sample_rng))).
  vm_compute. reflexivity.
Defined.

(** X5.  The shuffle at the end of [generate_password] (the loop over
    [range(len(password_chars) - 1, 0, -1)]) only rearranges: whatever the
    random numbers, the list it leaves is a permutation of the list it was
    given, no character is lost or added, and it asks for one random number
    for each position but the first. *)
Theorem shuffle_rearranges (chars : str) (g : Rng) :
  Permutation (fst (PasswordGenerator.shuffle (List.length chars - 1) chars g)) chars
  /\ taken (snd (PasswordGenerator.shuffle (List.length chars - 1) chars g))
     = taken g + (List.length chars - 1).
Proof.
  split; [| apply shuffle_taken].
  destruct chars as [| c chars]; [reflexivity |].
  apply shuffle_permutation. cbn. lia.
Qed.

(* ================================================================== *)
(** * The master password hash                                         *)
(* ================================================================== *)

Lemma is_ascii_iff (data : bytes) : is_ascii data = true <-> ascii_bytes data.
Proof.
  unfold is_ascii, ascii_bytes. rewrite forallb_forall, Forall_forall.
  split; intros H b Hb; specialize (H b Hb); now apply N.ltb_lt.
Qed.

Lemma ascii_bytes_app (a b : bytes) : ascii_bytes a -> ascii_bytes b -> ascii_bytes (a ++ b).
Proof. intros Ha Hb. apply Forall_app. now split. Qed.

(** The stand-in keeps the contract. *)
Lemma text_lib_contract : bcrypt_contract text_lib.
Proof.
  intros password salt hashed. cbn [bcrypt_hashpw text_lib].
  destruct (Nat.ltb_spec (length salt) 29) as [Hl | Hl]; [discriminate |].
  destruct (is_ascii (slice_to 29 salt)) eqn:Ha; [| discriminate].
  cbn [orb negb]. intros H.
  assert (Hh : hashed = slice_to 29 salt ++ Base64.urlsafe_b64encode password) by congruence.
  subst hashed. clear H.
  assert (Hs : length (slice_to 29 salt) = 29) by (unfold slice_to; rewrite length_firstn; lia).
  split.
  - apply ascii_bytes_app; [now apply is_ascii_iff | apply b64encode_ascii].
  - assert (E : slice_to 29 (slice_to 29 salt ++ Base64.urlsafe_b64encode password)
                = slice_to 29 salt) by (now apply firstn_app_exact).
    rewrite E, Ha, length_app, Hs.
    replace (29 + length (Base64.urlsafe_b64encode password) <? 29) with false
      by (symmetry; apply Nat.ltb_ge; lia).
    reflexivity.
Qed.

(** What a returning [hash_master_password] has done. *)
Lemma hash_master_password_returned (lib : Primitives)
  (bcrypt_gensalt : nat -> bytes -> bytes) (password hashed : str) (w w' : World) :
  bcrypt_contract lib ->
  hash_master_password bcrypt_gensalt password w = (Returns hashed, w') ->
  exists pw h,
    Utf8.encode password = Returns pw
    /\ bcrypt_hashpw pw h = Returns h
    /\ ascii_bytes h
    /\ hashed = map byte_val h.
Proof.
  intros Hc. unfold hash_master_password, bindM, lift, os_urandom.
  destruct (Utf8.encode password) as [pw | e] eqn:Hp; [| discriminate].
  destruct (bcrypt_hashpw pw _) as [h | e] eqn:Hh; [| discriminate].
  destruct (Hc _ _ _ Hh) as [Ha Hi].
  destruct (ascii_decode_encode h Ha) as [Hd He]. rewrite Hd.
  intros H. injection H as <- _. now exists pw, h.
Qed.

Lemma verify_rehashed {lib : Primitives} (password : str) (pw h : bytes) :
  Utf8.encode password = Returns pw -> bcrypt_hashpw pw h = Returns h -> ascii_bytes h ->
  CryptoManager.verify_master_password password (map byte_val h) = Returns true.
Proof.
  intros Hp Hi Ha.
  unfold CryptoManager.verify_master_password, CryptoManager.bcrypt_checkpw.
  rewrite Hp. cbn [bind]. rewrite (proj2 (ascii_decode_encode h Ha)). cbn [bind].
  rewrite Hi. cbn [bind try_except].
  now rewrite (proj2 (bytes_eqb_eq h h) eq_refl).
Qed.

(** X6.  A hash that [hash_master_password] returns is accepted by
    [verify_master_password] for the password it was made from, whatever salt
    was drawn, provided bcrypt keeps its contract: a hash is ASCII text and
    carries its salt, so that hashing the password again under the hash gives
    the hash. *)
Theorem hashed_master_password_verifies (lib : Primitives)
  (bcrypt_gensalt : nat -> bytes -> bytes) (password hashed : str) (w w' : World) :
  bcrypt_contract lib ->
  hash_master_password bcrypt_gensalt password w = (Returns hashed, w') ->
  CryptoManager.verify_master_password password hashed = Returns true.
Proof.
  intros Hc H.
  destruct (hash_master_password_returned lib bcrypt_gensalt password hashed w w' Hc H)
    as (pw & h & Hp & Hi & Ha & ->).
  now apply (verify_rehashed password pw h).
Qed.

Lemma hashed_master_password_verifies_witness :
  CryptoManager.verify_master_password (lib := text_lib) (pystr "Tr0ub4dor&3") sample_hash
  = Returns true.
Proof.
  apply (hashed_master_password_verifies text_lib sample_gensalt (pystr "Tr0ub4dor&3")
           sample_hash sample_world
           (snd (hash_master_password (lib := text_lib) sample_gensalt (pystr "Tr0ub4dor&3")
                   sample_world))).
  - exact text_lib_contract.
  - reflexivity.
Defined.

(* ================================================================== *)
(** * The first run and the following ones                             *)
(* ================================================================== *)

(** The environment after the first run has written [salt]. *)
Lemma create_salt_eq (w : World) :
  salt_file w = NoFile ->
  CryptoManager._load_or_create_salt w
  = (Returns (map (entropy w) (seq (drawn w) 16)),
     {| salt_file := File (map (entropy w) (seq (drawn w) 16)); time := time w;
        entropy := entropy w; drawn := drawn w + 16 |}).
Proof.
  intros H. unfold CryptoManager._load_or_create_salt, bindM, path_exists.
  rewrite H. unfold os_urandom, write_file, ret. cbn [salt_file]. now rewrite H.
Qed.

(** Where [salt.key] cannot be created, the 16 bytes are drawn and [open]
    raises. *)
Lemma refused_salt_eq (w : World) :
  salt_file w = Uncreatable ->
  CryptoManager._load_or_create_salt w
  = (Raises (OSError (pystr "[Errno 13] Permission denied: 'salt.key'")),
     after_salt_refused w).
Proof.
  intros H. unfold CryptoManager._load_or_create_salt, bindM, path_exists.
  rewrite H. unfold os_urandom, write_file. cbn [salt_file]. now rewrite H.
Qed.

(** Where the device has no room, the 16 bytes are drawn, the file is created
    and closing it raises. *)
Lemma lost_salt_eq (w : World) :
  salt_file w = NoSpace ->
  CryptoManager._load_or_create_salt w
  = (Raises (OSError (pystr "[Errno 28] No space left on device")), after_salt_lost w).
Proof.
  intros H. unfold CryptoManager._load_or_create_salt, bindM, path_exists.
  rewrite H. unfold os_urandom, write_file. cbn [salt_file]. now rewrite H.
Qed.

(** After a successful [__init__] the salt of the instance is on disk. *)
Lemma init_salt_on_disk {lib : Primitives} (master_password : str) (w w' : World)
  (self : CryptoManager.t) :
  CryptoManager.__init__ master_password w = (Returns self, w') ->
  salt_file w' = File (CryptoManager.salt self).
Proof.
  unfold CryptoManager.__init__, bindM, lift, ret.
  destruct (salt_file w) as [| content | | |] eqn:Hs.
  - rewrite (create_salt_eq w Hs).
    destruct (CryptoManager._derive_key master_password _) as [key | e]; [| discriminate].
    destruct (Fernet.new key) as [f | e]; [| discriminate].
    intros H. injection H as <- <-. reflexivity.
  - rewrite (load_existing_salt w content Hs).
    destruct (CryptoManager._derive_key master_password _) as [key | e]; [| discriminate].
    destruct (Fernet.new key) as [f | e]; [| discriminate].
    intros H. injection H as <- <-. exact Hs.
  - destruct (load_unreadable_salt w Hs) as [e ->]. discriminate.
  - rewrite (refused_salt_eq w Hs). discriminate.
  - rewrite (lost_salt_eq w Hs). discriminate.
Qed.

Section Sessions.

Context {lib : Primitives} {laws : PrimitivesLaws lib}.

(** What [__init__] returned is the instance of the password and the salt. *)
Lemma init_returned (master_password : str) (w w' : World) (self : CryptoManager.t) :
  CryptoManager.__init__ master_password w = (Returns self, w') ->
  self = CryptoManager.instance master_password (CryptoManager.salt self).
Proof.
  unfold CryptoManager.__init__, bindM, lift, ret.
  destruct (CryptoManager._load_or_create_salt w) as [[salt | e] w1]; [| discriminate].
  destruct (CryptoManager._derive_key master_password salt) as [key | e] eqn:Hk; [| discriminate].
  destruct (Fernet.new key) as [f | e] eqn:Hf; [| discriminate].
  intros H. injection H as <- _. cbn [CryptoManager.salt].
  assert (Henc : encodable master_password).
  { unfold CryptoManager._derive_key in Hk. apply bind_returns in Hk as (pw & Hpw & _).
    eapply encode_from_returns, Hpw. }
  rewrite (derive_key_returns master_password salt Henc) in Hk.
  assert (Hkey : key = Base64.urlsafe_b64encode (CryptoManager.derived master_password salt))
    by congruence.
  subst key. rewrite new_of_encoded in Hf by apply derived_length.
  replace f with {| Fernet._signing_key := slice_to 16 (CryptoManager.derived master_password salt);
                    Fernet._encryption_key := slice_from 16 (CryptoManager.derived master_password salt) |}
    by congruence.
  reflexivity.
Qed.

(** What a returning [encrypt] has done. *)
Lemma encrypt_returned (self : CryptoManager.t) (plaintext ciphertext : str) (w w' : World) :
  CryptoManager.bound self ->
  CryptoManager.encrypt self plaintext w = (Returns ciphertext, w') ->
  (plaintext = [] /\ ciphertext = [] /\ w' = w)
  \/ (plaintext <> [] /\ encodable plaintext /\ (0 <= time w < 2 ^ 64)%Z
      /\ w' = after_encrypt w
      /\ exists token,
           ciphertext = map byte_val token /\ ascii_bytes token
           /\ length token
              = 4 * ((73 + 16 * (length (flat_map Utf8.encode_char plaintext) / 16) + 2) / 3)
           /\ Fernet.decrypt (CryptoManager.fernet self) token
              = Returns (flat_map Utf8.encode_char plaintext)).
Proof.
  intros Hb H.
  destruct plaintext as [| c plaintext].
  { left. cbn in H. injection H as <- <-. auto. }
  right. remember (c :: plaintext) as p eqn:Hp.
  assert (Hne : p <> []) by (subst p; discriminate).
  assert (Hemp : CryptoManager.is_empty p = false) by (now subst p).
  clear Hp c plaintext.
  assert (Henc : encodable p).
  { unfold CryptoManager.encrypt in H. rewrite Hemp in H. unfold bindM, lift in H.
    destruct (Utf8.encode p) as [data | e] eqn:Hd; [| discriminate H].
    eapply encode_from_returns, Hd. }
  set (iv := map (entropy w) (seq (drawn w) 16)).
  assert (Hiv : length iv = 16) by (unfold iv; now rewrite length_map, length_seq).
  pose proof (bound_key_length self Hb) as Hk.
  assert (Ht : (0 <= time w < 2 ^ 64)%Z).
  { destruct (Z.ltb_spec (time w) 0) as [Hneg | Hpos].
    - rewrite (encrypt_before_epoch self p w Hne Henc Hneg) in H. discriminate.
    - destruct (Z.leb_spec (2 ^ 64) (time w)) as [Hbig | Hsmall]; [| lia].
      exfalso. unfold CryptoManager.encrypt in H. rewrite Hemp in H.
      unfold bindM, lift, Utf8.encode in H.
      rewrite encode_from_encodable in H by assumption.
      unfold Fernet.encrypt, Fernet.encrypt_at_time, bindM, time_time, os_urandom, lift in H.
      unfold Fernet._encrypt_from_parts, Cipher in H. rewrite length_map, length_seq in H.
      cbn [Nat.eqb bind] in H. unfold cbc_encrypt in H. rewrite (proj1 (pad_length _)) in H.
      cbn [Nat.eqb bind] in H. unfold to_bytes8 in H.
      replace (time w <? 0)%Z with false in H by (symmetry; apply Z.ltb_ge; lia).
      replace (2 ^ 64 <=? time w)%Z with true in H by (symmetry; apply Z.leb_le; lia).
      discriminate. }
  repeat (split; [assumption |]).
  set (data := flat_map Utf8.encode_char p).
  destruct (to_bytes8_returns (time w) Ht) as (timestamp & Hts & Htl).
  destruct (cbc_decrypt_encrypt (Fernet._encryption_key (CryptoManager.fernet self)) iv
              (Pkcs7.pad data) Hk Hiv (proj1 (pad_length data)))
    as (body & Hbody & Hbl & _).
  destruct (fernet_decrypt_encrypt (CryptoManager.fernet self) data (time w) iv Hk Hiv Ht)
    as (token & Htok & Hascii & Hdec).
  assert (Htoken : token
                   = Base64.urlsafe_b64encode
                       (([x80] ++ timestamp ++ iv ++ body)
                        ++ hmac_sha256 (Fernet._signing_key (CryptoManager.fernet self))
                             ([x80] ++ timestamp ++ iv ++ body))).
  { unfold Fernet._encrypt_from_parts, Cipher in Htok. rewrite Hiv in Htok.
    cbn [Nat.eqb bind] in Htok. rewrite Hbody in Htok. cbn [bind] in Htok.
    rewrite Hts in Htok. cbn [bind] in Htok. congruence. }
  rewrite (encrypt_returns_token self p w token Hne Henc Htok Hascii) in H.
  injection H as <- <-. split; [reflexivity |].
  exists token. repeat (split; [first [reflexivity | assumption] |]).
  split; [| exact Hdec].
  rewrite Htoken, b64encode_length. do 2 f_equal. f_equal.
  rewrite !length_app, hmac_sha256_length, Htl, Hiv, Hbl. cbn [length].
  unfold Pkcs7.pad, Pkcs7.block_size. rewrite length_app, repeat_length.
  pose proof (Nat.div_mod_eq (length data) 16) as Hdm.
  pose proof (Nat.mod_upper_bound (length data) 16 ltac:(lia)) as Hm.
  lia.
Qed.

(** A ciphertext that [encrypt] returned is decrypted by every instance with
    the same cipher. *)
Lemma encrypt_returned_decrypts (self : CryptoManager.t) (plaintext ciphertext : str)
  (w w' : World) :
  CryptoManager.bound self ->
  CryptoManager.encrypt self plaintext w = (Returns ciphertext, w') ->
  CryptoManager.decrypt self ciphertext = Returns plaintext.
Proof.
  intros Hb H.
  destruct (encrypt_returned self plaintext ciphertext w w' Hb H)
    as [(-> & -> & _) | (Hne & Henc & Ht & _ & token & -> & Hascii & _ & Hdec)];
    [reflexivity |].
  unfold CryptoManager.decrypt.
  assert (Htne : token <> []).
  { intros ->. rewrite fernet_decrypt_empty in Hdec. discriminate. }
  destruct token as [| b token]; [contradiction |]. cbn [map CryptoManager.is_empty].
  change (byte_val b :: map byte_val token) with (map byte_val (b :: token)).
  rewrite (proj2 (ascii_decode_encode _ Hascii)). cbn [bind]. rewrite Hdec. cbn [bind].
  unfold Utf8.decode. rewrite decode_from_encoded by assumption. reflexivity.
Qed.

End Sessions.

Lemma init_salt_loaded {lib : Primitives} (master_password : str) (content : bytes)
  (w w' : World) (self : CryptoManager.t) :
  salt_file w = File content ->
  CryptoManager.__init__ master_password w = (Returns self, w') ->
  CryptoManager.salt self = content /\ w' = w.
Proof.
  intros Hs. unfold CryptoManager.__init__, bindM, lift, ret.
  rewrite (load_existing_salt w content Hs).
  destruct (CryptoManager._derive_key master_password content) as [key | e]; [| discriminate].
  destruct (Fernet.new key) as [f | e]; [| discriminate].
  intros H. injection H as <- <-. split; reflexivity.
Qed.

Lemma ascii_str_encodable (data : bytes) : ascii_bytes data -> encodable (map byte_val data).
Proof.
  intros H. apply Forall_map. eapply Forall_impl; [| exact H].
  intros b Hb. cbv beta in Hb. split; [| lia].
  unfold Utf8.is_surrogate. apply andb_false_iff. left. apply N.leb_gt. lia.
Qed.

(** X7.  A vault can be reopened: when [CryptoManager(master_password)] was
    constructed, be it on the first run, and [encrypt] returned a ciphertext
    under that instance at any later moment, then an instance constructed from
    the same password in a later session, with [salt.key] as the first
    construction left it, decrypts the ciphertext to the plaintext. *)
Theorem reopened_vault_decrypts (lib : Primitives) (laws : PrimitivesLaws lib)
  (master_password plaintext ciphertext : str) (w0 w1 w2 w3 w4 w5 : World)
  (self1 self2 : CryptoManager.t) :
  CryptoManager.__init__ master_password w0 = (Returns self1, w1) ->
  CryptoManager.encrypt self1 plaintext w2 = (Returns ciphertext, w3) ->
  salt_file w4 = salt_file w1 ->
  CryptoManager.__init__ master_password w4 = (Returns self2, w5) ->
  CryptoManager.decrypt self2 ciphertext = Returns plaintext.
Proof.
  intros H1 He Hs H2.
  pose proof (init_salt_on_disk master_password w0 w1 self1 H1) as Hd.
  rewrite Hd in Hs.
  destruct (init_salt_loaded master_password _ w4 w5 self2 Hs H2) as [Hsalt _].
  pose proof (init_returned master_password w0 w1 self1 H1) as E1.
  pose proof (init_returned master_password w4 w5 self2 H2) as E2.
  rewrite Hsalt in E2. rewrite <- E1 in E2. subst self2.
  apply (encrypt_returned_decrypts self1 plaintext ciphertext w2 w3); [| exact He].
  eapply init_bound, H1.
Qed.

(** On the first run with a password that can be encoded. *)
Lemma init_on_first_run {lib : Primitives} {laws : PrimitivesLaws lib}
  (master_password : str) (w : World) :
  salt_file w = NoFile -> encodable master_password ->
  CryptoManager.__init__ master_password w
  = (Returns (CryptoManager.instance master_password (new_salt w)), after_salt_created w).
Proof.
  intros Hs Henc. unfold CryptoManager.__init__, bindM. rewrite (create_salt_eq w Hs).
  unfold lift. fold (new_salt w). rewrite derive_key_returns by assumption.
  rewrite new_of_encoded by apply derived_length. reflexivity.
Qed.

(** X8.  The first run.  When [salt.key] does not exist and can be created
    and written, [__init__] draws 16 random bytes and writes them to the file
    before it derives the key: with a password that has a UTF-8 encoding it
    returns the instance of the password and that salt; with a password that
    has none it raises the error of [encode], and the salt file has been
    written all the same.  When [salt.key] does not exist and cannot be
    created, [__init__] raises the [OSError] of [open], whatever the password,
    after the 16 bytes have been drawn, and nothing is written.  When the
    device has no room for the file, [__init__] raises the [OSError] of the
    write, whatever the password, and leaves an empty [salt.key]. *)
Theorem first_run_creates_salt (lib : Primitives) (laws : PrimitivesLaws lib)
  (master_password : str) (w : World) :
  (salt_file w = NoFile ->
   length (new_salt w) = 16
   /\ (encodable master_password ->
       CryptoManager.__init__ master_password w
       = (Returns (CryptoManager.instance master_password (new_salt w)),
          after_salt_created w))
   /\ (forall e, Utf8.encode master_password = Raises e ->
       CryptoManager.__init__ master_password w = (Raises e, after_salt_created w)))
  /\ (salt_file w = Uncreatable ->
      CryptoManager.__init__ master_password w
      = (Raises (OSError (pystr "[Errno 13] Permission denied: 'salt.key'")),
         after_salt_refused w))
  /\ (salt_file w = NoSpace ->
      CryptoManager.__init__ master_password w
      = (Raises (OSError (pystr "[Errno 28] No space left on device")),
         after_salt_lost w)).
Proof.
  split; [| split].
  - intros Hs. split; [| split].
    + unfold new_salt. now rewrite length_map, length_seq.
    + intros Henc. now apply init_on_first_run.
    + intros e He. unfold CryptoManager.__init__, bindM. rewrite (create_salt_eq w Hs).
      unfold lift, CryptoManager._derive_key. rewrite He. reflexivity.
  - intros Hs. unfold CryptoManager.__init__, bindM. rewrite (refused_salt_eq w Hs).
    reflexivity.
  - intros Hs. unfold CryptoManager.__init__, bindM. rewrite (lost_salt_eq w Hs).
    reflexivity.
Qed.

Lemma first_run_creates_salt_witness :
  CryptoManager.__init__ (lib := sample_lib) (pystr "Tr0ub4dor&3") first_run_world
  = (Returns (CryptoManager.instance (lib := sample_lib) (pystr "Tr0ub4dor&3")
                (new_salt first_run_world)),
     after_salt_created first_run_world)
  /\ CryptoManager.__init__ (lib := sample_lib) (pystr "Tr0ub4dor&3") closed_directory_world
     = (Raises (OSError (pystr "[Errno 13] Permission denied: 'salt.key'")),
        after_salt_refused closed_directory_world)
  /\ CryptoManager.__init__ (lib := sample_lib) (pystr "Tr0ub4dor&3") full_device_world
     = (Raises (OSError (pystr "[Errno 28] No space left on device")),
        after_salt_lost full_device_world).
Proof.
  split; [| split].
  - refine (proj1 (proj2 (proj1 (first_run_creates_salt sample_lib sample_lib_laws
                                   (pystr "Tr0ub4dor&3") first_run_world) _)) _).
    + reflexivity.
    + apply encodable_test. reflexivity.
  - refine (proj1 (proj2 (first_run_creates_salt sample_lib sample_lib_laws
                            (pystr "Tr0ub4dor&3") closed_directory_world)) _).
    reflexivity.
  - refine (proj2 (proj2 (first_run_creates_salt sample_lib sample_lib_laws
                            (pystr "Tr0ub4dor&3") full_device_world)) _).
    reflexivity.
Defined.

Lemma reopened_vault_decrypts_witness :
  exists ciphertext,
    CryptoManager.decrypt (lib := sample_lib)
      (CryptoManager.instance (lib := sample_lib) (pystr "Tr0ub4dor&3")
         (new_salt first_run_world)) ciphertext
    = Returns (pystr "hunter2").
Proof.
  assert (Henc : encodable (pystr "Tr0ub4dor&3")) by (apply encodable_test; reflexivity).
  pose proof (init_on_first_run (laws := sample_lib_laws) (pystr "Tr0ub4dor&3")
                first_run_world eq_refl Henc) as H1.
  destruct (encrypt_then_decrypt (laws := sample_lib_laws)
              (CryptoManager.instance (lib := sample_lib) (pystr "Tr0ub4dor&3")
                 (new_salt first_run_world))
              (pystr "hunter2") (after_salt_created first_run_world))
    as (ciphertext & w3 & He & _).
  - apply (instance_bound (laws := sample_lib_laws)).
  - discriminate.
  - apply encodable_test. reflexivity.
  - cbn. lia.
  - exists ciphertext.
    apply (reopened_vault_decrypts sample_lib sample_lib_laws (pystr "Tr0ub4dor&3")
             (pystr "hunter2") ciphertext first_run_world (after_salt_created first_run_world)
             (after_salt_created first_run_world) w3
             (after_salt_created first_run_world) (after_salt_created first_run_world)
             _ _ H1 He eq_refl).
    apply (init_returns (laws := sample_lib_laws)); [exact Henc | reflexivity].
Defined.

(** X9.  The shape of what [encrypt] returns.  The ciphertext is empty
    exactly when the plaintext is; it is ASCII text, so it has a UTF-8
    encoding and can be stored; for a plaintext of [n] bytes of UTF-8 it has
    [4 * ((75 + 16 * (n / 16)) / 3)] characters, 100 for a plaintext below 16
    bytes; and the call leaves [salt.key] alone and draws 16 random bytes, or
    none for the empty plaintext. *)
Theorem ciphertext_shape (lib : Primitives) (laws : PrimitivesLaws lib)
  (self : CryptoManager.t) (plaintext ciphertext : str) (w w' : World) :
  CryptoManager.bound self ->
  CryptoManager.encrypt self plaintext w = (Returns ciphertext, w') ->
  (ciphertext = [] <-> plaintext = [])
  /\ Forall (fun c => (c < 128)%N) ciphertext
  /\ encodable ciphertext
  /\ (forall data, plaintext <> [] -> Utf8.encode plaintext = Returns data ->
      length ciphertext = 4 * ((75 + 16 * (length data / 16)) / 3))
  /\ salt_file w' = salt_file w
  /\ drawn w' = drawn w + (if CryptoManager.is_empty plaintext then 0 else 16).
Proof.
  intros Hb H.
  destruct (encrypt_returned self plaintext ciphertext w w' Hb H)
    as [(-> & -> & ->) | (Hne & Henc & Ht & -> & token & -> & Hascii & Hlen & Hdec)].
  - repeat split; try constructor; try tauto. cbn. lia.
  - assert (Htne : token <> []).
    { intros ->. rewrite fernet_decrypt_empty in Hdec. discriminate. }
    split; [| split; [| split; [| split; [| split]]]].
    + split; intros E; [| contradiction].
      destruct token; [contradiction | discriminate].
    + apply Forall_map. exact Hascii.
    + now apply ascii_str_encodable.
    + intros data _ Hd. unfold Utf8.encode in Hd.
      rewrite encode_from_encodable in Hd by assumption. injection Hd as <-.
      rewrite length_map, Hlen. do 2 f_equal. lia.
    + reflexivity.
    + replace (CryptoManager.is_empty plaintext) with false by (now destruct plaintext).
      reflexivity.
Qed.

Lemma ciphertext_shape_witness :
  exists ciphertext w',
    CryptoManager.encrypt (lib := sample_lib) sample_manager (pystr "hunter2") sample_world
    = (Returns ciphertext, w')
    /\ length ciphertext = 100 /\ encodable ciphertext /\ drawn w' = 16.
Proof.
  destruct (encrypt_then_decrypt (laws := sample_lib_laws) sample_manager (pystr "hunter2")
              sample_world) as (ciphertext & w' & He & _).
  - apply (instance_bound (laws := sample_lib_laws)).
  - discriminate.
  - apply encodable_test. reflexivity.
  - cbn. lia.
  - exists ciphertext, w'. split; [exact He |].
    destruct (ciphertext_shape sample_lib sample_lib_laws sample_manager (pystr "hunter2")
                ciphertext sample_world w') as (_ & _ & Henc & Hlen & _ & Hd).
    + apply (instance_bound (laws := sample_lib_laws)).
    + exact He.
    + split; [| split; [exact Henc | exact Hd]].
      apply (Hlen (flat_map Utf8.encode_char (pystr "hunter2"))); [discriminate | reflexivity].
Defined.

(* ================================================================== *)
(** * The database: binding parameters                                 *)
(* ================================================================== *)

Lemma and_then_ok {A B} (o : Db.outcome A) (k : A -> Db.outcome B) (b : B) :
  Db.and_then o k = Db.Ok b -> exists a, o = Db.Ok a /\ k a = Db.Ok b.
Proof. destruct o as [a | e]; cbn; [eauto | discriminate]. Qed.

Lemma bind_text_encodable (s : str) : encodable s -> Db.bind_text s = Db.Ok (Database.TEXT s).
Proof.
  intros H. unfold Db.bind_text, Utf8.encode. now rewrite encode_from_encodable.
Qed.

Lemma bind_text_ok (s : str) (v : Database.value) :
  Db.bind_text s = Db.Ok v -> encodable s /\ v = Database.TEXT s.
Proof.
  unfold Db.bind_text. destruct (Utf8.encode s) as [data | e] eqn:H; [| discriminate].
  intros E. split; [eapply encode_from_returns, H | congruence].
Qed.

Lemma bind_int_int64 (n : Z) : DbSpec.int64 n -> Db.bind_int n = Db.Ok (Database.INTEGER n).
Proof.
  intros [H1 H2]. unfold Db.bind_int.
  replace (- 2 ^ 63 <=? n)%Z with true by (symmetry; apply Z.leb_le; lia).
  replace (n <? 2 ^ 63)%Z with true by (symmetry; apply Z.ltb_lt; lia).
  reflexivity.
Qed.

Lemma bind_int_ok (n : Z) (v : Database.value) :
  Db.bind_int n = Db.Ok v -> DbSpec.int64 n /\ v = Database.INTEGER n.
Proof.
  unfold Db.bind_int, DbSpec.int64.
  destruct (Z.leb_spec (- 2 ^ 63) n); destruct (Z.ltb_spec n (2 ^ 63)); cbn [andb];
    try discriminate.
  intros E. split; [lia | congruence].
Qed.

Lemma write_lock_ok (db : Db.t) (u : unit) :
  Db.write_lock db = Db.Ok u -> Db.refusal db = None.
Proof. unfold Db.write_lock. now destruct (Db.refusal db). Qed.

Lemma write_lock_granted (db : Db.t) : Db.refusal db = None -> Db.write_lock db = Db.Ok tt.
Proof. intros H. unfold Db.write_lock. now rewrite H. Qed.

Lemma str_eqb_eq (a b : str) : Db.str_eqb a b = true <-> a = b.
Proof.
  revert b. induction a as [| x a IH]; intros [| y b]; cbn [Db.str_eqb];
    try (split; [discriminate | discriminate]); [tauto |].
  rewrite andb_true_iff, N.eqb_eq, IH. split; [intros [-> ->]; reflexivity |].
  intros H. injection H as -> ->. auto.
Qed.

(* ================================================================== *)
(** * The database: the settings table                                 *)
(* ================================================================== *)

Lemma find_replaced {A} (p : A -> bool) (l : list A) (x : A) :
  p x = true -> find p (filter (fun y => negb (p y)) l ++ [x]) = Some x.
Proof.
  intros Hx. induction l as [| y l IH]; cbn [filter app find].
  - now rewrite Hx.
  - destruct (p y) eqn:Hy; cbn [negb]; [exact IH |].
    cbn [app find]. rewrite Hy. exact IH.
Qed.

(* ================================================================== *)
(** * The database: the credentials table                              *)
(* ================================================================== *)

Lemma largest_id_bounds (db : Db.t) :
  (Db.sequence db <= Db.largest_id db)%Z
  /\ forall r, In r (Db.rows db) -> (Database.id r <= Db.largest_id db)%Z.
Proof.
  unfold Db.largest_id, Db.rows.
  induction (Database.credentials (Db.tables db)) as [| x l [IH1 IH2]]; cbn [map fold_right].
  - split; [lia | intros r []].
  - split; [lia |]. intros r [<- | H]; [lia |]. specialize (IH2 r H). lia.
Qed.

Lemma largest_id_consistent (db : Db.t) :
  Db.consistent db -> Db.largest_id db = Db.sequence db.
Proof.
  intros (_ & _ & H). unfold Db.largest_id. unfold Db.rows in H.
  induction (Database.credentials (Db.tables db)) as [| x l IH]; cbn [map fold_right];
    [reflexivity |].
  rewrite IH by (intros r Hr; apply H; now right).
  pose proof (H x (or_introl eq_refl)). lia.
Qed.

(** A row map that keeps the [id] commutes with the lookup by [id]. *)
Lemma find_map_id (f : Database.row -> Database.row) (n : Z) (rows : list Database.row) :
  (forall r, Database.id (f r) = Database.id r) ->
  find (fun r => (Database.id r =? n)%Z) (map f rows)
  = option_map f (find (fun r => (Database.id r =? n)%Z) rows).
Proof.
  intros Hf. induction rows as [| r rows IH]; [reflexivity |].
  cbn [map find]. rewrite Hf. destruct (Database.id r =? n)%Z; [reflexivity | exact IH].
Qed.

Lemma find_absent (n : Z) (rows : list Database.row) :
  ~ In n (map Database.id rows) -> find (fun r => (Database.id r =? n)%Z) rows = None.
Proof.
  intros H. induction rows as [| r rows IH]; [reflexivity |].
  cbn [find]. destruct (Z.eqb_spec (Database.id r) n) as [E | E].
  - exfalso. apply H. now left.
  - apply IH. intros Hin. apply H. now right.
Qed.

Lemma find_app_absent (n : Z) (rows : list Database.row) (r : Database.row) :
  find (fun r => (Database.id r =? n)%Z) (rows ++ [r])
  = match find (fun r => (Database.id r =? n)%Z) rows with
    | Some x => Some x
    | None => if (Database.id r =? n)%Z then Some r else None
    end.
Proof.
  induction rows as [| x rows IH]; cbn [app find]; [reflexivity |].
  destruct (Database.id x =? n)%Z; [reflexivity | exact IH].
Qed.

Lemma find_filter_other (n d : Z) (rows : list Database.row) :
  n <> d ->
  find (fun r => (Database.id r =? n)%Z) (filter (fun r => negb (Database.id r =? d)%Z) rows)
  = find (fun r => (Database.id r =? n)%Z) rows.
Proof.
  intros Hn. induction rows as [| x rows IH]; [reflexivity |].
  cbn [filter find].
  destruct (Z.eqb_spec (Database.id x) d) as [Ed | Ed]; cbn [negb].
  - destruct (Z.eqb_spec (Database.id x) n) as [En | En]; [congruence | exact IH].
  - cbn [find]. destruct (Database.id x =? n)%Z; [reflexivity | exact IH].
Qed.

Lemma find_filter_same (d : Z) (rows : list Database.row) :
  find (fun r => (Database.id r =? d)%Z) (filter (fun r => negb (Database.id r =? d)%Z) rows)
  = None.
Proof.
  induction rows as [| x rows IH]; [reflexivity |].
  cbn [filter]. destruct (Database.id x =? d)%Z eqn:E; cbn [negb]; [exact IH |].
  cbn [find]. now rewrite E.
Qed.

(** What [add_credential] did when it returned. *)
Lemma add_credential_ok (website username encrypted_password url notes now : str)
  (db db' : Db.t) (new_id : Z) :
  Db.add_credential website username encrypted_password url notes now db = Db.Ok (new_id, db') ->
  encodable website /\ encodable username /\ encodable encrypted_password
  /\ encodable url /\ encodable notes
  /\ Db.refusal db = None
  /\ (Db.largest_id db < 2 ^ 63 - 1)%Z
  /\ new_id = (Db.largest_id db + 1)%Z
  /\ Db.rows db'
     = Db.rows db
       ++ [{| Database.id := new_id; Database.website := website;
              Database.username := username;
              Database.encrypted_password := encrypted_password;
              Database.url := Some url; Database.notes := Some notes;
              Database.created_at := now; Database.modified_at := now |}]
  /\ Db.sequence db' = new_id
  /\ Db.settings db' = Db.settings db.
Proof.
  unfold Db.add_credential. intros H.
  apply and_then_ok in H as (v1 & H1 & H). apply bind_text_ok in H1 as [E1 ->].
  apply and_then_ok in H as (v2 & H2 & H). apply bind_text_ok in H2 as [E2 ->].
  apply and_then_ok in H as (v3 & H3 & H). apply bind_text_ok in H3 as [E3 ->].
  apply and_then_ok in H as (v4 & H4 & H). apply bind_text_ok in H4 as [E4 ->].
  apply and_then_ok in H as (v5 & H5 & H). apply bind_text_ok in H5 as [E5 ->].
  apply and_then_ok in H as (u & Hu & H). apply write_lock_ok in Hu.
  destruct (Z.leb_spec (2 ^ 63 - 1) (Db.largest_id db)) as [Hfull | Hroom]; [discriminate |].
  injection H as <- <-. repeat split; assumption || reflexivity.
Qed.

Lemma add_credential_returns (website username encrypted_password url notes now : str)
  (db : Db.t) :
  encodable website -> encodable username -> encodable encrypted_password ->
  encodable url -> encodable notes -> Db.refusal db = None ->
  (Db.largest_id db < 2 ^ 63 - 1)%Z ->
  exists db',
    Db.add_credential website username encrypted_password url notes now db
    = Db.Ok ((Db.largest_id db + 1)%Z, db').
Proof.
  intros E1 E2 E3 E4 E5 Hfree Hroom. unfold Db.add_credential.
  rewrite !bind_text_encodable by assumption. rewrite (write_lock_granted db Hfree).
  cbn [Db.and_then].
  replace (2 ^ 63 - 1 <=? Db.largest_id db)%Z with false by (symmetry; apply Z.leb_gt; lia).
  eexists. reflexivity.
Qed.

Lemma get_credential_int64 (credential_id : Z) (db : Db.t) :
  DbSpec.int64 credential_id ->
  exists db',
    Db.get_credential credential_id db
    = Db.Ok (find (fun r => (Database.id r =? credential_id)%Z) (Db.rows db), db')
    /\ Db.rows db' = Db.rows db /\ Db.sequence db' = Db.sequence db
    /\ Db.settings db' = Db.settings db.
Proof.
  intros H. unfold Db.get_credential. rewrite (bind_int_int64 _ H). cbn [Db.and_then].
  eexists. repeat split; reflexivity.
Qed.

Lemma fetched_get_credential (credential_id : Z) (db : Db.t) :
  DbSpec.fetched (Db.get_credential credential_id db)
  = match Db.bind_int credential_id with
    | Db.Ok _ => Some (find (fun r => (Database.id r =? credential_id)%Z) (Db.rows db))
    | Db.Error _ => None
    end.
Proof. unfold Db.get_credential. now destruct (Db.bind_int credential_id). Qed.

(** The rows after an update that provides a field. *)
Lemma update_credential_credentials (credential_id : Z)
  (website username encrypted_password url notes : option str) (now : str) (db : Database.t) :
  DbSpec.nothing_provided website username encrypted_password url notes = false ->
  Database.credentials
    (Database.update_credential credential_id website username encrypted_password url notes
       now db)
  = map (fun r => if (Database.id r =? credential_id)%Z
                  then DbSpec.updated website username encrypted_password url notes now r
                  else r)
      (Database.credentials db).
Proof.
  intros H.
  destruct website, username, encrypted_password, url, notes; try discriminate H;
    cbn; apply map_ext; intros r; destruct (Database.id r =? credential_id)%Z; reflexivity.
Qed.

Lemma update_credential_ok (credential_id : Z)
  (website username encrypted_password url notes : option str) (now : str) (db db' : Db.t) :
  DbSpec.nothing_provided website username encrypted_password url notes = false ->
  Db.update_credential credential_id website username encrypted_password url notes now db
  = Db.Ok db' ->
  DbSpec.int64 credential_id
  /\ Db.rows db'
     = map (fun r => if (Database.id r =? credential_id)%Z
                     then DbSpec.updated website username encrypted_password url notes now r
                     else r)
         (Db.rows db)
  /\ Db.sequence db' = Db.sequence db
  /\ Db.settings db' = Db.settings db.
Proof.
  intros Hp H.
  assert (E : Db.update_credential credential_id website username encrypted_password url notes
                now db
              = Db.and_then (Db.bind_optional website) (fun _ =>
                Db.and_then (Db.bind_optional username) (fun _ =>
                Db.and_then (Db.bind_optional encrypted_password) (fun _ =>
                Db.and_then (Db.bind_optional url) (fun _ =>
                Db.and_then (Db.bind_optional notes) (fun _ =>
                Db.and_then (Db.bind_text now) (fun _ =>
                Db.and_then (Db.bind_int credential_id) (fun _ =>
                Db.and_then (Db.write_lock db) (fun _ =>
                Db.Ok {| Db.tables :=
                           Database.update_credential credential_id website username
                             encrypted_password url notes now (Db.tables db);
                         Db.settings := Db.settings db;
                         Db.sequence := Db.sequence db;
                         Db.refusal := Db.refusal db |}))))))))).
  { destruct website, username, encrypted_password, url, notes;
      try discriminate Hp; reflexivity. }
  rewrite E in H. clear E.
  apply and_then_ok in H as (? & _ & H). apply and_then_ok in H as (? & _ & H).
  apply and_then_ok in H as (? & _ & H). apply and_then_ok in H as (? & _ & H).
  apply and_then_ok in H as (? & _ & H). apply and_then_ok in H as (? & _ & H).
  apply and_then_ok in H as (v & Hv & H). apply bind_int_ok in Hv as [Hi _].
  apply and_then_ok in H as (u & _ & H).
  injection H as <-. split; [exact Hi |]. split; [| split; reflexivity].
  unfold Db.rows. cbn [Db.tables]. now apply update_credential_credentials.
Qed.

Lemma delete_credential_ok (credential_id : Z) (db db' : Db.t) :
  Db.delete_credential credential_id db = Db.Ok db' ->
  DbSpec.int64 credential_id
  /\ Db.rows db' = filter (fun r => negb (Database.id r =? credential_id)%Z) (Db.rows db)
  /\ Db.sequence db' = Db.sequence db
  /\ Db.settings db' = Db.settings db.
Proof.
  unfold Db.delete_credential. intros H.
  apply and_then_ok in H as (v & Hv & H). apply bind_int_ok in Hv as [Hi _].
  apply and_then_ok in H as (u & _ & H).
  injection H as <-. repeat split; [apply Hi | apply Hi].
Qed.

Lemma updated_id (website username encrypted_password url notes : option str) (now : str)
  (credential_id : Z) (r : Database.row) :
  Database.id (if (Database.id r =? credential_id)%Z
               then DbSpec.updated website username encrypted_password url notes now r
               else r)
  = Database.id r.
Proof. now destruct (Database.id r =? credential_id)%Z. Qed.

Lemma consistent_of_rows (db db' : Db.t) :
  Db.consistent db ->
  map Database.id (Db.rows db') = map Database.id (Db.rows db) ->
  Db.sequence db' = Db.sequence db ->
  Db.consistent db'.
Proof.
  intros (Hn & Hs & Hr) Hids Hseq. unfold Db.consistent. rewrite Hids, Hseq.
  split; [exact Hn |]. split; [exact Hs |].
  intros r Hin. apply (in_map Database.id) in Hin. rewrite Hids in Hin.
  apply in_map_iff in Hin as (r0 & <- & Hin0). now apply Hr.
Qed.

(** What [set_master_password_hash] did when it returned. *)
Lemma set_master_password_hash_ok (password_hash : str) (db db' : Db.t) :
  Db.set_master_password_hash password_hash db = Db.Ok db' ->
  fst (Db.get_master_password_hash db') = Some password_hash
  /\ fst (Db.is_first_run db') = false
  /\ Db.rows db' = Db.rows db
  /\ Db.sequence db' = Db.sequence db.
Proof.
  unfold Db.set_master_password_hash. intros H.
  apply and_then_ok in H as (v & _ & H). apply and_then_ok in H as (u & _ & H).
  injection H as <-.
  match goal with |- fst (Db.get_master_password_hash ?d) = _ /\ _ =>
    assert (E : fst (Db.get_master_password_hash d) = Some password_hash) end.
  { unfold Db.get_master_password_hash. cbn [fst Db.settings].
    rewrite (find_replaced (fun kv => Db.str_eqb (fst kv) Db.hash_key)); [reflexivity |].
    now apply str_eqb_eq. }
  split; [exact E |]. split; [| split; reflexivity].
  unfold Db.is_first_run.
  destruct (Db.get_master_password_hash _) as [h d]. cbn [fst] in *. now rewrite E.
Qed.

Lemma consistent_empty : Db.consistent Db.empty.
Proof.
  unfold Db.consistent. cbn. split; [constructor | split; [lia | intros r []]].
Qed.

Lemma sample_vault_consistent : Db.consistent sample_vault.
Proof.
  unfold Db.consistent. cbn. split; [| split; [lia |]].
  - constructor; [intros [H | []]; discriminate H |].
    constructor; [intros [] | constructor].
  - intros r [<- | [<- | []]]; cbn; lia.
Qed.

Lemma consistent_add (website username encrypted_password url notes now : str)
  (db db' : Db.t) (new_id : Z) :
  Db.consistent db ->
  Db.add_credential website username encrypted_password url notes now db = Db.Ok (new_id, db') ->
  Db.consistent db'.
Proof.
  intros Hc H. pose proof (largest_id_consistent db Hc) as Hl.
  destruct Hc as (Hn & Hs & Hr).
  apply add_credential_ok in H as (_ & _ & _ & _ & _ & _ & Hroom & -> & Hrows & Hseq & _).
  unfold Db.consistent. rewrite Hrows, Hseq, Hl, map_app. cbn [map Database.id].
  split; [| split; [lia |]].
  - apply NoDup_app; [exact Hn | repeat constructor; intros [] |].
    + intros x Hx [<- | []]. apply in_map_iff in Hx as (r & E & Hin).
      specialize (Hr r Hin). lia.
  - intros r Hin. apply in_app_iff in Hin as [Hin | [<- | []]]; cbn [Database.id].
    + specialize (Hr r Hin). lia.
    + lia.
Qed.

(** The rows a [DELETE] leaves keep distinct [id]s. *)
Lemma remaining_ids_distinct (deleted : Z) (rows : list Database.row) :
  NoDup (map Database.id rows) ->
  NoDup (map Database.id
           (filter (fun r => negb (Database.id r =? deleted)%Z) rows)).
Proof.
  induction rows as [| x rows IH]; intros Hn; [constructor |].
  cbn [map] in Hn. apply NoDup_cons_iff in Hn as [Hx Hl].
  cbn [filter]. destruct (negb (Database.id x =? deleted)%Z); [| now apply IH].
  cbn [map]. apply NoDup_cons; [| now apply IH].
  intros Hin. apply Hx. apply in_map_iff in Hin as (r & E & Hr).
  apply filter_In in Hr as [Hr _]. rewrite <- E. now apply in_map.
Qed.

Lemma consistent_delete (credential_id : Z) (db db' : Db.t) :
  Db.consistent db -> Db.delete_credential credential_id db = Db.Ok db' -> Db.consistent db'.
Proof.
  intros (Hn & Hs & Hr) H.
  apply delete_credential_ok in H as (_ & Hrows & Hseq & _).
  unfold Db.consistent. rewrite Hrows, Hseq. split; [| split; [exact Hs |]].
  - now apply remaining_ids_distinct.
  - intros r Hin. apply filter_In in Hin as [Hin _]. now apply Hr.
Qed.

Lemma consistent_update (credential_id : Z)
  (website username encrypted_password url notes : option str) (now : str) (db db' : Db.t) :
  Db.consistent db ->
  Db.update_credential credential_id website username encrypted_password url notes now db
  = Db.Ok db' ->
  Db.consistent db'.
Proof.
  intros Hc H.
  destruct (DbSpec.nothing_provided website username encrypted_password url notes) eqn:Hp.
  - destruct website, username, encrypted_password, url, notes; try discriminate Hp.
    cbn in H. now injection H as <-.
  - apply (update_credential_ok _ _ _ _ _ _ _ _ _ Hp) in H as (_ & Hrows & Hseq & _).
    apply (consistent_of_rows db db' Hc); [| exact Hseq].
    rewrite Hrows, map_map. apply map_ext. intros r. apply updated_id.
Qed.

(* ================================================================== *)
(** * The database: what its methods guarantee                         *)
(* ================================================================== *)

(** X10.  The stored hash: after [set_master_password_hash(h)] has returned,
    [get_master_password_hash()] returns [h], whatever was stored before,
    [is_first_run()] is false, and the credentials are untouched. *)
Theorem stored_hash_is_returned (password_hash : str) (db db' : Db.t) :
  Db.set_master_password_hash password_hash db = Db.Ok db' ->
  fst (Db.get_master_password_hash db') = Some password_hash
  /\ fst (Db.is_first_run db') = false
  /\ Db.rows db' = Db.rows db.
Proof.
  intros H. destruct (set_master_password_hash_ok password_hash db db' H) as (H1 & H2 & H3 & _).
  auto.
Qed.

Lemma stored_hash_is_returned_witness :
  exists db',
    Db.set_master_password_hash (pystr "$2b$12$abcdefghijklmnopqrstuu") sample_vault = Db.Ok db'
    /\ fst (Db.get_master_password_hash db') = Some (pystr "$2b$12$abcdefghijklmnopqrstuu")
    /\ fst (Db.is_first_run db') = false
    /\ Db.rows db' = Db.rows sample_vault.
Proof.
  eexists. split; [reflexivity |].
  apply (stored_hash_is_returned (pystr "$2b$12$abcdefghijklmnopqrstuu") sample_vault).
  reflexivity.
Defined.

(** X11.  Creating the master password and unlocking the vault: a hash that
    [hash_master_password] returns has a UTF-8 encoding, so binding it cannot
    fail; and once [set_master_password_hash] has returned for it, the vault
    is no longer on its first run and the hash read back is accepted by
    [verify_master_password] for the password, provided bcrypt keeps its
    contract. *)
Theorem stored_hash_unlocks (lib : Primitives) (bcrypt_gensalt : nat -> bytes -> bytes)
  (password hashed : str) (w w' : World) :
  bcrypt_contract lib ->
  hash_master_password bcrypt_gensalt password w = (Returns hashed, w') ->
  encodable hashed
  /\ forall db db',
       Db.set_master_password_hash hashed db = Db.Ok db' ->
       fst (Db.is_first_run db') = false
       /\ exists stored,
            fst (Db.get_master_password_hash db') = Some stored
            /\ CryptoManager.verify_master_password password stored = Returns true.
Proof.
  intros Hc H.
  destruct (hash_master_password_returned lib bcrypt_gensalt password hashed w w' Hc H)
    as (pw & h & Hp & Hi & Ha & ->).
  split; [now apply ascii_str_encodable |].
  intros db db' Hset.
  destruct (set_master_password_hash_ok (map byte_val h) db db' Hset) as (Hg & Hf & _).
  split; [exact Hf |]. exists (map byte_val h). split; [exact Hg |].
  now apply (verify_rehashed password pw h).
Qed.

Lemma stored_hash_unlocks_witness :
  exists db' stored,
    Db.set_master_password_hash sample_hash Db.empty = Db.Ok db'
    /\ fst (Db.is_first_run db') = false
    /\ fst (Db.get_master_password_hash db') = Some stored
    /\ CryptoManager.verify_master_password (lib := text_lib) (pystr "Tr0ub4dor&3") stored
       = Returns true.
Proof.
  destruct (stored_hash_unlocks text_lib sample_gensalt (pystr "Tr0ub4dor&3") sample_hash
              sample_world
              (snd (hash_master_password (lib := text_lib) sample_gensalt
                      (pystr "Tr0ub4dor&3") sample_world))
              text_lib_contract ltac:(vm_compute; reflexivity)) as [_ H].
  eexists.
  destruct (H Db.empty _ ltac:(vm_compute; reflexivity)) as (Hf & stored & Hg & Hv).
  exists stored. split; [vm_compute; reflexivity |]. repeat split; assumption.
Defined.

(** X12.  Adding a credential: when [add_credential] has returned an [id] on
    a consistent database, no row had that [id] before; [get_credential(id)]
    returns the row with the five values given, both time stamps set to the
    time of the insertion; and [get_credential] of every other [id] returns
    what it returned before. *)
Theorem added_credential_is_returned
  (website username encrypted_password url notes now : str) (db db' : Db.t)
  (new_id other : Z) :
  Db.consistent db ->
  Db.add_credential website username encrypted_password url notes now db = Db.Ok (new_id, db') ->
  ~ In new_id (map Database.id (Db.rows db))
  /\ DbSpec.fetched (Db.get_credential other db')
     = if (other =? new_id)%Z
       then Some (Some {| Database.id := new_id; Database.website := website;
                          Database.username := username;
                          Database.encrypted_password := encrypted_password;
                          Database.url := Some url; Database.notes := Some notes;
                          Database.created_at := now; Database.modified_at := now |})
       else DbSpec.fetched (Db.get_credential other db).
Proof.
  intros Hc H. pose proof (largest_id_consistent db Hc) as Hl.
  destruct Hc as (Hn & Hs & Hr).
  apply add_credential_ok in H as (_ & _ & _ & _ & _ & _ & Hroom & -> & Hrows & _).
  assert (Hfresh : ~ In (Db.largest_id db + 1)%Z (map Database.id (Db.rows db))).
  { intros Hin. apply in_map_iff in Hin as (r & E & Hin). specialize (Hr r Hin). lia. }
  split; [exact Hfresh |].
  rewrite !fetched_get_credential, Hrows, find_app_absent. cbn [Database.id].
  destruct (Z.eqb_spec other (Db.largest_id db + 1)) as [-> | Hne].
  - rewrite (bind_int_int64 (Db.largest_id db + 1)) by (unfold DbSpec.int64; lia).
    rewrite (find_absent _ _ Hfresh), Z.eqb_refl. reflexivity.
  - destruct (Db.bind_int other); [| reflexivity].
    replace (Db.largest_id db + 1 =? other)%Z with false by (symmetry; apply Z.eqb_neq; lia).
    now destruct (find _ (Db.rows db)).
Qed.

Lemma added_credential_is_returned_witness :
  exists db',
    Db.add_credential (pystr "example.com") (pystr "carol") (pystr "gAAAAAD") [] []
      (pystr "2024-01-03 00:00:00") sample_vault = Db.Ok (4%Z, db')
    /\ ~ In 4%Z (map Database.id (Db.rows sample_vault))
    /\ DbSpec.fetched (Db.get_credential 4 db')
       = Some (Some {| Database.id := 4; Database.website := pystr "example.com";
                       Database.username := pystr "carol";
                       Database.encrypted_password := pystr "gAAAAAD";
                       Database.url := Some []; Database.notes := Some [];
                       Database.created_at := pystr "2024-01-03 00:00:00";
                       Database.modified_at := pystr "2024-01-03 00:00:00" |}).
Proof.
  eexists. split; [reflexivity |].
  refine (added_credential_is_returned (pystr "example.com") (pystr "carol") (pystr "gAAAAAD")
            [] [] (pystr "2024-01-03 00:00:00") sample_vault _ 4 4 _ eq_refl).
  exact sample_vault_consistent.
Defined.

(** X13.  Consistency of the table: a new database is consistent ([id] is a
    key of [credentials], and every [id] lies between 1 and the largest one
    ever given out), and every method that returns leaves a consistent
    database consistent. *)
Theorem statements_keep_consistency :
  Db.consistent Db.empty
  /\ (forall password_hash db db',
        Db.consistent db -> Db.set_master_password_hash password_hash db = Db.Ok db' ->
        Db.consistent db')
  /\ (forall db, Db.consistent db -> Db.consistent (snd (Db.get_master_password_hash db)))
  /\ (forall db, Db.consistent db -> Db.consistent (snd (Db.is_first_run db)))
  /\ (forall website username encrypted_password url notes now db db' new_id,
        Db.consistent db ->
        Db.add_credential website username encrypted_password url notes now db
        = Db.Ok (new_id, db') ->
        Db.consistent db')
  /\ (forall credential_id db db' r,
        Db.consistent db -> Db.get_credential credential_id db = Db.Ok (r, db') ->
        Db.consistent db')
  /\ (forall credential_id website username encrypted_password url notes now db db',
        Db.consistent db ->
        Db.update_credential credential_id website username encrypted_password url notes now db
        = Db.Ok db' ->
        Db.consistent db')
  /\ (forall credential_id db db',
        Db.consistent db -> Db.delete_credential credential_id db = Db.Ok db' ->
        Db.consistent db').
Proof.
  split; [exact consistent_empty |].
  split.
  { intros h db db' Hc H. apply set_master_password_hash_ok in H as (_ & _ & Hrows & Hseq).
    apply (consistent_of_rows db db' Hc); [now rewrite Hrows | exact Hseq]. }
  split; [intros db Hc; exact Hc |].
  split.
  { intros db Hc. unfold Db.is_first_run.
    destruct (Db.get_master_password_hash db) as [h d] eqn:E.
    replace d with (snd (Db.get_master_password_hash db)) by (now rewrite E). exact Hc. }
  split; [intros; eapply consistent_add; eassumption |].
  split.
  { intros credential_id db db' r Hc H. unfold Db.get_credential in H.
    apply and_then_ok in H as (v & _ & H). injection H as _ <-. exact Hc. }
  split; [intros; eapply consistent_update; eassumption |].
  intros; eapply consistent_delete; eassumption.
Qed.



(** X15.  Deleting a credential: when [delete_credential(id)] has returned,
    [get_credential(id)] returns [None], and [get_credential] of every other
    [id] returns what it returned before. *)
Theorem deleted_credential_is_gone (credential_id other : Z) (db db' : Db.t) :
  Db.delete_credential credential_id db = Db.Ok db' ->
  DbSpec.fetched (Db.get_credential other db')
  = if (other =? credential_id)%Z then Some None
    else DbSpec.fetched (Db.get_credential other db).
Proof.
  intros H. apply delete_credential_ok in H as (Hi & Hrows & _).
  rewrite !fetched_get_credential, Hrows.
  destruct (Z.eqb_spec other credential_id) as [-> | Hne].
  - rewrite (bind_int_int64 _ Hi), find_filter_same. reflexivity.
  - destruct (Db.bind_int other); [| reflexivity].
    now rewrite find_filter_other.
Qed.

Lemma deleted_credential_is_gone_witness :
  exists db',
    Db.delete_credential 1 sample_vault = Db.Ok db'
    /\ DbSpec.fetched (Db.get_credential 1 db') = Some None.
Proof.
  eexists. split; [reflexivity |].
  apply (deleted_credential_is_gone 1 1 sample_vault). reflexivity.
Defined.

(** X16.  An [id] is never given twice: on a consistent database, when a
    credential was added, any credential deleted after that, be it the one
    just added, and another credential added, the second [id] is the first
    plus one. *)
Theorem ids_never_reused
  (website1 username1 encrypted_password1 url1 notes1 now1 : str)
  (website2 username2 encrypted_password2 url2 notes2 now2 : str)
  (deleted id1 id2 : Z) (db db1 db2 db3 : Db.t) :
  Db.consistent db ->
  Db.add_credential website1 username1 encrypted_password1 url1 notes1 now1 db
  = Db.Ok (id1, db1) ->
  Db.delete_credential deleted db1 = Db.Ok db2 ->
  Db.add_credential website2 username2 encrypted_password2 url2 notes2 now2 db2
  = Db.Ok (id2, db3) ->
  id2 = (id1 + 1)%Z.
Proof.
  intros Hc H1 H2 H3.
  pose proof (consistent_add _ _ _ _ _ _ _ _ _ Hc H1) as Hc1.
  pose proof (consistent_delete _ _ _ Hc1 H2) as Hc2.
  apply add_credential_ok in H1 as (_ & _ & _ & _ & _ & _ & _ & _ & _ & Hseq1 & _).
  apply delete_credential_ok in H2 as (_ & _ & Hseq2 & _).
  apply add_credential_ok in H3 as (_ & _ & _ & _ & _ & _ & _ & -> & _).
  rewrite (largest_id_consistent db2 Hc2). lia.
Qed.

Lemma ids_never_reused_witness :
  exists db1 db2 db3,
    Db.add_credential (pystr "example.com") (pystr "carol") (pystr "gAAAAAD") [] []
      (pystr "2024-01-03 00:00:00") Db.empty = Db.Ok (1%Z, db1)
    /\ Db.delete_credential 1 db1 = Db.Ok db2
    /\ Db.add_credential (pystr "example.com") (pystr "carol") (pystr "gAAAAAD") [] []
         (pystr "2024-01-04 00:00:00") db2 = Db.Ok (2%Z, db3)
    /\ 2%Z = (1 + 1)%Z.
Proof.
  do 3 eexists. split; [reflexivity |]. split; [reflexivity |]. split; [reflexivity |].
  eapply (ids_never_reused (pystr "example.com") (pystr "carol") (pystr "gAAAAAD") [] []
            (pystr "2024-01-03 00:00:00") (pystr "example.com") (pystr "carol")
            (pystr "gAAAAAD") [] [] (pystr "2024-01-04 00:00:00") 1 1 2 Db.empty).
  - exact consistent_empty.
  - reflexivity.
  - reflexivity.
  - reflexivity.
Defined.

(** X17.  A password stored is a password retrieved: a ciphertext that
    [encrypt] has returned has a UTF-8 encoding, so binding it cannot fail;
    and once [add_credential] has returned an [id] for it on a consistent
    database, [get_credential] of that [id] returns a row, and [decrypt] of
    the [encrypted_password] of that row returns the plaintext. *)
Theorem stored_password_roundtrip (lib : Primitives) (laws : PrimitivesLaws lib)
  (self : CryptoManager.t) (plaintext ciphertext : str) (w w' : World) :
  CryptoManager.bound self ->
  CryptoManager.encrypt self plaintext w = (Returns ciphertext, w') ->
  encodable ciphertext
  /\ forall website username url notes now db new_id db1,
       Db.consistent db ->
       Db.add_credential website username ciphertext url notes now db = Db.Ok (new_id, db1) ->
       exists r,
         DbSpec.fetched (Db.get_credential new_id db1) = Some (Some r)
         /\ CryptoManager.decrypt self (Database.encrypted_password r) = Returns plaintext.
Proof.
  intros Hb He.
  assert (E3 : encodable ciphertext).
  { destruct (encrypt_returned self plaintext ciphertext w w' Hb He)
      as [(_ & -> & _) | (_ & _ & _ & _ & token & -> & Ha & _)];
      [constructor | now apply ascii_str_encodable]. }
  split; [exact E3 |].
  intros website username url notes now db new_id db1 Hc Hadd.
  pose proof (largest_id_consistent db Hc) as Hl.
  pose proof (add_credential_ok _ _ _ _ _ _ _ _ _ Hadd)
    as (_ & _ & _ & _ & _ & _ & Hroom & -> & Hrows & _).
  destruct Hc as (Hn & Hs & Hr).
  rewrite fetched_get_credential, Hrows, find_app_absent. cbn [Database.id].
  rewrite (bind_int_int64 (Db.largest_id db + 1)) by (unfold DbSpec.int64; lia).
  rewrite find_absent, Z.eqb_refl.
  - eexists. split; [reflexivity |]. cbn [Database.encrypted_password].
    now apply (encrypt_returned_decrypts self plaintext ciphertext w w').
  - intros Hin. apply in_map_iff in Hin as (r & E & Hin). specialize (Hr r Hin). lia.
Qed.

Lemma stored_password_roundtrip_witness :
  exists ciphertext db1 r,
    Db.add_credential (pystr "example.com") (pystr "carol") ciphertext [] []
      (pystr "2024-01-03 00:00:00") sample_vault = Db.Ok (4%Z, db1)
    /\ DbSpec.fetched (Db.get_credential 4 db1) = Some (Some r)
    /\ CryptoManager.decrypt (lib := sample_lib) sample_manager (Database.encrypted_password r)
       = Returns (pystr "hunter2").
Proof.
  destruct (encrypt_then_decrypt (laws := sample_lib_laws) sample_manager (pystr "hunter2")
              sample_world) as (ciphertext & w' & He & _).
  - apply (instance_bound (laws := sample_lib_laws)).
  - discriminate.
  - apply encodable_test. reflexivity.
  - cbn. lia.
  - destruct (stored_password_roundtrip sample_lib sample_lib_laws sample_manager
                (pystr "hunter2") ciphertext sample_world w'
                (instance_bound (laws := sample_lib_laws) _ _) He) as [Henc H].
    destruct (add_credential_returns (pystr "example.com") (pystr "carol") ciphertext [] []
                (pystr "2024-01-03 00:00:00") sample_vault) as [db1 Hadd].
    + apply encodable_test. reflexivity.
    + apply encodable_test. reflexivity.
    + exact Henc.
    + constructor.
    + constructor.
    + reflexivity.
    + cbn. lia.
    + destruct (H _ _ _ _ _ _ _ _ sample_vault_consistent Hadd) as (r & Hg & Hd).
      exists ciphertext, db1, r. repeat split; assumption.
Defined.

(* ================================================================== *)
(** * The generator, the validator and the cipher together             *)
(* ================================================================== *)

(** The characters of every pool are ASCII. *)
Lemma pool_of_ascii (uu ul ud us : bool) (c : N) :
  In c (PasswordGenerator.pool_of uu ul ud us) -> (c < 128)%N.
Proof.
  intros H. apply in_pool_of in H.
  assert (Hall : Forall (fun c => (c < 128)%N)
                   (PasswordGenerator.ascii_uppercase ++ PasswordGenerator.ascii_lowercase
                    ++ PasswordGenerator.digits ++ PasswordGenerator.symbols)).
  { apply Forall_forall. intros x Hx.
    assert (Hb : forallb (fun c => (c <? 128)%N)
                   (PasswordGenerator.ascii_uppercase ++ PasswordGenerator.ascii_lowercase
                    ++ PasswordGenerator.digits ++ PasswordGenerator.symbols) = true)
      by (vm_compute; reflexivity).
    rewrite forallb_forall in Hb. now apply N.ltb_lt, Hb. }
  rewrite Forall_forall in Hall. apply Hall. rewrite !in_app_iff. tauto.
Qed.

Lemma ascii_chars_encodable (s : str) : Forall (fun c => (c < 128)%N) s -> encodable s.
Proof.
  intros H. eapply Forall_impl; [| exact H]. intros c Hc. cbv beta in Hc.
  split; [| lia]. unfold Utf8.is_surrogate. apply andb_false_iff. left. apply N.leb_gt. lia.
Qed.

(** X18.  A generated password can always be encrypted: it is not empty and
    it is ASCII text, so under an instance whose cipher is bound to its key
    and a clock that reads a time in 64 bits [encrypt] returns a ciphertext,
    and [decrypt] of it returns the generated password. *)
Theorem generated_password_encrypts (lib : Primitives) (laws : PrimitivesLaws lib)
  (length : Z) (uu ul ud us : bool) (g g' : Rng) (password : str)
  (self : CryptoManager.t) (w : World) :
  PasswordGenerator.generate_password length uu ul ud us g = (Returns password, g') ->
  CryptoManager.bound self -> (0 <= time w < 2 ^ 64)%Z ->
  exists ciphertext w',
    CryptoManager.encrypt self password w = (Returns ciphertext, w')
    /\ CryptoManager.decrypt self ciphertext = Returns password.
Proof.
  intros H Hb Ht.
  destruct (generate_password_returned _ _ _ _ _ _ _ _ H) as [Hlen Hsel].
  destruct (generate_password_shape length uu ul ud us g Hlen Hsel)
    as (p & g1 & E & Hl & Hp & _).
  rewrite E in H. injection H as -> _.
  assert (Hne : password <> []) by (intros ->; cbn in Hl; lia).
  assert (Henc : encodable password).
  { apply ascii_chars_encodable. eapply Forall_impl; [| exact Hp].
    intros c Hc. eapply pool_of_ascii, Hc. }
  destruct (encrypt_then_decrypt self password w Hb Hne Henc Ht)
    as (ciphertext & w' & He & _ & Hd).
  now exists ciphertext, w'.
Qed.

Lemma generated_password_encrypts_witness :
  exists ciphertext w',
    CryptoManager.encrypt (lib := sample_lib) sample_manager sample_password sample_world
    = (Returns ciphertext, w')
    /\ CryptoManager.decrypt (lib := sample_lib) sample_manager ciphertext
       = Returns sample_password.
Proof.
  apply (generated_password_encrypts sample_lib sample_lib_laws 16 true false true true
           sample_rng
           (snd (PasswordGenerator.generate_password 16 true false true true sample_rng))).
  - vm_compute. reflexivity.
  - apply (instance_bound (laws := sample_lib_laws)).
  - cbn. lia.
Defined.

Lemma any_permutation (p : N -> bool) (a b : str) :
  Permutation a b -> CryptoManager.any p a = CryptoManager.any p b.
Proof.
  intros H. apply bool_eq_iff. rewrite !any_true_iff.
  split; intros (c & Hin & Hc); exists c; split; try assumption.
  - eapply Permutation_in; eassumption.
  - eapply Permutation_in; [apply Permutation_sym |]; eassumption.
Qed.

(** X19.  [validate_password_strength] is monotone, and blind to order: a
    password that is accepted stays accepted when characters are inserted
    anywhere in it, and two passwords with the same characters in another
    order get the same answer. *)
Theorem validate_password_strength_monotone :
  (forall prefix extra suffix,
     fst (CryptoManager.validate_password_strength (prefix ++ suffix)) = true ->
     fst (CryptoManager.validate_password_strength (prefix ++ extra ++ suffix)) = true)
  /\ (forall password rearranged,
        Permutation password rearranged ->
        CryptoManager.validate_password_strength rearranged
        = CryptoManager.validate_password_strength password).
Proof.
  split.
  - intros prefix extra suffix.
    rewrite !validate_iff_strong. intros (Hlen & classes & Hn & Hc & Hp).
    split; [rewrite !length_app in *; lia |].
    exists classes. repeat split; try assumption.
    intros k Hk. destruct (Hp k Hk) as (c & Hin & Hcl). exists c. split; [| exact Hcl].
    rewrite !in_app_iff in *. tauto.
  - intros password rearranged H.
    unfold CryptoManager.validate_password_strength.
    rewrite (Permutation_length H).
    now rewrite !(any_permutation _ _ _ H).
Qed.

(* ================================================================== *)
(** * Storing and replacing encrypted passwords                        *)
(* ================================================================== *)

Lemma bind_text_error (s : str) (e : exn) :
  Utf8.encode s = Raises e -> Db.bind_text s = Db.Error (Db.Python e).
Proof. intros H. unfold Db.bind_text. now rewrite H. Qed.

(** X20.  When [add_credential] fails.  Its five texts are bound in the order
    of the parameters: the first of them that has no UTF-8 encoding makes it
    raise the error of the codec, whatever the state of the database.  With
    the five bound, a refusal of the engine (the file locked by another
    connection, say) makes it raise [sqlite3.OperationalError] with the
    message of the engine; without a refusal, on a consistent database whose
    largest [id] ever given is [2^63 - 1], it raises
    [sqlite3.OperationalError('database or disk is full')].  In every other
    case on a consistent database it returns, and so it returns exactly when
    the five texts have an encoding, the engine does not refuse and an [id]
    is left. *)
Theorem add_credential_fails_iff
  (website username encrypted_password url notes now : str) (db : Db.t) :
  (forall e, Utf8.encode website = Raises e ->
     Db.add_credential website username encrypted_password url notes now db
     = Db.Error (Db.Python e))
  /\ (forall e, encodable website -> Utf8.encode username = Raises e ->
        Db.add_credential website username encrypted_password url notes now db
        = Db.Error (Db.Python e))
  /\ (forall e, encodable website -> encodable username ->
        Utf8.encode encrypted_password = Raises e ->
        Db.add_credential website username encrypted_password url notes now db
        = Db.Error (Db.Python e))
  /\ (forall e, encodable website -> encodable username -> encodable encrypted_password ->
        Utf8.encode url = Raises e ->
        Db.add_credential website username encrypted_password url notes now db
        = Db.Error (Db.Python e))
  /\ (forall e, encodable website -> encodable username -> encodable encrypted_password ->
        encodable url -> Utf8.encode notes = Raises e ->
        Db.add_credential website username encrypted_password url notes now db
        = Db.Error (Db.Python e))
  /\ (forall msg, encodable website -> encodable username -> encodable encrypted_password ->
        encodable url -> encodable notes -> Db.refusal db = Some msg ->
        Db.add_credential website username encrypted_password url notes now db
        = Db.Error (Db.OperationalError msg))
  /\ (encodable website -> encodable username -> encodable encrypted_password ->
      encodable url -> encodable notes -> Db.refusal db = None ->
      Db.consistent db -> Db.sequence db = (2 ^ 63 - 1)%Z ->
      Db.add_credential website username encrypted_password url notes now db
      = Db.Error (Db.OperationalError (pystr "database or disk is full")))
  /\ (Db.consistent db ->
      ((exists new_id db',
          Db.add_credential website username encrypted_password url notes now db
          = Db.Ok (new_id, db'))
       <-> encodable website /\ encodable username /\ encodable encrypted_password
           /\ encodable url /\ encodable notes /\ Db.refusal db = None
           /\ (Db.sequence db < 2 ^ 63 - 1)%Z)).
Proof.
  repeat match goal with |- _ /\ _ => split end.
  - intros e He. unfold Db.add_credential. now rewrite (bind_text_error _ _ He).
  - intros e E1 He. unfold Db.add_credential.
    rewrite (bind_text_encodable _ E1). cbn [Db.and_then].
    now rewrite (bind_text_error _ _ He).
  - intros e E1 E2 He. unfold Db.add_credential.
    rewrite (bind_text_encodable _ E1), (bind_text_encodable _ E2). cbn [Db.and_then].
    now rewrite (bind_text_error _ _ He).
  - intros e E1 E2 E3 He. unfold Db.add_credential.
    rewrite (bind_text_encodable _ E1), (bind_text_encodable _ E2),
      (bind_text_encodable _ E3). cbn [Db.and_then].
    now rewrite (bind_text_error _ _ He).
  - intros e E1 E2 E3 E4 He. unfold Db.add_credential.
    rewrite (bind_text_encodable _ E1), (bind_text_encodable _ E2),
      (bind_text_encodable _ E3), (bind_text_encodable _ E4). cbn [Db.and_then].
    now rewrite (bind_text_error _ _ He).
  - intros msg E1 E2 E3 E4 E5 Hr. unfold Db.add_credential.
    rewrite !bind_text_encodable by assumption. cbn [Db.and_then].
    unfold Db.write_lock. now rewrite Hr.
  - intros E1 E2 E3 E4 E5 Hfree Hc Hfull. unfold Db.add_credential.
    rewrite !bind_text_encodable by assumption. rewrite (write_lock_granted db Hfree).
    cbn [Db.and_then]. rewrite (largest_id_consistent db Hc).
    replace (2 ^ 63 - 1 <=? Db.sequence db)%Z with true
      by (symmetry; apply Z.leb_le; lia).
    reflexivity.
  - intros Hc. pose proof (largest_id_consistent db Hc) as Hl. split.
    + intros (new_id & db' & H).
      apply add_credential_ok in H as (E1 & E2 & E3 & E4 & E5 & Hfree & Hroom & _).
      rewrite Hl in Hroom. auto 10.
    + intros (E1 & E2 & E3 & E4 & E5 & Hfree & Hroom).
      destruct (add_credential_returns website username encrypted_password url notes now db
                  E1 E2 E3 E4 E5 Hfree ltac:(lia)) as [db' H].
      eauto.
Qed.

Lemma add_credential_fails_iff_witness :
  (exists new_id db',
     Db.add_credential (pystr "example.com") (pystr "carol") (pystr "gAAAAAD") [] []
       (pystr "2024-01-03 00:00:00") sample_vault = Db.Ok (new_id, db'))
  /\ Db.add_credential (pystr "example.com") (pystr "carol") [0xD800%N] [0xD801%N] [0xD802%N]
       (pystr "2024-01-03 00:00:00") locked_vault
     = Db.Error (Db.Python (UnicodeEncodeError [0xD800%N] 0 1 (pystr "surrogates not allowed")))
  /\ Db.add_credential (pystr "example.com") (pystr "carol") (pystr "gAAAAAD") [] []
       (pystr "2024-01-03 00:00:00") locked_vault
     = Db.Error (Db.OperationalError (pystr "database is locked")).
Proof.
  assert (E1 : encodable (pystr "example.com")) by (apply encodable_test; reflexivity).
  assert (E2 : encodable (pystr "carol")) by (apply encodable_test; reflexivity).
  assert (E3 : encodable (pystr "gAAAAAD")) by (apply encodable_test; reflexivity).
  split; [| split].
  - apply (proj2 (proj2 (proj2 (proj2 (proj2 (proj2 (proj2
             (add_credential_fails_iff (pystr "example.com") (pystr "carol")
                (pystr "gAAAAAD") [] [] (pystr "2024-01-03 00:00:00") sample_vault)))))))
           sample_vault_consistent).
    repeat split; try assumption; try constructor.
  - apply (proj1 (proj2 (proj2
             (add_credential_fails_iff (pystr "example.com") (pystr "carol")
                [0xD800%N] [0xD801%N] [0xD802%N] (pystr "2024-01-03 00:00:00")
                locked_vault)))); [assumption | assumption | reflexivity].
  - apply (proj1 (proj2 (proj2 (proj2 (proj2 (proj2
             (add_credential_fails_iff (pystr "example.com") (pystr "carol")
                (pystr "gAAAAAD") [] [] (pystr "2024-01-03 00:00:00") locked_vault)))))));
      try assumption; try constructor.
Defined.

(** X21.  Replacing a stored password: a ciphertext that [encrypt] has
    returned has a UTF-8 encoding, so binding it cannot fail; and once
    [update_credential] has returned with that ciphertext as its only field,
    for an [id] of which [get_credential] returned a row, [get_credential] of
    the [id] returns a row whose [encrypted_password] decrypts to the new
    plaintext, whose [website], [username], [url], [notes] and [created_at]
    are those of the row before, and whose [modified_at] is the time of the
    update. *)
Theorem replaced_password_roundtrip (lib : Primitives) (laws : PrimitivesLaws lib)
  (self : CryptoManager.t) (plaintext ciphertext : str) (w w' : World) :
  CryptoManager.bound self ->
  CryptoManager.encrypt self plaintext w = (Returns ciphertext, w') ->
  encodable ciphertext
  /\ forall credential_id now db db1 r,
       DbSpec.fetched (Db.get_credential credential_id db) = Some (Some r) ->
       Db.update_credential credential_id None None (Some ciphertext) None None now db
       = Db.Ok db1 ->
       exists r',
         DbSpec.fetched (Db.get_credential credential_id db1) = Some (Some r')
         /\ CryptoManager.decrypt self (Database.encrypted_password r') = Returns plaintext
         /\ Database.website r' = Database.website r
         /\ Database.username r' = Database.username r
         /\ Database.url r' = Database.url r
         /\ Database.notes r' = Database.notes r
         /\ Database.created_at r' = Database.created_at r
         /\ Database.modified_at r' = now.
Proof.
  intros Hb He.
  assert (E3 : encodable ciphertext).
  { destruct (encrypt_returned self plaintext ciphertext w w' Hb He)
      as [(_ & -> & _) | (_ & _ & _ & _ & token & -> & Ha & _)];
      [constructor | now apply ascii_str_encodable]. }
  split; [exact E3 |].
  intros credential_id now db db1 r Hget Hupd.
  rewrite fetched_get_credential in Hget.
  destruct (Db.bind_int credential_id) as [v |] eqn:Hv; [| discriminate].
  assert (Hfind : find (fun x => (Database.id x =? credential_id)%Z) (Db.rows db) = Some r)
    by congruence.
  pose proof (update_credential_ok credential_id None None (Some ciphertext) None None now
                db db1 eq_refl Hupd) as (_ & Hrows & _).
  rewrite fetched_get_credential, Hv, Hrows.
  rewrite find_map_id by (intros x; apply updated_id).
  rewrite Hfind. cbn [option_map].
  apply find_some in Hfind as [_ Hid]. rewrite Hid.
  eexists. split; [reflexivity |]. cbn. split; [| repeat split].
  now apply (encrypt_returned_decrypts self plaintext ciphertext w w').
Qed.

Lemma replaced_password_roundtrip_witness :
  exists ciphertext db1 r',
    Db.update_credential 2 None None (Some ciphertext) None None
      (pystr "2024-02-01T10:00:00") sample_vault = Db.Ok db1
    /\ DbSpec.fetched (Db.get_credential 2 db1) = Some (Some r')
    /\ CryptoManager.decrypt (lib := sample_lib) sample_manager (Database.encrypted_password r')
       = Returns (pystr "hunter2")
    /\ Database.username r' = pystr "bob".
Proof.
  destruct (encrypt_then_decrypt (laws := sample_lib_laws) sample_manager (pystr "hunter2")
              sample_world) as (ciphertext & w' & He & _).
  - apply (instance_bound (laws := sample_lib_laws)).
  - discriminate.
  - apply encodable_test. reflexivity.
  - cbn. lia.
  - destruct (replaced_password_roundtrip sample_lib sample_lib_laws sample_manager
                (pystr "hunter2") ciphertext sample_world w'
                (instance_bound (laws := sample_lib_laws) _ _) He) as [Henc H].
    assert (Hupd : exists db1,
               Db.update_credential 2 None None (Some ciphertext) None None
                 (pystr "2024-02-01T10:00:00") sample_vault = Db.Ok db1).
    { unfold Db.update_credential, Db.bind_optional.
      rewrite (bind_text_encodable _ Henc). cbn [Db.and_then].
      rewrite (bind_text_encodable (pystr "2024-02-01T10:00:00"))
        by (apply encodable_test; reflexivity).
      cbn [Db.and_then]. eexists. reflexivity. }
    destruct Hupd as [db1 Hupd].
    destruct (H 2%Z (pystr "2024-02-01T10:00:00") sample_vault db1
                {| Database.id := 2; Database.website := pystr "example.net";
                   Database.username := pystr "bob";
                   Database.encrypted_password := pystr "gAAAAAC";
                   Database.url := None; Database.notes := None;
                   Database.created_at := pystr "2024-01-02 00:00:00";
                   Database.modified_at := pystr "2024-01-02 00:00:00" |}
                eq_refl Hupd) as (r' & H1 & H2 & _ & H3 & _).
    exists ciphertext, db1, r'. repeat split; assumption.
Defined.

(* ================================================================== *)
(** * The initialization vector in the ciphertext                      *)
(* ================================================================== *)





